(** * Review gate, regeneration and video streaming of the dashboard backend

    A shallow embedding of the Express controllers of the admin dashboard
    ([scriptController], [videoController], [listingController]), of the
    Mongoose schemas they work on ([Script], [Video], [Listing], [Job]) and of
    [PipelineService], followed by the properties of the orchestration core.
    Also embedded: the QR code regeneration and listing of [qrController],
    the statistics of [dealerController], the routes that write scripts and
    videos, and what the scripts and videos pages of the dashboard compute
    before they call a handler.

    Conventions of the embedding:
    - a collection addressed by [_id] is a [gmap string _]; the listings,
      which are also queried by [stockNumber] ([findOneAndUpdate] takes the
      first match in natural order), are a list;
    - [req.params.id] is either the id of a document or a string that is no
      ObjectId, which the queries by id refuse with a [CastError];
    - the file system is a [gmap] from paths to files, whose sizes are safe
      integers;
    - [new Date()] is a parameter [now] of every handler;
    - a handler is a function from the store to the new store and the HTTP
      response; an exception caught by the handler's [catch] discards the
      in-memory document and answers with the handler's error code;
    - a promise is its outcome, fulfilled or rejected;
    - JavaScript numbers are the integers a double holds, [NaN] and the
      infinities; strings are sequences of code units below 256. *)

From Stdlib Require Import ZArith QArith Qround Lia Bool.
From Stdlib Require Import Strings.String Strings.Ascii Strings.Byte.
From Stdlib Require Import Numbers.DecimalString Numbers.DecimalZ Numbers.DecimalN.
From stdpp Require Import base option list gmap strings.

Local Open Scope string_scope.
Local Open Scope list_scope.
Local Open Scope Z_scope.

(** ** JavaScript primitives used by the controllers *)

Module JS.

(** Numbers as the handlers meet them: an integer, [NaN], or an infinity.
    The results of [parseInt] and of the arithmetic are doubles: [Num z]
    then holds an integer that a double represents exactly. *)
Inductive number :=
| Num (z : Z)
| NaN
| Infinity (negative : bool).

(** [Number.MAX_SAFE_INTEGER], [2^53 - 1]. *)
Definition MAX_SAFE_INTEGER : Z := 9007199254740991.

(** The double nearest to a natural number [p], ties to even: [p] itself
    when it has at most 53 bits; otherwise its 53 leading bits [q], rounded
    by the [sh] bits [r] that are dropped. *)
Definition round_to_53_bits (p : Z) : Z :=
  let k := Z.log2 p in
  if k <? 53 then p
  else
    let sh := k - 52 in
    let q := Z.shiftr p sh in
    let r := p - Z.shiftl q sh in
    let half := Z.shiftl 1 (sh - 1) in
    let q' := if (half <? r) || ((r =? half) && Z.odd q) then q + 1 else q in
    Z.shiftl q' sh.

(** The Number value of an integer: the nearest double, an infinity from
    [2^1024] on. *)
Definition to_double (z : Z) : number :=
  let m := round_to_53_bits (Z.abs z) in
  if 2 ^ 1024 <=? m then Infinity (z <? 0) else Num (Z.sgn z * m).

(** The characters of the class [\s] below code unit 256:
    TAB, LF, VT, FF, CR, SPACE and NBSP. *)
Definition is_space (c : ascii) : bool :=
  let n := N_of_ascii c in
  ((9 <=? n) && (n <=? 13) || (n =? 32) || (n =? 160))%N.

Definition is_digit (c : ascii) : bool :=
  let n := N_of_ascii c in ((48 <=? n) && (n <=? 57))%N.

Definition digit_value (c : ascii) : Z := Z.of_N (N_of_ascii c) - 48.

(** [s.split(/\s+/)]: the pieces between the maximal runs of white space.
    [in_ws] tells that the previous character belonged to a separator, so
    that a run of white space closes one piece only. The last piece is
    always emitted, also when it is empty. *)
Fixpoint split_ws_from (in_ws : bool) (s : string) : list string :=
  match s with
  | EmptyString => [EmptyString]
  | String c s' =>
      if is_space c then
        if in_ws then split_ws_from true s'
        else EmptyString :: split_ws_from true s'
      else
        match split_ws_from false s' with
        | p :: ps => String c p :: ps
        | [] => [String c EmptyString]
        end
  end.

Definition split_ws (s : string) : list string := split_ws_from false s.

(** [s.split(sep)] for a one-character separator. *)
Fixpoint split_char (sep : ascii) (s : string) : list string :=
  match s with
  | EmptyString => [EmptyString]
  | String c s' =>
      if Ascii.eqb c sep then EmptyString :: split_char sep s'
      else
        match split_char sep s' with
        | p :: ps => String c p :: ps
        | [] => [String c EmptyString]
        end
  end.

(** Does the literal pattern [pat] match at the start of [s]? *)
Fixpoint starts_with (pat s : string) : bool :=
  match pat, s with
  | EmptyString, _ => true
  | String a pat', String b s' => Ascii.eqb a b && starts_with pat' s'
  | String _ _, EmptyString => false
  end.

(** [s.replace(/pat/, '')] for a pattern without metacharacters: the first
    occurrence of [pat] is removed. *)
Fixpoint remove_first (pat s : string) : string :=
  if starts_with pat s then
    String.substring (String.length pat) (String.length s - String.length pat) s
  else
    match s with
    | EmptyString => EmptyString
    | String c s' => String c (remove_first pat s')
    end.

(** The digits read by [parseInt]: the longest prefix of decimal digits,
    [None] when there is none. *)
Fixpoint read_digits (acc : option Z) (s : string) : option Z :=
  match s with
  | EmptyString => acc
  | String c s' =>
      if is_digit c then
        read_digits (Some (10 * default 0 acc + digit_value c)) s'
      else acc
  end.

Fixpoint skip_spaces (s : string) : string :=
  match s with
  | String c s' => if is_space c then skip_spaces s' else s
  | EmptyString => EmptyString
  end.

(** [parseInt(s, 10)]: the Number value of the integer the digits write. *)
Definition parseInt (s : string) : number :=
  let s1 := skip_spaces s in
  let '(neg, s2) :=
    match s1 with
    | String "-" r => (true, r)
    | String "+" r => (false, r)
    | _ => (false, s1)
    end in
  match read_digits None s2 with
  | Some z => to_double (if neg : bool then - z else z)
  | None => NaN
  end.

(** [`${n}`] for a number: the decimal digits of an integer. (From [10^21]
    on JavaScript prints an exponent; the handlers print no such number.) *)
Definition to_string (n : number) : string :=
  match n with
  | Num z => NilEmpty.string_of_int (Z.to_int z)
  | NaN => "NaN"
  | Infinity false => "Infinity"
  | Infinity true => "-Infinity"
  end.

Definition add (a b : number) : number :=
  match a, b with
  | Num x, Num y => to_double (x + y)
  | Infinity s, Num _ | Num _, Infinity s => Infinity s
  | Infinity s, Infinity t => if Bool.eqb s t then Infinity s else NaN
  | NaN, _ | _, NaN => NaN
  end.

Definition sub (a b : number) : number :=
  match a, b with
  | Num x, Num y => to_double (x - y)
  | Infinity s, Num _ => Infinity s
  | Num _, Infinity s => Infinity (negb s)
  | Infinity s, Infinity t => if Bool.eqb s t then NaN else Infinity s
  | NaN, _ | _, NaN => NaN
  end.

(** Truthiness of an optional string: [undefined] and [''] are falsy. *)
Definition truthy (o : option string) : bool :=
  match o with
  | Some s => negb (String.eqb s EmptyString)
  | None => false
  end.

(** [a || b] on an optional string with a string default. *)
Definition or_else (o : option string) (d : string) : string :=
  match o with
  | Some s => if String.eqb s EmptyString then d else s
  | None => d
  end.

(** [Math.ceil(w / 2.5)] on an integer [w]; the quotient is taken in the
    rationals, which the floating-point division agrees with on every
    count a document can hold. *)
Definition ceil_div_2_5 (w : Z) : Z := Qceiling (inject_Z w / (5 # 2)).

(** A string of decimal digits only. *)
Fixpoint all_digits (s : string) : bool :=
  match s with
  | EmptyString => true
  | String c s' => is_digit c && all_digits s'
  end.

(** The words of a text, as a reader counts them: its maximal runs of
    characters that are not white space. [in_word] tells that the previous
    character belonged to a word. *)
Fixpoint count_words_from (in_word : bool) (s : string) : nat :=
  match s with
  | EmptyString => 0%nat
  | String c s' =>
      if is_space c then count_words_from false s'
      else ((if in_word then 0 else 1) + count_words_from true s')%nat
  end.

Definition count_words (s : string) : nat := count_words_from false s.

Definition starts_nonspace (s : string) : bool :=
  match s with
  | String c _ => negb (is_space c)
  | EmptyString => false
  end.

Fixpoint ends_nonspace (s : string) : bool :=
  match s with
  | EmptyString => false
  | String c s' =>
      match s' with
      | EmptyString => negb (is_space c)
      | String _ _ => ends_nonspace s'
      end
  end.

End JS.

Arguments JS.to_double : simpl never.
Arguments JS.round_to_53_bits : simpl never.

(** ** Documents (models/ and types/index.ts) *)

Definition Date := Z.

(** Mongoose's [required: true] on a [String] path rejects the empty string. *)
Definition required (s : string) : bool := negb (String.eqb s EmptyString).

Inductive ListingStatus :=
| L_pending | L_images_downloaded | L_images_processed
| L_script_generated | L_script_approved | L_voiceover_generated
| L_video_generated | L_video_approved | L_published | L_error.

Inductive ScriptStatus :=
| S_draft | S_pending_approval | S_approved | S_rejected.

Inductive VideoStatus :=
| V_processing | V_ready | V_approved | V_rejected | V_published.

Inductive JobStatus :=
| J_queued | J_processing | J_completed | J_failed.

Inductive JobType :=
| import_csv | download_images | process_images
| generate_script | generate_voiceover | generate_video
| regenerate_video | publish_video.

Inductive Condition := New | Used | Certified.

(** What a handler's [catch], or nobody, can receive. *)
Inductive Exception :=
| ValidationError (model path : string)
| CastError (model value : string)
| ReferenceError
| TypeError
| RangeError.

(** [req.params.id] as Mongoose's cast to [ObjectId] reads it: the id of a
    document (the collections are keyed by these), or a string that is no
    ObjectId. *)
Inductive Param :=
| Id (id : string)
| Malformed (value : string).

(** The cast that [findById], [findByIdAndUpdate] and [findByIdAndDelete]
    of a model apply to their argument: a string that is no ObjectId throws
    a [CastError] before any query is sent. *)
Definition castObjectId (model : string) (p : Param) : Exception + string :=
  match p with
  | Id id => inr id
  | Malformed value => inl (CastError model value)
  end.

(** The outcome of a promise. *)
Inductive Promise (T : Type) :=
| Fulfilled (v : T)
| Rejected (e : Exception).
Arguments Fulfilled {T}.
Arguments Rejected {T}.

Module ScriptVersion.
Record t := mk {
  content : string;
  createdAt : Date;
  createdBy : string
}.
End ScriptVersion.

Module Script.
Record t := mk {
  listingId : string;
  content : string;
  wordCount : Z;
  estimatedDuration : Z;
  status : ScriptStatus;
  approvedBy : option string;
  approvedAt : option Date;
  rejectionReason : option string;
  versions : list ScriptVersion.t;
  updatedAt : Date
}.

(** The paths that [save()] validates (ScriptSchema): the required strings
    of the document and of every element of [versions]. *)
Definition validate (s : t) : option Exception :=
  if negb (required (listingId s)) then Some (ValidationError "Script" "listingId")
  else if negb (required (content s)) then Some (ValidationError "Script" "content")
  else if negb (forallb (fun v => required (ScriptVersion.content v)) (versions s))
  then Some (ValidationError "Script" "versions.content")
  else None.
End Script.

Module Video.
Record t := mk {
  listingId : string;
  dealerId : string;
  path : string;
  duration : Z;
  resolution : string;
  fileSize : Z;
  status : VideoStatus;
  approvedBy : option string;
  approvedAt : option Date;
  publishedAt : option Date;
  fastChannelId : option string;
  thumbnailPath : option string;
  updatedAt : Date
}.

Definition validate (v : t) : option Exception :=
  if negb (required (listingId v)) then Some (ValidationError "Video" "listingId")
  else if negb (required (dealerId v)) then Some (ValidationError "Video" "dealerId")
  else if negb (required (path v)) then Some (ValidationError "Video" "path")
  else if negb (required (resolution v)) then Some (ValidationError "Video" "resolution")
  else None.
End Video.

Module ListingAssets.
Record t := mk {
  originalPhotos : list string;
  processedPhotos : list string;
  script : option string;
  voiceoverPath : option string;
  qrCodePath : option string;
  videoPath : option string
}.
End ListingAssets.

Module Listing.
Record t := mk {
  _id : string;
  dealerId : string;
  stockNumber : string;
  vin : string;
  year : Z;
  make : string;
  model : string;
  trim : option string;
  condition : Condition;
  price : Z;
  odometer : option Z;
  color : option string;
  photoUrls : list string;
  listingUrl : string;
  status : ListingStatus;
  assets : ListingAssets.t;
  updatedAt : Date
}.

Definition validate (l : t) : option Exception :=
  if negb (required (dealerId l)) then Some (ValidationError "Listing" "dealerId")
  else if negb (required (stockNumber l)) then Some (ValidationError "Listing" "stockNumber")
  else if negb (required (vin l)) then Some (ValidationError "Listing" "vin")
  else if negb (required (make l)) then Some (ValidationError "Listing" "make")
  else if negb (required (model l)) then Some (ValidationError "Listing" "model")
  else if negb (required (listingUrl l)) then Some (ValidationError "Listing" "listingUrl")
  else None.

Definition set_status (st : ListingStatus) (now : Date) (l : t) : t :=
  mk (_id l) (dealerId l) (stockNumber l) (vin l) (year l) (make l) (model l)
     (trim l) (condition l) (price l) (odometer l) (color l) (photoUrls l)
     (listingUrl l) st (assets l) now.
End Listing.

Module Job.
Record t := mk {
  type : JobType;
  dealerId : string;
  listingId : option string;
  status : JobStatus;
  progress : Z;
  error : option string;
  startedAt : option Date;
  completedAt : option Date
}.

Definition active (j : t) : bool :=
  match status j with
  | J_queued | J_processing => true
  | _ => false
  end.

Definition for_listing (L : string) (j : t) : bool :=
  match listingId j with
  | Some l => String.eqb l L
  | None => false
  end.
End Job.

(** Equality of documents is decidable: [save()] compares the document in
    memory with the one that was loaded. *)
#[global] Instance ListingStatus_eq_dec : EqDecision ListingStatus.
Proof. solve_decision. Defined.
#[global] Instance VideoStatus_eq_dec : EqDecision VideoStatus.
Proof. solve_decision. Defined.
#[global] Instance Condition_eq_dec : EqDecision Condition.
Proof. solve_decision. Defined.
#[global] Instance Video_eq_dec : EqDecision Video.t.
Proof. solve_decision. Defined.
#[global] Instance ListingAssets_eq_dec : EqDecision ListingAssets.t.
Proof. solve_decision. Defined.
#[global] Instance Listing_eq_dec : EqDecision Listing.t.
Proof. solve_decision. Defined.

(** ** The store: MongoDB collections and the file system *)

(** A file: its bytes. Its size is a safe integer, which [fs.statSync]
    reports exactly. *)
Module File.
Record t := mk {
  bytes : list byte;
  size_safe : (Z.of_nat (length bytes) <=? JS.MAX_SAFE_INTEGER) = true
}.
End File.

(** What the handlers do to the world outside the database, oldest first:
    a file removed, a document written by [save()], and a promise that was
    rejected with nobody awaiting or catching it, which Node reports as an
    unhandled rejection. *)
Inductive Event :=
| EvUnlink (path : string)
| EvSave (model id : string)
| EvUnhandledRejection (e : Exception).

Record Store := mkStore {
  listings : list Listing.t;
  scripts : gmap string Script.t;
  videos : gmap string Video.t;
  jobs : list Job.t;
  files : gmap string File.t;
  log : list Event
}.

Definition set_listings (ls : list Listing.t) (st : Store) : Store :=
  mkStore ls (scripts st) (videos st) (jobs st) (files st) (log st).
Definition set_scripts (m : gmap string Script.t) (st : Store) : Store :=
  mkStore (listings st) m (videos st) (jobs st) (files st) (log st).
Definition set_videos (m : gmap string Video.t) (st : Store) : Store :=
  mkStore (listings st) (scripts st) m (jobs st) (files st) (log st).
Definition set_jobs (js : list Job.t) (st : Store) : Store :=
  mkStore (listings st) (scripts st) (videos st) js (files st) (log st).
Definition set_files (fs : gmap string File.t) (st : Store) : Store :=
  mkStore (listings st) (scripts st) (videos st) (jobs st) fs (log st).
Definition emit (e : Event) (st : Store) : Store :=
  mkStore (listings st) (scripts st) (videos st) (jobs st) (files st) (log st ++ [e]).

(** [Model.findOne(query)] on the listings: the first document that matches. *)
Definition findOne (q : Listing.t -> bool) (st : Store) : option Listing.t :=
  List.find q (listings st).

(** Replace the first element that satisfies [q]. *)
Fixpoint update_first {A} (q : A -> bool) (f : A -> A) (l : list A) : list A :=
  match l with
  | [] => []
  | x :: l' => if q x then f x :: l' else x :: update_first q f l'
  end.

Definition by_stockNumber (sn : string) (l : Listing.t) : bool :=
  String.eqb (Listing.stockNumber l) sn.

Definition by_id (id : string) (l : Listing.t) : bool :=
  String.eqb (Listing._id l) id.

(** [Listing.findOneAndUpdate({ stockNumber }, { status })]: the first listing
    with that stock number gets the status; none matching is not an error. *)
Definition Listing_findOneAndUpdate_status
    (sn : string) (s : ListingStatus) (now : Date) (st : Store) : Store :=
  set_listings (update_first (by_stockNumber sn) (Listing.set_status s now) (listings st)) st.

(** The Job records of a listing that are queued or processing. *)
Definition active_jobs (L : string) (st : Store) : nat :=
  length (filter (fun j => Job.active j && Job.for_listing L j = true) (jobs st)).

(** [fs.existsSync] and [fs.unlinkSync]. *)
Definition existsSync (p : string) (st : Store) : bool :=
  bool_decide (is_Some (files st !! p)).

Definition unlinkSync (p : string) (st : Store) : Store :=
  emit (EvUnlink p) (set_files (delete p (files st)) st).

(** A promise that is neither awaited nor given a [catch]: its value is
    dropped, and its rejection is left unhandled. *)
Definition unawaited {T} (p : Promise T) (st : Store) : Store :=
  match p with
  | Fulfilled _ => st
  | Rejected e => emit (EvUnhandledRejection e) st
  end.

(** ** HTTP responses *)

(** The [error] field: a literal of the handler, or the message of the
    exception its [catch] received. *)
Inductive ErrorText :=
| Text (m : string)
| Caught (e : Exception).

Record Response (T : Type) := mkResponse {
  code : Z;
  success : bool;
  data : option T;
  error : option ErrorText;
  message : option string
}.
Arguments mkResponse {T}.
Arguments code {T}.
Arguments success {T}.
Arguments data {T}.
Arguments error {T}.
Arguments message {T}.

Definition ok {T} (d : T) (m : string) : Response T :=
  mkResponse 200 true (Some d) None (Some m).
Definition fail {T} (c : Z) (m : string) : Response T :=
  mkResponse c false None (Some (Text m)) None.
Definition caught {T} (c : Z) (e : Exception) : Response T :=
  mkResponse c false None (Some (Caught e)) None.

(** ** services/PipelineService.ts *)

Module PipelineService.

Record PipelineResult := mkResult {
  r_success : bool;
  output : option string;
  r_error : option string
}.

(** [runPythonScript(args)]. The executor of its promise begins with
    [const process = spawn(this.pythonPath, args, { cwd, env: { ...process.env } })].
    The arguments of [spawn] are evaluated before the call, and the
    [process] that the options read is the constant being declared, not the
    global of Node: it is read before it is initialised, which throws a
    [ReferenceError]. So [spawn] is not called, no listener is installed,
    and the promise is rejected with that error, whatever [args]. *)
Definition runPythonScript (args : list string) : Promise PipelineResult :=
  Rejected ReferenceError.

Definition generateVideo_script (listingId : string) : string :=
  "
from src.video.video_composer import VideoComposer
from src.data.asset_manager import AssetManager

# This would need proper implementation based on your pipeline
print('Video generation triggered for " +:+ listingId +:+ "')
      ".

(** [generateVideo(listingId, dealerId)]. *)
Definition generateVideo (listingId dealerId : string) : Promise PipelineResult :=
  runPythonScript ["-c"; generateVideo_script listingId].

(** [s.replace(/\\/g, '\\\\')]: every backslash is doubled. *)
Fixpoint double_backslashes (s : string) : string :=
  match s with
  | EmptyString => EmptyString
  | String c s' =>
      if Ascii.eqb c "\" then String "\" (String "\" (double_backslashes s'))
      else String c (double_backslashes s')
  end.

Definition generateQRCode_script (url outputPath : string) : string :=
  "
from src.ai.qr_generator import QRGenerator

gen = QRGenerator()
gen.generate('" +:+ url +:+ "', '" +:+ double_backslashes outputPath +:+ "')
print('QR code generated')
      ".

(** [generateQRCode(url, outputPath)]. *)
Definition generateQRCode (url outputPath : string) : Promise PipelineResult :=
  runPythonScript ["-c"; generateQRCode_script url outputPath].

End PipelineService.

(** ** controllers/scriptController.ts *)

Module scriptController.

(** [script.save()] after a push to [versions], which marks the document
    as modified: validation, then the write with a fresh [updatedAt]. *)
Definition save (id : string) (s : Script.t) (now : Date) (st : Store)
    : Exception + (Store * Script.t) :=
  match Script.validate s with
  | Some e => inl e
  | None =>
      let s' := Script.mk (Script.listingId s) (Script.content s) (Script.wordCount s)
                  (Script.estimatedDuration s) (Script.status s) (Script.approvedBy s)
                  (Script.approvedAt s) (Script.rejectionReason s) (Script.versions s) now in
      inr (emit (EvSave "Script" id) (set_scripts (<[id := s']> (scripts st)) st), s')
  end.

(** [content.split(/\s+/).length]. *)
Definition wordCount_of (content : string) : Z :=
  Z.of_nat (length (JS.split_ws content)).

(** Update script content. [content] and [editedBy] are the fields of the
    request body; an absent [content] makes [content.split] throw. *)
Definition update (now : Date) (id : Param) (content editedBy : option string)
    (st : Store) : Store * Response Script.t :=
  match castObjectId "Script" id with
  | inl e => (st, caught 400 e)
  | inr id =>
      match scripts st !! id with
      | None => (st, fail 404 "Script not found")
      | Some script =>
          let versions' := (Script.versions script ++
            [ScriptVersion.mk (Script.content script) now (JS.or_else editedBy "admin")]) in
          match content with
          | None => (st, caught 400 TypeError)
          | Some c =>
              let wc := wordCount_of c in
              let script' :=
                Script.mk (Script.listingId script) c wc (JS.ceil_div_2_5 wc)
                  S_pending_approval (Script.approvedBy script) (Script.approvedAt script)
                  (Script.rejectionReason script) versions' (Script.updatedAt script) in
              match save id script' now st with
              | inl e => (st, caught 400 e)
              | inr (st1, saved) =>
                  (Listing_findOneAndUpdate_status (Script.listingId saved)
                     L_script_generated now st1,
                   ok saved "Script updated")
              end
          end
      end
  end.

(** Approve script: [findByIdAndUpdate] writes without looking at the
    stored status and without validation. *)
Definition approve (now : Date) (id : Param) (approvedBy : option string)
    (st : Store) : Store * Response Script.t :=
  match castObjectId "Script" id with
  | inl e => (st, caught 400 e)
  | inr id =>
      match scripts st !! id with
      | None => (st, fail 404 "Script not found")
      | Some s =>
          let script :=
            Script.mk (Script.listingId s) (Script.content s) (Script.wordCount s)
              (Script.estimatedDuration s) S_approved
              (Some (JS.or_else approvedBy "admin")) (Some now)
              (Script.rejectionReason s) (Script.versions s) now in
          let st1 := set_scripts (<[id := script]> (scripts st)) st in
          (Listing_findOneAndUpdate_status (Script.listingId script) L_script_approved now st1,
           ok script "Script approved")
      end
  end.

(** Reject script. [reason] is the string of the request body. *)
Definition reject (now : Date) (id : Param) (reason : string)
    (st : Store) : Store * Response Script.t :=
  match castObjectId "Script" id with
  | inl e => (st, caught 400 e)
  | inr id =>
      match scripts st !! id with
      | None => (st, fail 404 "Script not found")
      | Some s =>
          let script :=
            Script.mk (Script.listingId s) (Script.content s) (Script.wordCount s)
              (Script.estimatedDuration s) S_rejected
              (Script.approvedBy s) (Script.approvedAt s)
              (Some reason) (Script.versions s) now in
          (set_scripts (<[id := script]> (scripts st)) st, ok script "Script rejected")
      end
  end.

(** The guard [versionIndex < 0 || versionIndex >= script.versions.length];
    both comparisons are false on [undefined]. *)
Definition invalid_index (versionIndex : option Z) (len : nat) : bool :=
  match versionIndex with
  | Some i => (i <? 0) || (Z.of_nat len <=? i)
  | None => false
  end.

(** Revert to previous version. *)
Definition revertVersion (now : Date) (id : Param) (versionIndex : option Z)
    (st : Store) : Store * Response Script.t :=
  match castObjectId "Script" id with
  | inl e => (st, caught 400 e)
  | inr id =>
      match scripts st !! id with
      | None => (st, fail 404 "Script not found")
      | Some script =>
          if invalid_index versionIndex (length (Script.versions script)) then
            (st, fail 400 "Invalid version index")
          else
            let versions' := (Script.versions script ++
              [ScriptVersion.mk (Script.content script) now "admin (revert)"]) in
            match versionIndex ≫= (fun i => versions' !! Z.to_nat i) with
            | None => (st, caught 400 TypeError)
            | Some v =>
                let c := ScriptVersion.content v in
                let wc := wordCount_of c in
                let script' :=
                  Script.mk (Script.listingId script) c wc (JS.ceil_div_2_5 wc)
                    S_pending_approval (Script.approvedBy script) (Script.approvedAt script)
                    (Script.rejectionReason script) versions' (Script.updatedAt script) in
                match save id script' now st with
                | inl e => (st, caught 400 e)
                | inr (st1, saved) => (st1, ok saved "Reverted to previous version")
                end
            end
      end
  end.

(** The [data] of [getVersions]. *)
Record History := mkHistory {
  current : string;
  h_versions : list ScriptVersion.t
}.

(** Get script versions/history. *)
Definition getVersions (id : Param) (st : Store) : Response History :=
  match castObjectId "Script" id with
  | inl e => caught 500 e
  | inr id =>
      match scripts st !! id with
      | None => fail 404 "Script not found"
      | Some script =>
          mkResponse 200 true
            (Some (mkHistory (Script.content script) (Script.versions script))) None None
      end
  end.

End scriptController.

(** ** controllers/videoController.ts *)

Module videoController.

(** [video.save()] on the document [v] that was loaded as [loaded]:
    validation; then, unless no path was given another value, the write
    with a fresh [updatedAt]. *)
Definition save (id : string) (loaded v : Video.t) (now : Date) (st : Store)
    : Exception + (Store * Video.t) :=
  match Video.validate v with
  | Some e => inl e
  | None =>
      if bool_decide (v = loaded) then inr (st, v)
      else
        let v' := Video.mk (Video.listingId v) (Video.dealerId v) (Video.path v)
                    (Video.duration v) (Video.resolution v) (Video.fileSize v)
                    (Video.status v) (Video.approvedBy v) (Video.approvedAt v)
                    (Video.publishedAt v) (Video.fastChannelId v) (Video.thumbnailPath v)
                    now in
        inr (emit (EvSave "Video" id) (set_videos (<[id := v']> (videos st)) st), v')
  end.

Definition set_status (s : VideoStatus) (v : Video.t) : Video.t :=
  Video.mk (Video.listingId v) (Video.dealerId v) (Video.path v)
    (Video.duration v) (Video.resolution v) (Video.fileSize v)
    s (Video.approvedBy v) (Video.approvedAt v)
    (Video.publishedAt v) (Video.fastChannelId v) (Video.thumbnailPath v)
    (Video.updatedAt v).

(** Approve video. *)
Definition approve (now : Date) (id : Param) (approvedBy : option string)
    (st : Store) : Store * Response Video.t :=
  match castObjectId "Video" id with
  | inl e => (st, caught 400 e)
  | inr id =>
      match videos st !! id with
      | None => (st, fail 404 "Video not found")
      | Some v =>
          let video :=
            Video.mk (Video.listingId v) (Video.dealerId v) (Video.path v)
              (Video.duration v) (Video.resolution v) (Video.fileSize v)
              V_approved (Some (JS.or_else approvedBy "admin")) (Some now)
              (Video.publishedAt v) (Video.fastChannelId v) (Video.thumbnailPath v) now in
          let st1 := set_videos (<[id := video]> (videos st)) st in
          (Listing_findOneAndUpdate_status (Video.listingId video) L_video_approved now st1,
           ok video "Video approved")
      end
  end.

(** Reject video: the handler reads nothing from the request body. *)
Definition reject (now : Date) (id : Param) (st : Store) : Store * Response Video.t :=
  match castObjectId "Video" id with
  | inl e => (st, caught 400 e)
  | inr id =>
      match videos st !! id with
      | None => (st, fail 404 "Video not found")
      | Some v =>
          let video :=
            Video.mk (Video.listingId v) (Video.dealerId v) (Video.path v)
              (Video.duration v) (Video.resolution v) (Video.fileSize v)
              V_rejected (Video.approvedBy v) (Video.approvedAt v)
              (Video.publishedAt v) (Video.fastChannelId v) (Video.thumbnailPath v) now in
          (set_videos (<[id := video]> (videos st)) st, ok video "Video rejected")
      end
  end.

Definition is_approved (s : VideoStatus) : bool :=
  match s with V_approved => true | _ => false end.

(** Publish video to FAST channel. *)
Definition publish (now : Date) (id : Param) (channelId : option string)
    (st : Store) : Store * Response Video.t :=
  match castObjectId "Video" id with
  | inl e => (st, caught 400 e)
  | inr id =>
      match videos st !! id with
      | None => (st, fail 404 "Video not found")
      | Some v =>
          if negb (is_approved (Video.status v)) then
            (st, fail 400 "Video must be approved before publishing")
          else
            let video :=
              Video.mk (Video.listingId v) (Video.dealerId v) (Video.path v)
                (Video.duration v) (Video.resolution v) (Video.fileSize v)
                V_published (Video.approvedBy v) (Video.approvedAt v)
                (Some now) channelId (Video.thumbnailPath v) (Video.updatedAt v) in
            match save id v video now st with
            | inl e => (st, caught 400 e)
            | inr (st1, saved) =>
                (Listing_findOneAndUpdate_status (Video.listingId saved) L_published now st1,
                 ok saved "Video published")
            end
      end
  end.

(** Regenerate video. The promise of [generateVideo] is neither awaited nor
    caught: the response does not depend on it. When [save] throws, the
    file is already gone. *)
Definition regenerate (now : Date) (id : Param) (st : Store) : Store * Response Video.t :=
  match castObjectId "Video" id with
  | inl e => (st, caught 500 e)
  | inr id =>
      match videos st !! id with
      | None => (st, fail 404 "Video not found")
      | Some v =>
          let st1 :=
            if existsSync (Video.path v) st then unlinkSync (Video.path v) st else st in
          match save id v (set_status V_processing v) now st1 with
          | inl e => (st1, caught 500 e)
          | inr (st2, saved) =>
              let st3 :=
                unawaited
                  (PipelineService.generateVideo (Video.listingId saved) (Video.dealerId saved))
                  st2 in
              (st3, ok saved "Video regeneration started")
          end
      end
  end.

(** What [stream] answers: a JSON error, or a head and the piped bytes. *)
Inductive StreamResponse :=
| Json (r : Response unit)
| Stream (status : Z) (headers : list (string * string)) (body : list byte).

(** [validateInteger(value, name, 0)] of Node: an integer from [0] to
    [Number.MAX_SAFE_INTEGER]. *)
Definition validateInteger (n : JS.number) : bool :=
  match n with
  | JS.Num z => (0 <=? z) && (z <=? JS.MAX_SAFE_INTEGER)
  | _ => false
  end.

(** [fs.createReadStream(path, { start, end })]: the bytes from [start] to
    [end] inclusive, as far as the file goes. It throws a [RangeError]
    unless [start] is a valid integer and [end] is [Infinity] or a valid
    integer that is not below [start]. *)
Definition createReadStream (file : list byte) (start end_ : JS.number)
    : option (list byte) :=
  match start with
  | JS.Num s =>
      if validateInteger start then
        match end_ with
        | JS.Infinity false => Some (drop (Z.to_nat s) file)
        | JS.Num e =>
            if validateInteger end_ && (s <=? e)
            then Some (take (Z.to_nat (e - s + 1)) (drop (Z.to_nat s) file))
            else None
        | _ => None
        end
      else None
  | _ => None
  end.

(** Stream video file. [range] is [req.headers.range]. *)
Definition stream (id : Param) (range : option string) (st : Store) : StreamResponse :=
  match castObjectId "Video" id with
  | inl e => Json (caught 500 e)
  | inr id =>
      match videos st !! id with
      | None => Json (fail 404 "Video not found")
      | Some video =>
          match files st !! Video.path video with
          | None => Json (fail 404 "Video file not found")
          | Some file =>
              let fileSize := JS.Num (Z.of_nat (length (File.bytes file))) in
              if JS.truthy range then
                let parts :=
                  JS.split_char "-" (JS.remove_first "bytes=" (default "" range)) in
                let start := JS.parseInt (default "" (parts !! 0%nat)) in
                let end_ :=
                  if JS.truthy (parts !! 1%nat)
                  then JS.parseInt (default "" (parts !! 1%nat))
                  else JS.sub fileSize (JS.Num 1) in
                let chunksize := JS.add (JS.sub end_ start) (JS.Num 1) in
                match createReadStream (File.bytes file) start end_ with
                | None => Json (caught 500 RangeError)
                | Some body =>
                    Stream 206
                      [("Content-Range",
                        "bytes " +:+ JS.to_string start +:+ "-" +:+ JS.to_string end_
                          +:+ "/" +:+ JS.to_string fileSize);
                       ("Accept-Ranges", "bytes");
                       ("Content-Length", JS.to_string chunksize);
                       ("Content-Type", "video/mp4")]
                      body
                end
              else
                Stream 200
                  [("Content-Length", JS.to_string fileSize);
                   ("Content-Type", "video/mp4")]
                  (File.bytes file)
          end
      end
  end.

(** The listing after [{ status: 'voiceover_generated',
    'assets.videoPath': null }]. *)
Definition clear_video (now : Date) (l : Listing.t) : Listing.t :=
  let a := Listing.assets l in
  Listing.mk (Listing._id l) (Listing.dealerId l) (Listing.stockNumber l) (Listing.vin l)
    (Listing.year l) (Listing.make l) (Listing.model l) (Listing.trim l)
    (Listing.condition l) (Listing.price l) (Listing.odometer l) (Listing.color l)
    (Listing.photoUrls l) (Listing.listingUrl l) L_voiceover_generated
    (ListingAssets.mk (ListingAssets.originalPhotos a) (ListingAssets.processedPhotos a)
       (ListingAssets.script a) (ListingAssets.voiceoverPath a)
       (ListingAssets.qrCodePath a) None)
    now.

(** Delete video: the document, then its file, then the listing's pointer. *)
Definition delete (now : Date) (id : Param) (st : Store) : Store * Response unit :=
  match castObjectId "Video" id with
  | inl e => (st, caught 500 e)
  | inr id =>
      match videos st !! id with
      | None => (st, fail 404 "Video not found")
      | Some video =>
          let st1 := set_videos (base.delete id (videos st)) st in
          let st2 :=
            if existsSync (Video.path video) st1
            then unlinkSync (Video.path video) st1 else st1 in
          (set_listings
             (update_first (by_stockNumber (Video.listingId video)) (clear_video now)
                (listings st2))
             st2,
           mkResponse 200 true None None (Some "Video deleted"))
      end
  end.

End videoController.

(** ** controllers/listingController.ts *)

Module listingController.

(** The in-memory listing after [status = 'voiceover_generated'] and
    [assets.videoPath = undefined]. *)
Definition reset_for_video (l : Listing.t) : Listing.t :=
  let a := Listing.assets l in
  Listing.mk (Listing._id l) (Listing.dealerId l) (Listing.stockNumber l) (Listing.vin l)
    (Listing.year l) (Listing.make l) (Listing.model l) (Listing.trim l)
    (Listing.condition l) (Listing.price l) (Listing.odometer l) (Listing.color l)
    (Listing.photoUrls l) (Listing.listingUrl l) L_voiceover_generated
    (ListingAssets.mk (ListingAssets.originalPhotos a) (ListingAssets.processedPhotos a)
       (ListingAssets.script a) (ListingAssets.voiceoverPath a)
       (ListingAssets.qrCodePath a) None)
    (Listing.updatedAt l).

Definition touch (now : Date) (l : Listing.t) : Listing.t :=
  Listing.set_status (Listing.status l) now l.

(** [listing.save()] on the document [l] that was loaded as [loaded]:
    validation; then, unless the document is unmodified, the write with a
    fresh [updatedAt]. A path is modified when it was given another value,
    and an array also when it was [pushed] to, whatever was pushed. *)
Definition save (loaded l : Listing.t) (pushed : bool) (now : Date) (st : Store)
    : Exception + (Store * Listing.t) :=
  match Listing.validate l with
  | Some e => inl e
  | None =>
      if negb pushed && bool_decide (l = loaded) then inr (st, l)
      else
        let l' := touch now l in
        inr (emit (EvSave "Listing" (Listing._id l))
               (set_listings
                  (update_first (by_id (Listing._id l)) (fun _ => l') (listings st)) st),
             l')
  end.

(** Regenerate video for listing. The promise of [generateVideo] is neither
    awaited nor caught. *)
Definition regenerateVideo (now : Date) (id : Param) (st : Store)
    : Store * Response Listing.t :=
  match castObjectId "Listing" id with
  | inl e => (st, caught 500 e)
  | inr id =>
      match findOne (by_id id) st with
      | None => (st, fail 404 "Listing not found")
      | Some listing =>
          let videoPath := ListingAssets.videoPath (Listing.assets listing) in
          let st1 :=
            if JS.truthy videoPath && existsSync (default "" videoPath) st
            then unlinkSync (default "" videoPath) st else st in
          match save listing (reset_for_video listing) false now st1 with
          | inl e => (st1, caught 500 e)
          | inr (st2, saved) =>
              let st3 :=
                unawaited
                  (PipelineService.generateVideo (Listing.stockNumber saved)
                     (Listing.dealerId saved))
                  st2 in
              (st3, ok saved "Video regeneration started")
          end
      end
  end.

(** [photoUrls.includes(url)]. *)
Definition includes (url : string) (photoUrls : list string) : bool :=
  existsb (String.eqb url) photoUrls.

(** The [switch (action)] of [updatePhotos]: the new list of photo URLs, or
    [None] for the [default] branch. *)
Definition apply_action (action : string) (photoUrls old : list string)
    : option (list string) :=
  if String.eqb action "add" then Some (old ++ photoUrls)
  else if String.eqb action "remove"
  then Some (List.filter (fun url => negb (includes url photoUrls)) old)
  else if String.eqb action "replace" then Some photoUrls
  else None.

Definition set_photos (urls : list string) (l : Listing.t) : Listing.t :=
  Listing.mk (Listing._id l) (Listing.dealerId l) (Listing.stockNumber l) (Listing.vin l)
    (Listing.year l) (Listing.make l) (Listing.model l) (Listing.trim l)
    (Listing.condition l) (Listing.price l) (Listing.odometer l) (Listing.color l)
    urls (Listing.listingUrl l) L_pending (Listing.assets l) (Listing.updatedAt l).

(** Update listing photos. [photoUrls] and [action] are the fields of the
    request body. ['add'] pushes to the array; the other actions assign it. *)
Definition updatePhotos (now : Date) (id : Param) (photoUrls : list string)
    (action : string) (st : Store) : Store * Response Listing.t :=
  match castObjectId "Listing" id with
  | inl e => (st, caught 400 e)
  | inr id =>
      match findOne (by_id id) st with
      | None => (st, fail 404 "Listing not found")
      | Some listing =>
          match apply_action action photoUrls (Listing.photoUrls listing) with
          | None => (st, fail 400 "Invalid action")
          | Some urls =>
              match save listing (set_photos urls listing) (String.eqb action "add") now st
              with
              | inl e => (st, caught 400 e)
              | inr (st1, saved) => (st1, ok saved "Photos updated")
              end
          end
      end
  end.

(** Drop the first element that satisfies [q]. *)
Fixpoint drop_first {A} (q : A -> bool) (l : list A) : list A :=
  match l with
  | [] => []
  | x :: l' => if q x then l' else x :: drop_first q l'
  end.

(** [Model.deleteOne({ listingId })] on a collection addressed by [_id].
    [listingId] is a unique path of ScriptSchema and of VideoSchema, so at
    most one document matches; among several the model takes the first in
    the order of the keys. *)
Definition deleteOne_by_listingId {A} (listingId_of : A -> string) (lid : string)
    (m : gmap string A) : gmap string A :=
  match List.find (fun kv => String.eqb (listingId_of kv.2) lid) (map_to_list m) with
  | Some kv => base.delete kv.1 m
  | None => m
  end.

(** Delete listing, then clean up associated data. No file is removed. *)
Definition delete (id : Param) (st : Store) : Store * Response unit :=
  match castObjectId "Listing" id with
  | inl e => (st, caught 500 e)
  | inr id =>
      match findOne (by_id id) st with
      | None => (st, fail 404 "Listing not found")
      | Some listing =>
          let st1 := set_listings (drop_first (by_id id) (listings st)) st in
          let st2 :=
            set_scripts
              (deleteOne_by_listingId Script.listingId (Listing.stockNumber listing)
                 (scripts st1))
              st1 in
          (set_videos
             (deleteOne_by_listingId Video.listingId (Listing.stockNumber listing)
                (videos st2))
             st2,
           mkResponse 200 true None None (Some "Listing deleted"))
      end
  end.

End listingController.

(** ** controllers/qrController.ts *)

Module qrController.

Record QRCodeData := mkQR {
  listingId : string;
  url : string;
  imagePath : string;
  imageBase64 : option string
}.

Definition set_qrCodePath (p : string) (l : Listing.t) : Listing.t :=
  let a := Listing.assets l in
  Listing.mk (Listing._id l) (Listing.dealerId l) (Listing.stockNumber l) (Listing.vin l)
    (Listing.year l) (Listing.make l) (Listing.model l) (Listing.trim l)
    (Listing.condition l) (Listing.price l) (Listing.odometer l) (Listing.color l)
    (Listing.photoUrls l) (Listing.listingUrl l) (Listing.status l)
    (ListingAssets.mk (ListingAssets.originalPhotos a) (ListingAssets.processedPhotos a)
       (ListingAssets.script a) (ListingAssets.voiceoverPath a)
       (Some p) (ListingAssets.videoPath a))
    (Listing.updatedAt l).

(** The query of [getByDealer]: the dealer's listings whose
    [assets.qrCodePath] exists and is not [null]. *)
Definition has_qr (dealerId : string) (l : Listing.t) : bool :=
  String.eqb (Listing.dealerId l) dealerId
  && bool_decide (is_Some (ListingAssets.qrCodePath (Listing.assets l))).

(** Get all QR codes for a dealer, in the order of the collection. *)
Definition getByDealer (dealerId : string) (st : Store) : Response (list QRCodeData) :=
  mkResponse 200 true
    (Some (map (fun l =>
                  mkQR (Listing.stockNumber l) (Listing.listingUrl l)
                    (JS.or_else (ListingAssets.qrCodePath (Listing.assets l)) "") None)
             (List.filter (has_qr dealerId) (listings st))))
    None None.

Section Regenerate.

(** [path.join] of Node, which depends on the platform. *)
Variable path_join : list string -> string.

(** Regenerate QR code. The promise of [generateQRCode] is awaited: its
    rejection is thrown into the handler's [catch]; the listing is written
    only after a result that reports success. *)
Definition regenerate (now : Date) (id : Param) (st : Store)
    : Store * Response QRCodeData :=
  match castObjectId "Listing" id with
  | inl e => (st, caught 500 e)
  | inr id =>
      match findOne (by_id id) st with
      | None => (st, fail 404 "Listing not found")
      | Some listing =>
          let outputPath :=
            path_join ["assets"; Listing.dealerId listing; Listing.stockNumber listing;
                       "qr_code.png"] in
          match PipelineService.generateQRCode (Listing.listingUrl listing) outputPath with
          | Rejected e => (st, caught 500 e)
          | Fulfilled result =>
              if negb (PipelineService.r_success result) then
                (st, fail 500
                       (JS.or_else (PipelineService.r_error result) "QR generation failed"))
              else
                match listingController.save listing (set_qrCodePath outputPath listing)
                        false now st with
                | inl e => (st, caught 500 e)
                | inr (st1, saved) =>
                    (st1,
                     ok (mkQR (Listing.stockNumber saved) (Listing.listingUrl saved)
                           outputPath None)
                        "QR code regenerated")
                end
          end
      end
  end.

End Regenerate.

End qrController.

(** ** controllers/dealerController.ts *)

Module dealerController.

Record DealerStats := mkStats {
  totalListings : nat;
  publishedVideos : nat;
  statusBreakdown : list (ListingStatus * nat)
}.

Definition status_eqb (a b : ListingStatus) : bool :=
  match a, b with
  | L_pending, L_pending | L_images_downloaded, L_images_downloaded
  | L_images_processed, L_images_processed | L_script_generated, L_script_generated
  | L_script_approved, L_script_approved | L_voiceover_generated, L_voiceover_generated
  | L_video_generated, L_video_generated | L_video_approved, L_video_approved
  | L_published, L_published | L_error, L_error => true
  | _, _ => false
  end.

(** One more document in the group of its status ([$sum: 1]). *)
Fixpoint count_in (s : ListingStatus) (groups : list (ListingStatus * nat))
    : list (ListingStatus * nat) :=
  match groups with
  | [] => [(s, 1%nat)]
  | (s', n) :: rest =>
      if status_eqb s s' then (s', S n) :: rest else (s', n) :: count_in s rest
  end.

(** [$group: { _id: '$status', count: { $sum: 1 } }], reduced to the object
    [statusBreakdown]: one key per status that occurs. The order of the keys
    is not specified by the aggregation; here it is that of first
    occurrence. *)
Definition group_by_status (ls : list Listing.t) : list (ListingStatus * nat) :=
  fold_left (fun groups l => count_in (Listing.status l) groups) ls [].

Definition of_dealer (dealerId : string) (l : Listing.t) : bool :=
  String.eqb (Listing.dealerId l) dealerId.

Definition is_published (l : Listing.t) : bool :=
  status_eqb (Listing.status l) L_published.

(** [acc[s]] on the object [statusBreakdown]. *)
Fixpoint breakdown_get (s : ListingStatus) (groups : list (ListingStatus * nat))
    : option nat :=
  match groups with
  | [] => None
  | (s', n) :: rest => if status_eqb s s' then Some n else breakdown_get s rest
  end.

(** Get dealer stats. *)
Definition getStats (dealerId : string) (st : Store) : Response DealerStats :=
  let mine := List.filter (of_dealer dealerId) (listings st) in
  mkResponse 200 true
    (Some (mkStats (length mine)
             (length (List.filter is_published mine))
             (group_by_status mine)))
    None None.

(** For the statements about the statistics: the listings of a status among
    [ls], the count an object holds for a status ([0] without the key), and
    the sum of its counts. *)
Definition with_status (s : ListingStatus) (ls : list Listing.t) : nat :=
  length (List.filter (fun l => status_eqb (Listing.status l) s) ls).

Definition count_of (s : ListingStatus) (groups : list (ListingStatus * nat)) : nat :=
  default 0%nat (breakdown_get s groups).

Definition total (groups : list (ListingStatus * nat)) : nat :=
  fold_right Nat.add 0%nat (map snd groups).

End dealerController.

(** ** dashboard/frontend: pages/Scripts.tsx and pages/Videos.tsx *)

Module ScriptsPage.

(** The counter of the edit modal: [n words] and [~ds]. *)
Definition editCounter (editContent : string) : Z * Z :=
  (Z.of_nat (length (JS.split_ws editContent)),
   JS.ceil_div_2_5 (Z.of_nat (length (JS.split_ws editContent)))).

(** [handleReject]: [prompt] gives the text typed or [null]; the rejection
    is sent only when it is truthy. The result is the request made, if any:
    the [_id] of the script shown and the reason. *)
Definition handleReject (id : string) (reason : option string) : option (string * string) :=
  if JS.truthy reason then Some (id, default "" reason) else None.

End ScriptsPage.

Module VideosPage.

Inductive Action := Reject | Approve | Publish | Regenerate.

(** The buttons [VideoCard] renders for a video, left to right. *)
Definition VideoCard_actions (s : VideoStatus) : list Action :=
  (match s with V_ready => [Reject; Approve] | _ => [] end)
  ++ (match s with V_approved => [Publish] | _ => [] end)
  ++ (match s with V_rejected | V_ready => [Regenerate] | _ => [] end).

End VideosPage.

(** ** routes/index.ts: the requests that write scripts and videos *)

Module routes.

(** [PUT /scripts/:id], [POST /scripts/:id/approve], [.../reject] and
    [.../revert], each with the fields its handler reads from the body. *)
Inductive ScriptRequest :=
| PutScript (content editedBy : option string)
| PostApprove (approvedBy : option string)
| PostReject (reason : string)
| PostRevert (versionIndex : option Z).

Definition script (req : ScriptRequest) (now : Date) (id : Param) (st : Store)
    : Store * Response Script.t :=
  match req with
  | PutScript content editedBy => scriptController.update now id content editedBy st
  | PostApprove approvedBy => scriptController.approve now id approvedBy st
  | PostReject reason => scriptController.reject now id reason st
  | PostRevert versionIndex => scriptController.revertVersion now id versionIndex st
  end.

(** [POST /videos/:id/approve], [.../reject] and [.../publish]. *)
Inductive VideoRequest :=
| PostVideoApprove (approvedBy : option string)
| PostVideoReject
| PostVideoPublish (channelId : option string).

Definition video (req : VideoRequest) (now : Date) (id : Param) (st : Store)
    : Store * Response Video.t :=
  match req with
  | PostVideoApprove approvedBy => videoController.approve now id approvedBy st
  | PostVideoReject => videoController.reject now id st
  | PostVideoPublish channelId => videoController.publish now id channelId st
  end.

End routes.

(** ** Stored documents that satisfy their schema *)

Definition scripts_valid (st : Store) : Prop :=
  forall id s, scripts st !! id = Some s -> Script.validate s = None.

Definition videos_valid (st : Store) : Prop :=
  forall id v, videos st !! id = Some v -> Video.validate v = None.

(** ** A sample store *)

Module Sample.

Definition assets : ListingAssets.t :=
  ListingAssets.mk ["/photos/HD100-1.jpg"] ["/processed/HD100-1.png"] (Some "S1")
    (Some "/audio/HD100.mp3") (Some "/qr/HD100.png") (Some "/videos/HD100.mp4").

Definition listing (s : ListingStatus) : Listing.t :=
  Listing.mk "L1" "D1" "HD100" "1HD1KB4197Y000001" 2020 "Harley-Davidson" "Iron 883"
    None Used 8999 (Some 4200) (Some "Black") ["https://dealer.example/HD100-1.jpg"]
    "https://dealer.example/HD100" s assets 10.

Definition script (s : ScriptStatus) : Script.t :=
  Script.mk "HD100" "Ride the legend today" 4 2 s None None None [] 10.

Definition video (s : VideoStatus) : Video.t :=
  Video.mk "HD100" "D1" "/videos/HD100.mp4" 30 "1080p" 1000 s None None None None None 10.

(** A file of 1000 bytes, the byte at offset [i] being [i mod 256]. *)
Definition file : File.t :=
  File.mk (map (fun i => default x00 (Byte.of_nat (i mod 256))) (seq 0 1000)) eq_refl.

Definition job (s : JobStatus) : Job.t :=
  Job.mk generate_video "D1" (Some "HD100") s 0 None (Some 5) None.

Definition store (ls : ListingStatus) (ss : ScriptStatus) (vs : VideoStatus)
    (js : list Job.t) : Store :=
  mkStore [listing ls] {[ "S1" := script ss ]} {[ "V1" := video vs ]} js
    {[ "/videos/HD100.mp4" := file ]} [].

End Sample.

(** ** Evaluation on small inputs *)

Example split_ws_two_words : JS.split_ws "hello world" = ["hello"; "world"].
Proof. reflexivity. Qed.
Example split_ws_edges : JS.split_ws " a  b " = [""; "a"; "b"; ""].
Proof. reflexivity. Qed.
Example split_ws_empty : JS.split_ws "" = [""].
Proof. reflexivity. Qed.
Example parseInt_99 : JS.parseInt "99" = JS.Num 99.
Proof. reflexivity. Qed.
Example parseInt_empty : JS.parseInt "" = JS.NaN.
Proof. reflexivity. Qed.
Example remove_first_bytes : JS.remove_first "bytes=" "bytes=0-99" = "0-99".
Proof. reflexivity. Qed.
Example split_char_range : JS.split_char "-" "0-99" = ["0"; "99"].
Proof. reflexivity. Qed.
Example to_string_1000 : JS.to_string (JS.Num 1000) = "1000".
Proof. reflexivity. Qed.
Example ceil_3 : JS.ceil_div_2_5 3 = 2.
Proof. reflexivity. Qed.

Example sample_lookup :
  scripts (Sample.store L_script_generated S_draft V_ready []) !! "S1" = Some (Sample.script S_draft).
Proof. reflexivity. Qed.

Example sample_update :
  (scriptController.update 20 (Id "S1") (Some "Born to ride") None
     (Sample.store L_published S_approved V_published [])).2
  = ok (Script.mk "HD100" "Born to ride" 3 2 S_pending_approval None None None
          [ScriptVersion.mk "Ride the legend today" 20 "admin"] 20) "Script updated".
Proof. vm_compute. reflexivity. Qed.


(** ** Facts about the JavaScript primitives *)

Section Decimal.

Import Decimal.

Lemma string_of_uint_digits (d : uint) : JS.all_digits (NilEmpty.string_of_uint d) = true.
Proof. induction d; simpl; auto. Qed.

Lemma read_digits_pos (d : uint) (p : positive) :
  JS.read_digits (Some (Zpos p)) (NilEmpty.string_of_uint d)
  = Some (Zpos (Pos.of_uint_acc d p)).
Proof.
  revert p. induction d; intros p; simpl; try reflexivity;
    unfold JS.digit_value; simpl;
    rewrite <- IHd; do 2 f_equal; lia.
Qed.

Lemma read_digits_zero (d : uint) :
  JS.read_digits (Some 0) (NilEmpty.string_of_uint d) = Some (Z.of_N (Pos.of_uint d)).
Proof.
  induction d; simpl; try reflexivity;
    match goal with
    | |- JS.read_digits (Some ?a) _ = _ =>
        let v := eval vm_compute in a in change a with v
    end;
    solve [assumption | apply read_digits_pos].
Qed.

Lemma read_digits_start (s : string) :
  s <> EmptyString -> JS.all_digits s = true ->
  JS.read_digits None s = JS.read_digits (Some 0) s.
Proof.
  destruct s as [|c s]; [congruence|]. intros _ H. simpl in *.
  destruct (JS.is_digit c); [reflexivity | discriminate].
Qed.

(** A non-empty string of digits carries no sign and no leading space:
    [parseInt] reads it as it stands. *)
Lemma parseInt_digits (s : string) :
  s <> EmptyString -> JS.all_digits s = true ->
  JS.parseInt s = match JS.read_digits None s with
                  | Some z => JS.to_double z
                  | None => JS.NaN
                  end.
Proof.
  destruct s as [|c s]; [congruence|]. intros _ H. simpl in H.
  apply andb_prop in H as [Hc _].
  destruct c as [[] [] [] [] [] [] [] []]; try discriminate Hc; reflexivity.
Qed.

Lemma string_of_uint_nonempty (d : uint) :
  d <> Nil -> NilEmpty.string_of_uint d <> EmptyString.
Proof. destruct d; simpl; congruence. Qed.

Lemma to_string_nat_digits (z : Z) :
  0 <= z ->
  JS.to_string (JS.Num z) <> EmptyString /\ JS.all_digits (JS.to_string (JS.Num z)) = true.
Proof.
  intros Hz. destruct z as [|p|p]; [split; [discriminate | reflexivity] | | lia].
  simpl. split.
  - apply string_of_uint_nonempty, DecimalPos.Unsigned.to_uint_nonnil.
  - apply string_of_uint_digits.
Qed.

(** Parsing the decimal digits of a natural number gives its Number
    value. *)
Lemma parseInt_to_string (z : Z) :
  0 <= z -> JS.parseInt (JS.to_string (JS.Num z)) = JS.to_double z.
Proof.
  intros Hz. destruct (to_string_nat_digits z Hz) as [Hne Hd].
  rewrite parseInt_digits, read_digits_start by assumption.
  destruct z as [|p|p]; [reflexivity | | lia].
  simpl. rewrite read_digits_zero, DecimalPos.Unsigned.of_to. reflexivity.
Qed.

End Decimal.

(** ** Doubles *)

Section Doubles.

Lemma two_pow_53 : 2 ^ 53 = JS.MAX_SAFE_INTEGER + 1.
Proof. reflexivity. Qed.

(** An integer of at most 53 bits is a double. *)
Lemma round_to_53_bits_small (p : Z) :
  0 <= p <= JS.MAX_SAFE_INTEGER -> JS.round_to_53_bits p = p.
Proof.
  intros Hp. unfold JS.round_to_53_bits.
  destruct (Z.ltb_spec (Z.log2 p) 53) as [|Hk]; [reflexivity|].
  exfalso. destruct (Z.eq_dec p 0) as [->|Hne]; [simpl in Hk; lia|].
  assert (Hlt : p < 2 ^ 53) by (rewrite two_pow_53; lia).
  apply Z.log2_lt_pow2 in Hlt; lia.
Qed.

(** Rounding an integer of more than 53 bits stays between the powers of
    two around it. *)
Lemma round_to_53_bits_large (p : Z) :
  JS.MAX_SAFE_INTEGER < p ->
  53 <= Z.log2 p /\
  2 ^ Z.log2 p <= JS.round_to_53_bits p <= 2 ^ (Z.log2 p + 1).
Proof.
  intros Hp.
  assert (Hpos : 0 < p) by (unfold JS.MAX_SAFE_INTEGER in Hp; lia).
  assert (Hk : 53 <= Z.log2 p).
  { apply Z.log2_le_pow2; [assumption|]. rewrite two_pow_53. lia. }
  split; [exact Hk|].
  unfold JS.round_to_53_bits.
  destruct (Z.ltb_spec (Z.log2 p) 53) as [Hlt|_]; [lia|].
  destruct (Z.log2_spec p Hpos) as [Hlo Hhi].
  set (k := Z.log2 p) in *. set (sh := k - 52).
  assert (Hsh : 0 <= sh) by (subst sh; lia).
  rewrite Z.shiftr_div_pow2 by assumption.
  rewrite !Z.shiftl_mul_pow2 by lia.
  assert (Hk2 : 2 ^ k = 2 ^ 52 * 2 ^ sh).
  { rewrite <- Z.pow_add_r by lia. f_equal. subst sh. lia. }
  assert (Hk3 : 2 ^ (k + 1) = 2 ^ 53 * 2 ^ sh).
  { rewrite <- Z.pow_add_r by lia. f_equal. subst sh. lia. }
  replace (Z.succ k) with (k + 1) in Hhi by lia.
  rewrite Hk2 in *. rewrite Hk3 in *.
  assert (HP : 0 < 2 ^ sh) by (apply Z.pow_pos_nonneg; lia).
  set (P := 2 ^ sh) in *.
  assert (Hq1 : 2 ^ 52 <= p / P).
  { apply Z.div_le_lower_bound; [assumption|]. lia. }
  assert (Hq2 : p / P < 2 ^ 53).
  { apply Z.div_lt_upper_bound; [assumption|]. lia. }
  set (q := p / P) in *.
  change (2 ^ 52) with 4503599627370496 in *.
  change (2 ^ 53) with 9007199254740992 in *.
  destruct (_ || _); nia.
Qed.

(** A safe integer is its own Number value. *)
Lemma to_double_safe (z : Z) :
  Z.abs z <= JS.MAX_SAFE_INTEGER -> JS.to_double z = JS.Num z.
Proof.
  intros Hz. unfold JS.to_double.
  rewrite round_to_53_bits_small by (split; [apply Z.abs_nonneg | assumption]).
  assert (Hbig : JS.MAX_SAFE_INTEGER < 2 ^ 1024) by (vm_compute; reflexivity).
  destruct (Z.leb_spec (2 ^ 1024) (Z.abs z)) as [Hle|_]; [lia|].
  f_equal. destruct z; simpl; lia.
Qed.

(** The Number value of an integer above the safe ones is an infinity or an
    integer above them. *)
Lemma to_double_unsafe (z : Z) :
  JS.MAX_SAFE_INTEGER < z ->
  (exists m, JS.to_double z = JS.Num m /\ JS.MAX_SAFE_INTEGER < m) \/
  JS.to_double z = JS.Infinity false.
Proof.
  intros Hz. unfold JS.to_double.
  assert (Hpos : 0 < z) by (unfold JS.MAX_SAFE_INTEGER in Hz; lia).
  rewrite Z.abs_eq by lia.
  destruct (round_to_53_bits_large z Hz) as (Hk & Hlo & _).
  destruct (Z.leb_spec (2 ^ 1024) (JS.round_to_53_bits z)) as [_|_].
  - right. f_equal. apply Z.ltb_ge. lia.
  - left. eexists. split; [reflexivity|].
    rewrite Z.sgn_pos by assumption.
    assert (2 ^ 53 <= 2 ^ Z.log2 z) by (apply Z.pow_le_mono_r; lia).
    rewrite two_pow_53 in *. lia.
Qed.

(** Below [2^1023] it is no infinity. *)
Lemma to_double_finite (z : Z) :
  JS.MAX_SAFE_INTEGER < z < 2 ^ 1023 ->
  exists m, JS.to_double z = JS.Num m /\ JS.MAX_SAFE_INTEGER < m.
Proof.
  intros [Hz Hlt].
  destruct (to_double_unsafe z Hz) as [H|Hinf]; [exact H|].
  exfalso. unfold JS.to_double in Hinf.
  assert (Hpos : 0 < z) by (unfold JS.MAX_SAFE_INTEGER in Hz; lia).
  rewrite Z.abs_eq in Hinf by lia.
  destruct (round_to_53_bits_large z Hz) as (_ & _ & Hhi).
  destruct (Z.leb_spec (2 ^ 1024) (JS.round_to_53_bits z)) as [Hle|_];
    [|discriminate Hinf].
  apply Z.log2_lt_pow2 in Hlt; [|assumption].
  assert (2 ^ (Z.log2 z + 1) <= 2 ^ 1023) by (apply Z.pow_le_mono_r; lia).
  assert (2 ^ 1023 < 2 ^ 1024) by (apply Z.pow_lt_mono_r; lia).
  lia.
Qed.

Lemma validateInteger_safe (z : Z) :
  0 <= z <= JS.MAX_SAFE_INTEGER -> videoController.validateInteger (JS.Num z) = true.
Proof. intros Hz. unfold videoController.validateInteger. apply andb_true_iff. lia. Qed.

(** [createReadStream] refuses a start above the safe integers, whatever
    the end. *)
Lemma createReadStream_unsafe_start (file : list byte) (start : Z) (end_ : JS.number) :
  JS.MAX_SAFE_INTEGER < start ->
  videoController.createReadStream file (JS.to_double start) end_ = None.
Proof.
  intros Hs. destruct (to_double_unsafe start Hs) as [(m & -> & Hm)| ->]; [|reflexivity].
  unfold videoController.createReadStream, videoController.validateInteger.
  replace (m <=? JS.MAX_SAFE_INTEGER) with false by (symmetry; apply Z.leb_gt; lia).
  now rewrite andb_false_r.
Qed.

(** So are the integers up to [2^53], the largest length of a range of
    safe integers. *)
Lemma to_double_length (z : Z) :
  0 <= z <= JS.MAX_SAFE_INTEGER + 1 -> JS.to_double z = JS.Num z.
Proof.
  intros Hz. destruct (Z.eq_dec z (JS.MAX_SAFE_INTEGER + 1)) as [->|Hne].
  - vm_compute. reflexivity.
  - apply to_double_safe. lia.
Qed.

Lemma createReadStream_safe (file : list byte) (s e : Z) :
  0 <= s <= e -> e <= JS.MAX_SAFE_INTEGER ->
  videoController.createReadStream file (JS.Num s) (JS.Num e)
  = Some (take (Z.to_nat (e - s + 1)) (drop (Z.to_nat s) file)).
Proof.
  intros Hs He. unfold videoController.createReadStream.
  rewrite !validateInteger_safe by lia.
  replace (s <=? e) with true by (symmetry; apply Z.leb_le; lia).
  reflexivity.
Qed.

(** A start after the end is refused, whatever the two numbers. *)
Lemma createReadStream_reversed (file : list byte) (s e : Z) :
  e < s -> videoController.createReadStream file (JS.Num s) (JS.Num e) = None.
Proof.
  intros Hlt. unfold videoController.createReadStream.
  destruct (videoController.validateInteger (JS.Num s)); [|reflexivity].
  replace (s <=? e) with false by (symmetry; apply Z.leb_gt; lia).
  now rewrite andb_false_r.
Qed.

Lemma file_size_safe (file : File.t) :
  0 <= Z.of_nat (length (File.bytes file)) <= JS.MAX_SAFE_INTEGER.
Proof.
  split; [lia|]. apply Z.leb_le. exact (File.size_safe file).
Qed.

End Doubles.

(** The arithmetic of [stream] on safe integers is exact. *)
Ltac safe_arith :=
  repeat first
    [ rewrite to_double_safe by (unfold JS.MAX_SAFE_INTEGER in *; lia)
    | rewrite to_double_length by (unfold JS.MAX_SAFE_INTEGER in *; lia)
    | progress cbn [JS.sub JS.add] ].

Section RangeHeader.

Lemma digit_not_dash (c : ascii) : JS.is_digit c = true -> Ascii.eqb c "-" = false.
Proof. destruct c as [[] [] [] [] [] [] [] []]; intros H; try discriminate H; reflexivity. Qed.

Lemma split_char_digits (s : string) :
  JS.all_digits s = true -> JS.split_char "-" s = [s].
Proof.
  induction s as [|c s IH]; simpl; [reflexivity|].
  intros H. apply andb_prop in H as [Hc Hs].
  rewrite (digit_not_dash c Hc), (IH Hs). reflexivity.
Qed.

Lemma split_char_two_numbers (s t : string) :
  JS.all_digits s = true -> JS.all_digits t = true ->
  JS.split_char "-" (s +:+ String "-" t) = [s; t].
Proof.
  intros Hs Ht. induction s as [|c s IH]; simpl.
  - rewrite (split_char_digits t Ht). reflexivity.
  - simpl in Hs. apply andb_prop in Hs as [Hc Hs].
    rewrite (digit_not_dash c Hc), (IH Hs). reflexivity.
Qed.

Lemma substring_whole (s : string) : String.substring 0 (String.length s) s = s.
Proof. induction s as [|c s IH]; simpl; [reflexivity | now rewrite IH]. Qed.

Lemma remove_first_bytes_prefix (r : string) :
  JS.remove_first "bytes=" ("bytes=" +:+ r) = r.
Proof.
  change (JS.remove_first "bytes=" ("bytes=" +:+ r))
    with (String.substring 6 (6 + String.length r - 6) ("bytes=" +:+ r)).
  replace (6 + String.length r - 6)%nat with (String.length r) by lia.
  exact (substring_whole r).
Qed.

End RangeHeader.

(** ** Words and pieces *)

Section WordCount.

Lemma length_cons_head (c : ascii) (l : list string) :
  l <> [] ->
  length (match l with
          | p :: ps => String c p :: ps
          | [] => [String c EmptyString]
          end) = length l.
Proof. destruct l; [congruence | reflexivity]. Qed.

Lemma split_ws_from_nonempty (b : bool) (s : string) : JS.split_ws_from b s <> [].
Proof.
  revert b. induction s as [|c s IH]; intros b; simpl; [discriminate|].
  destruct (JS.is_space c).
  - destruct b; [apply IH | discriminate].
  - destruct (JS.split_ws_from false s); discriminate.
Qed.

(** On a text that ends in a word: inside a word the pieces still to come
    are one more than the words still to start; inside a separator they
    are as many. *)
Lemma split_ws_from_words (s : string) :
  JS.ends_nonspace s = true ->
  length (JS.split_ws_from false s) = S (JS.count_words_from true s) /\
  length (JS.split_ws_from true s) = JS.count_words_from false s.
Proof.
  induction s as [|c s IH]; [discriminate|].
  intros He. destruct s as [|c' s'].
  - simpl in *. destruct (JS.is_space c); [discriminate|]. split; reflexivity.
  - change (JS.ends_nonspace (String c (String c' s')))
      with (JS.ends_nonspace (String c' s')) in He.
    destruct (IH He) as [IH1 IH2].
    remember (String c' s') as t eqn:Ht. clear Ht IH He. simpl.
    destruct (JS.is_space c).
    + split; [simpl; now rewrite IH2 | exact IH2].
    + rewrite length_cons_head by apply split_ws_from_nonempty.
      rewrite IH1. split; reflexivity.
Qed.

(** On a text that starts and ends with a word, [split(/\s+/).length] is
    the number of its words. With white space at either end it is not:
    an empty piece is counted there. *)
Lemma split_ws_counts_words (s : string) :
  JS.starts_nonspace s = true -> JS.ends_nonspace s = true ->
  length (JS.split_ws s) = JS.count_words s.
Proof.
  destruct s as [|c s]; [discriminate|]. intros Hs He.
  unfold JS.split_ws, JS.count_words. simpl in Hs. simpl.
  destruct (JS.is_space c); [discriminate|].
  rewrite length_cons_head by apply split_ws_from_nonempty.
  destruct s as [|c' s']; [reflexivity|].
  change (JS.ends_nonspace (String c (String c' s')))
    with (JS.ends_nonspace (String c' s')) in He.
  now destruct (split_ws_from_words _ He) as [-> _].
Qed.

Example wordCount_trailing_space :
  scriptController.wordCount_of "hello " = 2 /\ JS.count_words "hello " = 1%nat.
Proof. split; reflexivity. Qed.

End WordCount.

(** ** Schema validation *)

Lemma required_true (s : string) : required s = true <-> s <> EmptyString.
Proof.
  unfold required. destruct (String.eqb_spec s EmptyString) as [->|Hne]; simpl.
  - split; [discriminate | congruence].
  - split; [auto | reflexivity].
Qed.

Lemma Script_validate_None (s : Script.t) :
  Script.validate s = None <->
  required (Script.listingId s) = true /\
  required (Script.content s) = true /\
  forallb (fun v => required (ScriptVersion.content v)) (Script.versions s) = true.
Proof.
  unfold Script.validate.
  destruct (required (Script.listingId s)), (required (Script.content s)),
    (forallb _ (Script.versions s)); simpl; intuition congruence.
Qed.

(** Pushing the live content of a valid script and installing a non-empty
    content gives a script that validates, whatever the derived fields. *)
Lemma Script_validate_push (s : Script.t) (c : string) (wc d u : Z) (st : ScriptStatus)
    (now : Date) (by_ : string) :
  Script.validate s = None -> c <> EmptyString ->
  Script.validate
    (Script.mk (Script.listingId s) c wc d st (Script.approvedBy s) (Script.approvedAt s)
       (Script.rejectionReason s)
       (Script.versions s ++ [ScriptVersion.mk (Script.content s) now by_]) u) = None.
Proof.
  intros Hs Hc. apply Script_validate_None in Hs as (Hl & Hcs & Hv).
  apply Script_validate_None. simpl. split; [assumption|]. split.
  - now apply required_true.
  - rewrite forallb_app, Hv. simpl. now rewrite Hcs.
Qed.

(** ** Listings found by stock number *)

Lemma find_update_first {A} (q : A -> bool) (f : A -> A) (l : list A) :
  (forall x, q (f x) = q x) ->
  List.find q (update_first q f l) = f <$> List.find q l.
Proof.
  intros Hq. induction l as [|x l IH]; simpl; [reflexivity|].
  destruct (q x) eqn:Hx; simpl.
  - now rewrite Hq, Hx.
  - now rewrite Hx.
Qed.

Lemma findOne_after_status (sn : string) (s : ListingStatus) (now : Date) (st : Store) :
  findOne (by_stockNumber sn) (Listing_findOneAndUpdate_status sn s now st)
  = Listing.set_status s now <$> findOne (by_stockNumber sn) st.
Proof.
  unfold findOne, Listing_findOneAndUpdate_status. simpl.
  apply find_update_first. intros x. reflexivity.
Qed.

(** ** The script handlers *)

(** What [update] does to an existing valid script when the new content is
    not empty. *)
Lemma update_success (now : Date) (id c : string) (editedBy : option string)
    (st : Store) (script : Script.t) :
  scripts st !! id = Some script ->
  Script.validate script = None ->
  c <> EmptyString ->
  let saved :=
    Script.mk (Script.listingId script) c (scriptController.wordCount_of c)
      (JS.ceil_div_2_5 (scriptController.wordCount_of c)) S_pending_approval
      (Script.approvedBy script) (Script.approvedAt script) (Script.rejectionReason script)
      (Script.versions script ++
         [ScriptVersion.mk (Script.content script) now (JS.or_else editedBy "admin")])
      now in
  scriptController.update now (Id id) (Some c) editedBy st
  = (Listing_findOneAndUpdate_status (Script.listingId script) L_script_generated now
       (emit (EvSave "Script" id) (set_scripts (<[id := saved]> (scripts st)) st)),
     ok saved "Script updated").
Proof.
  intros Hid Hv Hc saved. unfold scriptController.update, scriptController.save. cbn [castObjectId].
  rewrite Hid. rewrite Script_validate_push by assumption. reflexivity.
Qed.

(** What [revertVersion] does to an existing valid script for an index that
    names one of its versions. *)
Lemma revert_success (now : Date) (id : string) (i : nat)
    (st : Store) (script : Script.t) (v : ScriptVersion.t) :
  scripts st !! id = Some script ->
  Script.validate script = None ->
  Script.versions script !! i = Some v ->
  let c := ScriptVersion.content v in
  let saved :=
    Script.mk (Script.listingId script) c (scriptController.wordCount_of c)
      (JS.ceil_div_2_5 (scriptController.wordCount_of c)) S_pending_approval
      (Script.approvedBy script) (Script.approvedAt script) (Script.rejectionReason script)
      (Script.versions script ++
         [ScriptVersion.mk (Script.content script) now "admin (revert)"])
      now in
  scriptController.revertVersion now (Id id) (Some (Z.of_nat i)) st
  = (emit (EvSave "Script" id) (set_scripts (<[id := saved]> (scripts st)) st),
     ok saved "Reverted to previous version").
Proof.
  intros Hid Hv Hi c saved.
  assert (Hlt : (i < length (Script.versions script))%nat) by (eapply lookup_lt_Some; eassumption).
  assert (Hc : c <> EmptyString).
  { apply Script_validate_None in Hv as (_ & _ & Hall).
    rewrite forallb_forall in Hall. apply required_true, Hall.
    apply list_elem_of_In. eapply list_elem_of_lookup_2. eassumption. }
  unfold scriptController.revertVersion, scriptController.save. cbn [castObjectId]. rewrite Hid.
  replace (scriptController.invalid_index _ _) with false
    by (unfold scriptController.invalid_index; symmetry; apply orb_false_iff; split; lia).
  simpl. rewrite Nat2Z.id, lookup_app_l, Hi by assumption.
  rewrite Script_validate_push by assumption. reflexivity.
Qed.

(** Neither [emit], nor a write to the scripts, nor a status written to a
    listing touches a script other than through [set_scripts]. *)
Lemma scripts_after_status (sn : string) (s : ListingStatus) (now : Date) (st : Store) :
  scripts (Listing_findOneAndUpdate_status sn s now st) = scripts st.
Proof. reflexivity. Qed.

(** Counterexample to C6 as stated: an empty new content is refused by the
    schema (400, nothing written), and for a content that ends in white
    space the stored [wordCount] is not the number of its words. *)
Lemma update_word_count_off :
  let st := Sample.store L_script_generated S_pending_approval V_ready [] in
  scriptController.update 20 (Id "S1") (Some "") None st
  = (st, caught 400 (ValidationError "Script" "content")) /\
  Script.wordCount <$> data (scriptController.update 20 (Id "S1") (Some "hello ") None st).2
  = Some 2 /\
  JS.count_words "hello " = 1%nat /\
  ~ (forall c, exists st' saved,
       scriptController.update 20 (Id "S1") (Some c) None st = (st', ok saved "Script updated") /\
       Script.wordCount saved = Z.of_nat (JS.count_words c)).
Proof.
  split; [vm_compute; reflexivity|]. split; [vm_compute; reflexivity|].
  split; [reflexivity|].
  intros H. destruct (H "hello ") as (st' & saved & Hup & Hwc).
  vm_compute in Hup. inversion Hup; subst saved. vm_compute in Hwc. discriminate Hwc.
Qed.

(** C6, amended: for every existing (valid) script, [update] with a new
    content that starts and ends with a word answers 200, appends the
    previous content to [versions] (one entry, signed by [editedBy] or
    ['admin']), sets [content] to the new content, [wordCount] to the number
    of its words, [estimatedDuration] to the ceiling of [wordCount / 2.5]
    and [status] to [pending_approval]; with the empty content it answers
    400 and writes nothing. *)
Theorem update_script_content (now : Date) (id : string) (editedBy : option string)
    (st : Store) (script : Script.t) :
  scripts st !! id = Some script ->
  Script.validate script = None ->
  (forall c,
     JS.starts_nonspace c = true -> JS.ends_nonspace c = true ->
     exists st' saved,
       scriptController.update now (Id id) (Some c) editedBy st = (st', ok saved "Script updated") /\
       scripts st' !! id = Some saved /\
       Script.versions saved
         = Script.versions script ++
             [ScriptVersion.mk (Script.content script) now (JS.or_else editedBy "admin")] /\
       Script.content saved = c /\
       Script.wordCount saved = Z.of_nat (JS.count_words c) /\
       Script.estimatedDuration saved = Qceiling (inject_Z (Script.wordCount saved) / (5 # 2)) /\
       Script.status saved = S_pending_approval) /\
  scriptController.update now (Id id) (Some "") editedBy st
  = (st, caught 400 (ValidationError "Script" "content")).
Proof.
  intros Hid Hv. split.
  - intros c Hs He.
    assert (Hc : c <> EmptyString) by (destruct c; [discriminate Hs | discriminate]).
    pose proof (update_success now id c editedBy st script Hid Hv Hc) as Hup.
    simpl in Hup. eexists _, _. split; [exact Hup|].
    split; [rewrite scripts_after_status; simpl; apply lookup_insert_eq|].
    simpl. repeat split.
    unfold scriptController.wordCount_of. now rewrite split_ws_counts_words.
  - unfold scriptController.update, scriptController.save. cbn [castObjectId]. rewrite Hid.
    apply Script_validate_None in Hv as (Hl & _ & _).
    unfold Script.validate. simpl. rewrite Hl. reflexivity.
Qed.

Lemma update_script_content_witness :
  let st := Sample.store L_script_approved S_approved V_ready [] in
  let script := Sample.script S_approved in
  (exists st' saved,
     scriptController.update 20 (Id "S1") (Some "Born to ride") (Some "kim") st
     = (st', ok saved "Script updated") /\
     scripts st' !! "S1" = Some saved /\
     Script.versions saved
       = Script.versions script ++
           [ScriptVersion.mk (Script.content script) 20 (JS.or_else (Some "kim") "admin")] /\
     Script.content saved = "Born to ride" /\
     Script.wordCount saved = Z.of_nat (JS.count_words "Born to ride") /\
     Script.estimatedDuration saved = Qceiling (inject_Z (Script.wordCount saved) / (5 # 2)) /\
     Script.status saved = S_pending_approval) /\
  scriptController.update 20 (Id "S1") (Some "") (Some "kim") st
  = (st, caught 400 (ValidationError "Script" "content")).
Proof.
  intros st script.
  destruct (update_script_content 20 "S1" (Some "kim") st script eq_refl eq_refl)
    as [Hok Hempty].
  split; [|exact Hempty].
  apply (Hok "Born to ride"); reflexivity.
Defined.

(** C10: whenever [scriptController.update] succeeds (answers 200), the
    listing found by the script's [listingId] (its stock number) has its
    status overwritten with [script_generated], whatever its status was. *)
Theorem update_overwrites_listing_status (now : Date) (id : string)
    (c editedBy : option string) (st st' : Store) (r : Response Script.t)
    (script : Script.t) (l : Listing.t) :
  scripts st !! id = Some script ->
  findOne (by_stockNumber (Script.listingId script)) st = Some l ->
  scriptController.update now (Id id) c editedBy st = (st', r) ->
  code r = 200 ->
  exists l',
    findOne (by_stockNumber (Script.listingId script)) st' = Some l' /\
    Listing.status l' = L_script_generated /\
    l' = Listing.set_status L_script_generated now l.
Proof.
  intros Hid Hl Hup Hcode. unfold scriptController.update in Hup. cbn [castObjectId] in Hup. rewrite Hid in Hup.
  destruct c as [c|]; [|inversion Hup; subst; discriminate Hcode].
  destruct (scriptController.save _ _ _ _) as [e|[st1 saved]] eqn:Hsave;
    [inversion Hup; subst; discriminate Hcode|].
  unfold scriptController.save in Hsave.
  destruct (Script.validate _); [discriminate Hsave|].
  inversion Hsave; subst st1 saved; clear Hsave.
  inversion Hup; subst st' r; clear Hup. simpl.
  exists (Listing.set_status L_script_generated now l). split; [|split; reflexivity].
  rewrite findOne_after_status.
  change (findOne ?q (emit _ (set_scripts _ st))) with (findOne q st).
  rewrite Hl. reflexivity.
Qed.

Lemma update_overwrites_listing_status_witness :
  let st := Sample.store L_published S_approved V_published [] in
  exists l',
    findOne (by_stockNumber "HD100")
      (scriptController.update 20 (Id "S1") (Some "Born to ride") None st).1 = Some l' /\
    Listing.status l' = L_script_generated /\
    l' = Listing.set_status L_script_generated 20 (Sample.listing L_published).
Proof.
  intros st.
  apply (update_overwrites_listing_status 20 "S1" (Some "Born to ride") None st
           (scriptController.update 20 (Id "S1") (Some "Born to ride") None st).1
           (scriptController.update 20 (Id "S1") (Some "Born to ride") None st).2
           (Sample.script S_approved) (Sample.listing L_published));
    [reflexivity | reflexivity | apply surjective_pairing | reflexivity].
Defined.

(** C5: for every existing script and every index below 0 or not below the
    number of versions, [scriptController.revertVersion] answers 400
    ['Invalid version index'] and leaves the store, hence the script's
    content, versions, wordCount, estimatedDuration and status, as it was. *)
Theorem revertVersion_out_of_range (now : Date) (id : string) (i : Z)
    (st : Store) (script : Script.t) :
  scripts st !! id = Some script ->
  i < 0 \/ Z.of_nat (length (Script.versions script)) <= i ->
  scriptController.revertVersion now (Id id) (Some i) st
  = (st, fail 400 "Invalid version index").
Proof.
  intros Hid Hi. unfold scriptController.revertVersion. cbn [castObjectId]. rewrite Hid.
  replace (scriptController.invalid_index _ _) with true; [reflexivity|].
  unfold scriptController.invalid_index. symmetry. apply orb_true_iff.
  destruct Hi; [left | right]; lia.
Qed.

Lemma revertVersion_out_of_range_witness :
  let st := Sample.store L_script_generated S_pending_approval V_ready [] in
  scriptController.revertVersion 20 (Id "S1") (Some 0) st = (st, fail 400 "Invalid version index")
  /\ scriptController.revertVersion 20 (Id "S1") (Some (-1)) st
     = (st, fail 400 "Invalid version index").
Proof.
  split.
  - apply (revertVersion_out_of_range 20 "S1" 0 _ (Sample.script S_pending_approval));
      [reflexivity | right; simpl; lia].
  - apply (revertVersion_out_of_range 20 "S1" (-1) _ (Sample.script S_pending_approval));
      [reflexivity | left; lia].
Defined.

(** C4: on an existing (valid) script, [update] with a non-empty content
    followed by [revertVersion] with the index the pre-update content was
    pushed at (the number of versions before the update) succeeds twice,
    restores the pre-update content and leaves [versions] longer by exactly
    two entries: the pre-update content, then the edited content. *)
Theorem update_then_revert (now1 now2 : Date) (id c : string) (editedBy : option string)
    (st : Store) (script : Script.t) :
  scripts st !! id = Some script ->
  Script.validate script = None ->
  c <> EmptyString ->
  let n := length (Script.versions script) in
  let '(st1, r1) := scriptController.update now1 (Id id) (Some c) editedBy st in
  let '(st2, r2) := scriptController.revertVersion now2 (Id id) (Some (Z.of_nat n)) st1 in
  code r1 = 200 /\ code r2 = 200 /\
  exists script2,
    scripts st2 !! id = Some script2 /\
    Script.content script2 = Script.content script /\
    length (Script.versions script2) = (n + 2)%nat /\
    Script.versions script2
      = Script.versions script ++
          [ScriptVersion.mk (Script.content script) now1 (JS.or_else editedBy "admin");
           ScriptVersion.mk c now2 "admin (revert)"].
Proof.
  intros Hid Hv Hc n.
  rewrite (update_success now1 id c editedBy st script Hid Hv Hc).
  match goal with
  | |- context [scriptController.revertVersion _ _ _ ?s1] => set (st1 := s1)
  end.
  match goal with
  | st1 := Listing_findOneAndUpdate_status _ _ _
             (emit _ (set_scripts (<[id := ?sv]> _) _)) |- _ => set (saved := sv) in *
  end.
  assert (Hid1 : scripts st1 !! id = Some saved) by apply lookup_insert_eq.
  assert (Hv1 : Script.validate saved = None) by (apply Script_validate_push; assumption).
  assert (Hn : Script.versions saved !! n
               = Some (ScriptVersion.mk (Script.content script) now1
                         (JS.or_else editedBy "admin"))).
  { simpl. rewrite lookup_app_r by reflexivity.
    fold n. now rewrite Nat.sub_diag. }
  rewrite (revert_success now2 id n st1 saved _ Hid1 Hv1 Hn).
  split; [reflexivity|]. split; [reflexivity|].
  eexists. split; [apply lookup_insert_eq|]. simpl.
  split; [reflexivity|]. split.
  - rewrite !length_app. simpl. fold n. lia.
  - rewrite <- app_assoc. reflexivity.
Qed.

Lemma update_then_revert_witness :
  let st := Sample.store L_script_generated S_pending_approval V_ready [] in
  let '(st1, r1) := scriptController.update 20 (Id "S1") (Some "Born to ride") None st in
  let '(st2, r2) := scriptController.revertVersion 30 (Id "S1") (Some (Z.of_nat 0)) st1 in
  code r1 = 200 /\ code r2 = 200 /\
  exists script2,
    scripts st2 !! "S1" = Some script2 /\
    Script.content script2 = "Ride the legend today" /\
    length (Script.versions script2) = 2%nat /\
    Script.versions script2
      = [] ++ [ScriptVersion.mk "Ride the legend today" 20 (JS.or_else None "admin");
               ScriptVersion.mk "Born to ride" 30 "admin (revert)"].
Proof.
  apply (update_then_revert 20 30 "S1" "Born to ride" None
           (Sample.store L_script_generated S_pending_approval V_ready [])
           (Sample.script S_pending_approval)); [reflexivity | reflexivity | discriminate].
Defined.

(** ** Validity is kept by the handlers *)

Lemma scripts_valid_insert (st st' : Store) (id : string) (s' : Script.t) :
  scripts_valid st -> Script.validate s' = None ->
  scripts st' = <[id := s']> (scripts st) -> scripts_valid st'.
Proof.
  intros Hst Hs' Heq id' s Hl. rewrite Heq in Hl.
  destruct (decide (id = id')) as [->|Hne].
  - rewrite lookup_insert_eq in Hl. congruence.
  - rewrite lookup_insert_ne in Hl by assumption. eapply Hst; eassumption.
Qed.

(** X8: every handler of [scriptController] takes a store whose scripts
    satisfy the schema to such a store: [save] validates what it writes, and
    [approve] and [reject] write paths the schema does not constrain. *)
Lemma script_handlers_keep_valid (now : Date) (id : Param) (st : Store) :
  scripts_valid st ->
  (forall c e, scripts_valid (scriptController.update now id c e st).1) /\
  (forall i, scripts_valid (scriptController.revertVersion now id i st).1) /\
  (forall a, scripts_valid (scriptController.approve now id a st).1) /\
  (forall r, scripts_valid (scriptController.reject now id r st).1).
Proof.
  intros Hst. destruct id as [id|raw]; [|repeat split; intros; exact Hst].
  repeat split.
  - intros c e. unfold scriptController.update. cbn [castObjectId].
    destruct (scripts st !! id) as [script|] eqn:Hid; [|exact Hst].
    destruct c as [c|]; [|exact Hst].
    unfold scriptController.save.
    destruct (Script.validate _) eqn:Hv; [exact Hst|].
    eapply scripts_valid_insert; [exact Hst | | reflexivity]. exact Hv.
  - intros i. unfold scriptController.revertVersion. cbn [castObjectId].
    destruct (scripts st !! id) as [script|] eqn:Hid; [|exact Hst].
    destruct (scriptController.invalid_index _ _); [exact Hst|].
    destruct (i ≫= _) as [v|]; [|exact Hst].
    unfold scriptController.save.
    destruct (Script.validate _) eqn:Hv; [exact Hst|].
    eapply scripts_valid_insert; [exact Hst | | reflexivity]. exact Hv.
  - intros a. unfold scriptController.approve. cbn [castObjectId].
    destruct (scripts st !! id) as [script|] eqn:Hid; [|exact Hst].
    eapply scripts_valid_insert; [exact Hst | | reflexivity]. exact (Hst id script Hid).
  - intros r. unfold scriptController.reject. cbn [castObjectId].
    destruct (scripts st !! id) as [script|] eqn:Hid; [|exact Hst].
    eapply scripts_valid_insert; [exact Hst | | reflexivity]. exact (Hst id script Hid).
Qed.

Lemma videos_valid_insert (st st' : Store) (id : string) (v' : Video.t) :
  videos_valid st -> Video.validate v' = None ->
  videos st' = <[id := v']> (videos st) -> videos_valid st'.
Proof.
  intros Hst Hv' Heq id' v Hl. rewrite Heq in Hl.
  destruct (decide (id = id')) as [->|Hne].
  - rewrite lookup_insert_eq in Hl. congruence.
  - rewrite lookup_insert_ne in Hl by assumption. eapply Hst; eassumption.
Qed.

(** What [save] of a video that validates leaves in the store: the store
    as it was when no path was given another value, and otherwise the store
    with the document written under its id and this write logged. *)
Lemma video_save_cases (id : string) (loaded v : Video.t) (now : Date) (st : Store) :
  Video.validate v = None ->
  exists st1 saved,
    videoController.save id loaded v now st = inr (st1, saved) /\
    Video.validate saved = None /\
    Video.status saved = Video.status v /\
    Video.listingId saved = Video.listingId v /\
    Video.dealerId saved = Video.dealerId v /\
    Video.path saved = Video.path v /\
    listings st1 = listings st /\ scripts st1 = scripts st /\
    files st1 = files st /\ jobs st1 = jobs st /\
    ((v = loaded /\ st1 = st /\ saved = v) \/
     (v <> loaded /\
      st1 = emit (EvSave "Video" id) (set_videos (<[id := saved]> (videos st)) st))).
Proof.
  intros Hv. unfold videoController.save. rewrite Hv.
  case_bool_decide as Heq.
  - eexists _, _. split; [reflexivity|]. repeat split; try assumption.
    left. repeat split. exact Heq.
  - eexists _, _. split; [reflexivity|]. repeat split; try assumption.
    right. split; [exact Heq | reflexivity].
Qed.

(** X9: the handlers of [videoController] that write videos ([approve],
    [reject], [publish], [regenerate]) take a store whose videos satisfy the
    schema to such a store. *)
Lemma video_handlers_keep_valid (now : Date) (id : Param) (st : Store) :
  videos_valid st ->
  (forall a, videos_valid (videoController.approve now id a st).1) /\
  videos_valid (videoController.reject now id st).1 /\
  (forall ch, videos_valid (videoController.publish now id ch st).1) /\
  videos_valid (videoController.regenerate now id st).1.
Proof.
  intros Hst. destruct id as [id|raw]; [|repeat split; intros; exact Hst].
  repeat split.
  - intros a. unfold videoController.approve. cbn [castObjectId].
    destruct (videos st !! id) as [v|] eqn:Hid; [|exact Hst].
    eapply videos_valid_insert; [exact Hst | | reflexivity]. exact (Hst id v Hid).
  - unfold videoController.reject. cbn [castObjectId].
    destruct (videos st !! id) as [v|] eqn:Hid; [|exact Hst].
    eapply videos_valid_insert; [exact Hst | | reflexivity]. exact (Hst id v Hid).
  - intros ch. unfold videoController.publish. cbn [castObjectId].
    destruct (videos st !! id) as [v|] eqn:Hid; [|exact Hst].
    destruct (negb _); [exact Hst|].
    unfold videoController.save.
    destruct (Video.validate _) eqn:Hv; [exact Hst|].
    case_bool_decide; [exact Hst|].
    eapply videos_valid_insert; [exact Hst | | reflexivity]. exact Hv.
  - unfold videoController.regenerate. cbn [castObjectId].
    destruct (videos st !! id) as [v|] eqn:Hid; [|exact Hst].
    unfold videoController.save.
    destruct (Video.validate _) eqn:Hv.
    + destruct (existsSync _ st); exact Hst.
    + case_bool_decide; destruct (existsSync _ st); try exact Hst;
        (eapply videos_valid_insert; [exact Hst | | reflexivity]; exact Hv).
Qed.

(** ** The review gate: approve, reject, publish *)

(** Counterexample to C3 as stated: approving a script whose status is
    [draft], and a video whose status is [processing], answers 200 and
    changes the status to [approved]. *)
Lemma approve_draft_succeeds :
  let st := Sample.store L_script_generated S_draft V_processing [] in
  let '(st1, r1) := scriptController.approve 20 (Id "S1") None st in
  let '(st2, r2) := videoController.approve 20 (Id "V1") None st in
  Script.status <$> scripts st !! "S1" = Some S_draft /\
  code r1 = 200 /\ success r1 = true /\
  Script.status <$> scripts st1 !! "S1" = Some S_approved /\
  Video.status <$> videos st !! "V1" = Some V_processing /\
  code r2 = 200 /\ success r2 = true /\
  Video.status <$> videos st2 !! "V1" = Some V_approved /\
  ~ (success r1 = false /\
     Script.status <$> scripts st1 !! "S1" = Script.status <$> scripts st !! "S1").
Proof. vm_compute. repeat split; try reflexivity. intros [H _]. discriminate H. Qed.

(** The listing a status is written to: the first one with the stock
    number has that status afterwards, and is the same listing. *)
Lemma findOne_status_written (sn : string) (s : ListingStatus) (now : Date)
    (st : Store) (l : Listing.t) :
  findOne (by_stockNumber sn) st = Some l ->
  exists l',
    findOne (by_stockNumber sn) (Listing_findOneAndUpdate_status sn s now st) = Some l' /\
    Listing.status l' = s /\ Listing._id l' = Listing._id l.
Proof.
  intros Hl. rewrite findOne_after_status, Hl.
  eexists. split; [reflexivity|]. split; reflexivity.
Qed.

(** C3, amended: [approve] does not look at the current status. On every
    existing script (video), whatever its status, it answers 200, sets the
    status to [approved] with [approvedBy] (['admin'] by default) and
    [approvedAt], and writes [script_approved] ([video_approved]) to the
    listing found by the artifact's [listingId]: that listing has this
    status afterwards. It fails only for an id under which nothing is
    stored, with 404, and for a string that is no ObjectId, with 400
    (CastError); then the store is left as it was. *)
Theorem approve_ignores_status (now : Date) (by_ : option string) (st : Store) :
  (forall id s, scripts st !! id = Some s ->
     exists st' s',
       scriptController.approve now (Id id) by_ st = (st', ok s' "Script approved") /\
       scripts st' !! id = Some s' /\
       Script.status s' = S_approved /\
       Script.approvedBy s' = Some (JS.or_else by_ "admin") /\
       Script.approvedAt s' = Some now /\
       findOne (by_stockNumber (Script.listingId s)) st'
       = Listing.set_status L_script_approved now
           <$> findOne (by_stockNumber (Script.listingId s)) st /\
       (forall l, findOne (by_stockNumber (Script.listingId s)) st = Some l ->
          exists l', findOne (by_stockNumber (Script.listingId s)) st' = Some l' /\
            Listing.status l' = L_script_approved /\ Listing._id l' = Listing._id l)) /\
  (forall id v, videos st !! id = Some v ->
     exists st' v',
       videoController.approve now (Id id) by_ st = (st', ok v' "Video approved") /\
       videos st' !! id = Some v' /\
       Video.status v' = V_approved /\
       Video.approvedBy v' = Some (JS.or_else by_ "admin") /\
       Video.approvedAt v' = Some now /\
       findOne (by_stockNumber (Video.listingId v)) st'
       = Listing.set_status L_video_approved now
           <$> findOne (by_stockNumber (Video.listingId v)) st /\
       (forall l, findOne (by_stockNumber (Video.listingId v)) st = Some l ->
          exists l', findOne (by_stockNumber (Video.listingId v)) st' = Some l' /\
            Listing.status l' = L_video_approved /\ Listing._id l' = Listing._id l)) /\
  (forall id, scripts st !! id = None ->
     scriptController.approve now (Id id) by_ st = (st, fail 404 "Script not found")) /\
  (forall id, videos st !! id = None ->
     videoController.approve now (Id id) by_ st = (st, fail 404 "Video not found")) /\
  (forall value,
     scriptController.approve now (Malformed value) by_ st
     = (st, caught 400 (CastError "Script" value)) /\
     videoController.approve now (Malformed value) by_ st
     = (st, caught 400 (CastError "Video" value))).
Proof.
  split; [|split; [|split; [|split]]].
  - intros id s Hid. unfold scriptController.approve. cbn [castObjectId]. rewrite Hid.
    eexists _, _. split; [reflexivity|]. simpl.
    split; [apply lookup_insert_eq|]. do 3 (split; [reflexivity|]).
    split; [rewrite findOne_after_status; reflexivity|].
    intros l Hl. apply (findOne_status_written _ _ _ _ l). exact Hl.
  - intros id v Hid. unfold videoController.approve. cbn [castObjectId]. rewrite Hid.
    eexists _, _. split; [reflexivity|]. simpl.
    split; [apply lookup_insert_eq|]. do 3 (split; [reflexivity|]).
    split; [rewrite findOne_after_status; reflexivity|].
    intros l Hl. apply (findOne_status_written _ _ _ _ l). exact Hl.
  - intros id Hid. unfold scriptController.approve. cbn [castObjectId].
    rewrite Hid. reflexivity.
  - intros id Hid. unfold videoController.approve. cbn [castObjectId].
    rewrite Hid. reflexivity.
  - intros value. split; reflexivity.
Qed.

Lemma approve_ignores_status_witness :
  let st := Sample.store L_script_generated S_draft V_rejected [] in
  (exists st' s',
     scriptController.approve 20 (Id "S1") None st = (st', ok s' "Script approved") /\
     scripts st' !! "S1" = Some s' /\
     Script.status s' = S_approved /\
     Script.approvedBy s' = Some (JS.or_else None "admin") /\
     Script.approvedAt s' = Some 20 /\
     findOne (by_stockNumber "HD100") st'
     = Listing.set_status L_script_approved 20 <$> findOne (by_stockNumber "HD100") st /\
     (forall l, findOne (by_stockNumber "HD100") st = Some l ->
        exists l', findOne (by_stockNumber "HD100") st' = Some l' /\
          Listing.status l' = L_script_approved /\ Listing._id l' = Listing._id l)) /\
  (exists st' v',
     videoController.approve 20 (Id "V1") None st = (st', ok v' "Video approved") /\
     videos st' !! "V1" = Some v' /\
     Video.status v' = V_approved /\
     Video.approvedBy v' = Some (JS.or_else None "admin") /\
     Video.approvedAt v' = Some 20 /\
     findOne (by_stockNumber "HD100") st'
     = Listing.set_status L_video_approved 20 <$> findOne (by_stockNumber "HD100") st /\
     (forall l, findOne (by_stockNumber "HD100") st = Some l ->
        exists l', findOne (by_stockNumber "HD100") st' = Some l' /\
          Listing.status l' = L_video_approved /\ Listing._id l' = Listing._id l)) /\
  scriptController.approve 20 (Id "S2") None st = (st, fail 404 "Script not found") /\
  videoController.approve 20 (Id "V2") None st = (st, fail 404 "Video not found").
Proof.
  intros st.
  destruct (approve_ignores_status 20 None st) as (Hs & Hv & Hs404 & Hv404 & _).
  split; [|split; [|split]].
  - apply (Hs "S1" (Sample.script S_draft)). reflexivity.
  - apply (Hv "V1" (Sample.video V_rejected)). reflexivity.
  - apply (Hs404 "S2"). reflexivity.
  - apply (Hv404 "V2"). reflexivity.
Defined.

(** Counterexample to C8 as stated: rejecting a script with the empty reason
    answers 200, sets the status to [rejected] and stores the empty reason. *)
Lemma reject_empty_reason_succeeds :
  let st := Sample.store L_script_generated S_pending_approval V_ready [] in
  let '(st1, r1) := scriptController.reject 20 (Id "S1") "" st in
  code r1 = 200 /\ success r1 = true /\
  Script.status <$> scripts st1 !! "S1" = Some S_rejected /\
  Script.rejectionReason <$> scripts st1 !! "S1" = Some (Some "") /\
  ~ (success r1 = false /\ st1 = st).
Proof. vm_compute. repeat split; try reflexivity. intros [H _]. discriminate H. Qed.

(** C8, amended: no reason is required. [reject] on an existing script
    answers 200 for every reason, the empty one included, sets the status to
    [rejected] and stores the reason; on an existing video it takes no
    reason at all and sets the status to [rejected]. Neither writes to a
    listing. *)
Theorem reject_needs_no_reason (now : Date) (st : Store) :
  (forall id reason s, scripts st !! id = Some s ->
     exists st' s',
       scriptController.reject now (Id id) reason st = (st', ok s' "Script rejected") /\
       scripts st' !! id = Some s' /\
       Script.status s' = S_rejected /\
       Script.rejectionReason s' = Some reason /\
       listings st' = listings st) /\
  (forall id v, videos st !! id = Some v ->
     exists st' v',
       videoController.reject now (Id id) st = (st', ok v' "Video rejected") /\
       videos st' !! id = Some v' /\
       Video.status v' = V_rejected /\
       listings st' = listings st).
Proof.
  split.
  - intros id reason s Hid. unfold scriptController.reject. cbn [castObjectId]. rewrite Hid.
    eexists _, _. split; [reflexivity|]. simpl.
    split; [apply lookup_insert_eq|]. repeat split.
  - intros id v Hid. unfold videoController.reject. cbn [castObjectId]. rewrite Hid.
    eexists _, _. split; [reflexivity|]. simpl.
    split; [apply lookup_insert_eq|]. repeat split.
Qed.

Lemma reject_needs_no_reason_witness :
  let st := Sample.store L_script_generated S_pending_approval V_ready [] in
  (exists st' s',
     scriptController.reject 20 (Id "S1") "" st = (st', ok s' "Script rejected") /\
     scripts st' !! "S1" = Some s' /\
     Script.status s' = S_rejected /\
     Script.rejectionReason s' = Some "" /\
     listings st' = listings st) /\
  (exists st' v',
     videoController.reject 20 (Id "V1") st = (st', ok v' "Video rejected") /\
     videos st' !! "V1" = Some v' /\
     Video.status v' = V_rejected /\
     listings st' = listings st).
Proof.
  intros st. split.
  - apply (proj1 (reject_needs_no_reason 20 st) "S1" "" (Sample.script S_pending_approval)).
    reflexivity.
  - apply (proj2 (reject_needs_no_reason 20 st) "V1" (Sample.video V_ready)).
    reflexivity.
Defined.

(** What [publish] does to an approved video that validates. *)
Lemma publish_success (now : Date) (id : string) (channelId : option string)
    (st : Store) (v : Video.t) :
  videos st !! id = Some v ->
  Video.status v = V_approved ->
  Video.validate v = None ->
  let saved :=
    Video.mk (Video.listingId v) (Video.dealerId v) (Video.path v)
      (Video.duration v) (Video.resolution v) (Video.fileSize v)
      V_published (Video.approvedBy v) (Video.approvedAt v)
      (Some now) channelId (Video.thumbnailPath v) now in
  videoController.publish now (Id id) channelId st
  = (Listing_findOneAndUpdate_status (Video.listingId v) L_published now
       (emit (EvSave "Video" id) (set_videos (<[id := saved]> (videos st)) st)),
     ok saved "Video published").
Proof.
  intros Hid Hs Hv saved. unfold videoController.publish. cbn [castObjectId].
  rewrite Hid, Hs. cbn [videoController.is_approved negb].
  unfold videoController.save.
  change (Video.validate _) with (Video.validate v). rewrite Hv.
  rewrite bool_decide_eq_false_2; [reflexivity|].
  intros Heq. apply (f_equal Video.status) in Heq. simpl in Heq. congruence.
Qed.

(** C9: [publish] on a video whose status is not [approved] answers 400 and
    leaves the whole store (the video and every listing) as it was; on a
    (valid) video whose status is [approved] it answers 200, sets the status
    to [published], records [publishedAt] and [fastChannelId], and writes
    [published] to the listing found by the video's [listingId]: that
    listing has the status [published] afterwards. *)
Theorem publish_requires_approved (now : Date) (id : string) (channelId : option string)
    (st : Store) (v : Video.t) :
  videos st !! id = Some v ->
  (Video.status v <> V_approved ->
     videoController.publish now (Id id) channelId st
     = (st, fail 400 "Video must be approved before publishing")) /\
  (Video.status v = V_approved -> Video.validate v = None ->
     exists st' v',
       videoController.publish now (Id id) channelId st = (st', ok v' "Video published") /\
       videos st' !! id = Some v' /\
       Video.status v' = V_published /\
       Video.publishedAt v' = Some now /\
       Video.fastChannelId v' = channelId /\
       findOne (by_stockNumber (Video.listingId v)) st'
       = Listing.set_status L_published now
           <$> findOne (by_stockNumber (Video.listingId v)) st /\
       (forall l, findOne (by_stockNumber (Video.listingId v)) st = Some l ->
          exists l', findOne (by_stockNumber (Video.listingId v)) st' = Some l' /\
            Listing.status l' = L_published /\ Listing._id l' = Listing._id l)).
Proof.
  intros Hid. split.
  - intros Hs. unfold videoController.publish. cbn [castObjectId]. rewrite Hid.
    destruct (Video.status v); try reflexivity. congruence.
  - intros Hs Hv. rewrite (publish_success now id channelId st v Hid Hs Hv).
    eexists _, _. split; [reflexivity|]. simpl.
    split; [apply lookup_insert_eq|]. do 3 (split; [reflexivity|]).
    split; [rewrite findOne_after_status; reflexivity|].
    intros l Hl. apply (findOne_status_written _ _ _ _ l). exact Hl.
Qed.

Lemma publish_requires_approved_witness :
  let st0 := Sample.store L_video_generated S_approved V_ready [] in
  let st1 := Sample.store L_video_approved S_approved V_approved [] in
  videoController.publish 20 (Id "V1") (Some "fast-1") st0
  = (st0, fail 400 "Video must be approved before publishing") /\
  exists st' v',
    videoController.publish 20 (Id "V1") (Some "fast-1") st1 = (st', ok v' "Video published") /\
    videos st' !! "V1" = Some v' /\
    Video.status v' = V_published /\
    Video.publishedAt v' = Some 20 /\
    Video.fastChannelId v' = Some "fast-1" /\
    findOne (by_stockNumber "HD100") st'
    = Listing.set_status L_published 20 <$> findOne (by_stockNumber "HD100") st1 /\
    (forall l, findOne (by_stockNumber "HD100") st1 = Some l ->
       exists l', findOne (by_stockNumber "HD100") st' = Some l' /\
         Listing.status l' = L_published /\ Listing._id l' = Listing._id l).
Proof.
  intros st0 st1. split.
  - apply (proj1 (publish_requires_approved 20 "V1" (Some "fast-1") st0
                    (Sample.video V_ready) eq_refl)).
    discriminate.
  - apply (proj2 (publish_requires_approved 20 "V1" (Some "fast-1") st1
                    (Sample.video V_approved) eq_refl)); reflexivity.
Defined.

(** ** Streaming *)

Lemma truthy_nonempty (s : string) : s <> EmptyString -> JS.truthy (Some s) = true.
Proof. intros H. simpl. now apply required_true. Qed.

(** The header [bytes=start-end] written with decimal numerals is read back
    as the two numbers. *)
Lemma range_header_parts (s e : Z) :
  0 <= s -> 0 <= e ->
  JS.split_char "-"
    (JS.remove_first "bytes="
       ("bytes=" +:+ JS.to_string (JS.Num s) +:+ "-" +:+ JS.to_string (JS.Num e)))
  = [JS.to_string (JS.Num s); JS.to_string (JS.Num e)].
Proof.
  intros Hs He. rewrite remove_first_bytes_prefix.
  destruct (to_string_nat_digits s Hs) as [_ Hds].
  destruct (to_string_nat_digits e He) as [_ Hde].
  apply split_char_two_numbers; assumption.
Qed.

(** The bytes [createReadStream] delivers for a range inside the file are
    the bytes of the file at the offsets [start] to [end]. *)
Lemma slice_spec {A} (file : list A) (s e : Z) :
  0 <= s <= e -> e < Z.of_nat (length file) ->
  let body := take (Z.to_nat (e - s + 1)) (drop (Z.to_nat s) file) in
  Z.of_nat (length body) = e - s + 1 /\
  forall k : nat, Z.of_nat k <= e - s -> body !! k = file !! (Z.to_nat s + k)%nat.
Proof.
  intros Hse He body. subst body. split.
  - rewrite length_take, length_drop. lia.
  - intros k Hk. rewrite lookup_take_lt by lia. apply lookup_drop.
Qed.

(** What [stream] makes of a header [bytes=s-e] written with two natural
    numbers: the two are read as doubles, and everything is decided by
    [createReadStream]. *)
Lemma stream_two_numbers (id : string) (st : Store) (video : Video.t)
    (file : File.t) (s e : Z) :
  videos st !! id = Some video ->
  files st !! Video.path video = Some file ->
  0 <= s -> 0 <= e ->
  videoController.stream (Id id)
    (Some ("bytes=" +:+ JS.to_string (JS.Num s) +:+ "-" +:+ JS.to_string (JS.Num e))) st
  = match videoController.createReadStream (File.bytes file)
            (JS.to_double s) (JS.to_double e) with
    | Some body =>
        videoController.Stream 206
          [("Content-Range",
            "bytes " +:+ JS.to_string (JS.to_double s) +:+ "-"
              +:+ JS.to_string (JS.to_double e)
              +:+ "/" +:+ JS.to_string (JS.Num (Z.of_nat (length (File.bytes file)))));
           ("Accept-Ranges", "bytes");
           ("Content-Length",
            JS.to_string (JS.add (JS.sub (JS.to_double e) (JS.to_double s)) (JS.Num 1)));
           ("Content-Type", "video/mp4")]
          body
    | None => videoController.Json (caught 500 RangeError)
    end.
Proof.
  intros Hid Hfile Hs He.
  unfold videoController.stream. cbn [castObjectId]. rewrite Hid, Hfile.
  replace (JS.truthy (Some _)) with true by reflexivity.
  cbv zeta. change (default "" (Some ?x)) with x.
  rewrite !range_header_parts by lia.
  change ([?a; ?b] !! 0%nat) with (Some a).
  change ([?a; ?b] !! 1%nat) with (Some b).
  change (default "" (Some ?x)) with x.
  rewrite !parseInt_to_string by lia.
  rewrite truthy_nonempty by (apply to_string_nat_digits; lia).
  reflexivity.
Qed.

(** The same for a header [bytes=s-] without an end: the end is the last
    offset of the file. *)
Lemma stream_open_range (id : string) (st : Store) (video : Video.t)
    (file : File.t) (s : Z) :
  videos st !! id = Some video ->
  files st !! Video.path video = Some file ->
  0 <= s ->
  let fileSize := JS.Num (Z.of_nat (length (File.bytes file))) in
  let end_ := JS.sub fileSize (JS.Num 1) in
  videoController.stream (Id id) (Some ("bytes=" +:+ JS.to_string (JS.Num s) +:+ "-")) st
  = match videoController.createReadStream (File.bytes file) (JS.to_double s) end_ with
    | Some body =>
        videoController.Stream 206
          [("Content-Range",
            "bytes " +:+ JS.to_string (JS.to_double s) +:+ "-" +:+ JS.to_string end_
              +:+ "/" +:+ JS.to_string fileSize);
           ("Accept-Ranges", "bytes");
           ("Content-Length",
            JS.to_string (JS.add (JS.sub end_ (JS.to_double s)) (JS.Num 1)));
           ("Content-Type", "video/mp4")]
          body
    | None => videoController.Json (caught 500 RangeError)
    end.
Proof.
  intros Hid Hfile Hs fileSize end_.
  destruct (to_string_nat_digits s Hs) as [_ Hd].
  unfold videoController.stream. cbn [castObjectId]. rewrite Hid, Hfile.
  replace (JS.truthy (Some _)) with true by reflexivity.
  cbv zeta. change (default "" (Some ?x)) with x.
  rewrite !remove_first_bytes_prefix.
  rewrite !(split_char_two_numbers _ EmptyString Hd eq_refl).
  change ([?a; ?b] !! 0%nat) with (Some a).
  change ([?a; ?b] !! 1%nat) with (Some b).
  change (default "" (Some ?x)) with x.
  rewrite !parseInt_to_string by lia.
  change (JS.truthy (Some EmptyString)) with false. cbv iota.
  reflexivity.
Qed.

(** C7: for a stored video whose file exists and has [fileSize] bytes, a
    request with [Range: bytes=start-end], [0 <= start <= end < fileSize],
    is answered 206 with [Content-Range: bytes start-end/fileSize],
    [Accept-Ranges: bytes], [Content-Length: end-start+1],
    [Content-Type: video/mp4] and the bytes at offsets [start] to [end] as
    body; a request without [Range] is answered 200 with
    [Content-Length: fileSize] and the whole file. *)
Theorem stream_serves_ranges (id : string) (st : Store) (video : Video.t)
    (file : File.t) :
  videos st !! id = Some video ->
  files st !! Video.path video = Some file ->
  let bytes := File.bytes file in
  let fileSize := Z.of_nat (length bytes) in
  (forall start end_ : Z,
     0 <= start <= end_ -> end_ < fileSize ->
     let body := take (Z.to_nat (end_ - start + 1)) (drop (Z.to_nat start) bytes) in
     videoController.stream (Id id)
       (Some ("bytes=" +:+ JS.to_string (JS.Num start) +:+ "-" +:+ JS.to_string (JS.Num end_)))
       st
     = videoController.Stream 206
         [("Content-Range",
           "bytes " +:+ JS.to_string (JS.Num start) +:+ "-" +:+ JS.to_string (JS.Num end_)
             +:+ "/" +:+ JS.to_string (JS.Num fileSize));
          ("Accept-Ranges", "bytes");
          ("Content-Length", JS.to_string (JS.Num (end_ - start + 1)));
          ("Content-Type", "video/mp4")]
         body /\
     Z.of_nat (length body) = end_ - start + 1 /\
     forall k : nat, Z.of_nat k <= end_ - start ->
       body !! k = bytes !! (Z.to_nat start + k)%nat) /\
  videoController.stream (Id id) None st
  = videoController.Stream 200
      [("Content-Length", JS.to_string (JS.Num fileSize)); ("Content-Type", "video/mp4")]
      bytes.
Proof.
  intros Hid Hfile bytes fileSize. split.
  - intros start end_ Hse He body.
    split; [|apply slice_spec; assumption].
    pose proof (file_size_safe file) as Hsafe. fold bytes fileSize in Hsafe.
    rewrite (stream_two_numbers id st video file start end_ Hid Hfile) by lia.
    safe_arith. rewrite createReadStream_safe by lia.
    reflexivity.
  - unfold videoController.stream. cbn [castObjectId]. rewrite Hid, Hfile. reflexivity.
Qed.

Lemma stream_serves_ranges_witness :
  let st := Sample.store L_video_generated S_approved V_ready [] in
  let bytes := File.bytes Sample.file in
  (let body := take (Z.to_nat (99 - 0 + 1)) (drop (Z.to_nat 0) bytes) in
   videoController.stream (Id "V1")
     (Some ("bytes=" +:+ JS.to_string (JS.Num 0) +:+ "-" +:+ JS.to_string (JS.Num 99))) st
   = videoController.Stream 206
       [("Content-Range",
         "bytes " +:+ JS.to_string (JS.Num 0) +:+ "-" +:+ JS.to_string (JS.Num 99)
           +:+ "/" +:+ JS.to_string (JS.Num (Z.of_nat (length bytes))));
        ("Accept-Ranges", "bytes");
        ("Content-Length", JS.to_string (JS.Num (99 - 0 + 1)));
        ("Content-Type", "video/mp4")]
       body /\
   Z.of_nat (length body) = 99 - 0 + 1 /\
   forall k : nat, Z.of_nat k <= 99 - 0 ->
     body !! k = bytes !! (Z.to_nat 0 + k)%nat) /\
  videoController.stream (Id "V1") None st
  = videoController.Stream 200
      [("Content-Length", JS.to_string (JS.Num (Z.of_nat (length bytes))));
       ("Content-Type", "video/mp4")]
      bytes.
Proof.
  intros st bytes.
  destruct (stream_serves_ranges "V1" st (Sample.video V_ready) Sample.file eq_refl eq_refl)
    as [Hrange Hfull].
  split; [|exact Hfull].
  apply (Hrange 0 99); [lia | vm_compute; reflexivity].
Defined.

(** The scenario of the specification: a file of 1000 bytes and
    [Range: bytes=0-99]. *)
Example stream_first_100_bytes :
  videoController.stream (Id "V1") (Some "bytes=0-99")
    (Sample.store L_video_generated S_approved V_ready [])
  = videoController.Stream 206
      [("Content-Range", "bytes 0-99/1000"); ("Accept-Ranges", "bytes");
       ("Content-Length", "100"); ("Content-Type", "video/mp4")]
      (take 100 (File.bytes Sample.file)).
Proof. vm_compute. reflexivity. Qed.

(** ** Regeneration *)



Lemma Listing_validate_reset (l : Listing.t) :
  Listing.validate (listingController.reset_for_video l) = Listing.validate l.
Proof. reflexivity. Qed.

Lemma by_id_eq (id : string) (l : Listing.t) (st : Store) :
  findOne (by_id id) st = Some l -> Listing._id l = id.
Proof.
  unfold findOne. intros H. apply find_some in H as [_ H].
  unfold by_id in H. now apply String.eqb_eq in H.
Qed.




(** ** The job ledger *)

(** Counterexample to C1 as stated: for a listing that has a Job in
    [processing], both regenerate handlers answer 200 and report success,
    not a conflict; they create no Job. *)
Lemma active_job_does_not_block :
  let st := Sample.store L_voiceover_generated S_approved V_ready [Sample.job J_processing] in
  let '(st3, r3) := listingController.regenerateVideo 20 (Id "L1") st in
  let '(st4, r4) := videoController.regenerate 20 (Id "V1") st in
  active_jobs "HD100" st = 1%nat /\
  code r3 = 200 /\ success r3 = true /\ jobs st3 = jobs st /\
  code r4 = 200 /\ success r4 = true /\ jobs st4 = jobs st /\
  ~ (success r3 = false \/ success r4 = false).
Proof.
  vm_compute. repeat split; try reflexivity. intros [H|H]; discriminate H.
Qed.

Lemma listing_regenerate_jobs (now : Date) (id : Param) (st : Store) :
  jobs (listingController.regenerateVideo now id st).1 = jobs st.
Proof.
  destruct id as [id|raw]; [|reflexivity].
  unfold listingController.regenerateVideo. cbn [castObjectId].
  destruct (findOne (by_id id) st) as [listing|]; [|reflexivity].
  unfold listingController.save.
  destruct (Listing.validate _); [destruct (JS.truthy _ && existsSync _ st); reflexivity|].
  destruct (negb false && bool_decide _);
    destruct (JS.truthy _ && existsSync _ st); reflexivity.
Qed.

Lemma video_regenerate_jobs (now : Date) (id : Param) (st : Store) :
  jobs (videoController.regenerate now id st).1 = jobs st.
Proof.
  destruct id as [id|raw]; [|reflexivity].
  unfold videoController.regenerate. cbn [castObjectId].
  destruct (videos st !! id) as [video|]; [|reflexivity].
  unfold videoController.save.
  destruct (Video.validate _); [destruct (existsSync _ st); reflexivity|].
  destruct (bool_decide _); destruct (existsSync _ st); reflexivity.
Qed.

(** C1, amended: the regenerate handlers neither read nor write the Job
    records. Run on a store whose Job records are replaced by any others
    (none, one or several of them active for the listing), each gives the
    same response and the same store with those records still in place; the
    Job records, hence the number of active Jobs of every listing, are the
    same after the request as before. The answer is 200, 404 or 500, never
    a conflict, and it is 200 whenever the listing (video) exists and
    validates. *)
Theorem regenerate_ignores_jobs (now : Date) (id : Param) (st : Store) :
  (forall js,
     listingController.regenerateVideo now id (set_jobs js st)
     = let '(st', r) := listingController.regenerateVideo now id st in
       (set_jobs js st', r)) /\
  (forall js,
     videoController.regenerate now id (set_jobs js st)
     = let '(st', r) := videoController.regenerate now id st in
       (set_jobs js st', r)) /\
  jobs (listingController.regenerateVideo now id st).1 = jobs st /\
  jobs (videoController.regenerate now id st).1 = jobs st /\
  (forall L,
     active_jobs L (listingController.regenerateVideo now id st).1 = active_jobs L st /\
     active_jobs L (videoController.regenerate now id st).1 = active_jobs L st) /\
  (let c := code (listingController.regenerateVideo now id st).2 in
   c = 200 \/ c = 404 \/ c = 500) /\
  (let c := code (videoController.regenerate now id st).2 in
   c = 200 \/ c = 404 \/ c = 500) /\
  (forall k listing,
     id = Id k -> findOne (by_id k) st = Some listing -> Listing.validate listing = None ->
     code (listingController.regenerateVideo now id st).2 = 200 /\
     success (listingController.regenerateVideo now id st).2 = true) /\
  (forall k video,
     id = Id k -> videos st !! k = Some video -> Video.validate video = None ->
     code (videoController.regenerate now id st).2 = 200 /\
     success (videoController.regenerate now id st).2 = true).
Proof.
  split; [|split; [|split; [|split; [|split; [|split; [|split; [|split]]]]]]].
  - intros js. destruct id as [id|raw]; [|reflexivity].
    unfold listingController.regenerateVideo. cbn [castObjectId].
    change (findOne (by_id id) (set_jobs js st)) with (findOne (by_id id) st).
    destruct (findOne (by_id id) st) as [listing|]; [|reflexivity].
    unfold listingController.save.
    destruct (Listing.validate _); [|destruct (negb false && bool_decide _)];
      destruct (JS.truthy _ && existsSync _ (set_jobs js st)) eqn:E;
      change (existsSync ?p (set_jobs js st)) with (existsSync p st) in E;
      rewrite E; reflexivity.
  - intros js. destruct id as [id|raw]; [|reflexivity].
    unfold videoController.regenerate. cbn [castObjectId].
    change (videos (set_jobs js st)) with (videos st).
    destruct (videos st !! id) as [video|]; [|reflexivity].
    unfold videoController.save.
    destruct (Video.validate _); [|destruct (bool_decide _)];
      destruct (existsSync _ (set_jobs js st)) eqn:E;
      change (existsSync ?p (set_jobs js st)) with (existsSync p st) in E;
      rewrite E; reflexivity.
  - apply listing_regenerate_jobs.
  - apply video_regenerate_jobs.
  - intros L. unfold active_jobs.
    now rewrite listing_regenerate_jobs, video_regenerate_jobs.
  - destruct id as [id|raw]; [|right; right; reflexivity].
    unfold listingController.regenerateVideo. cbn [castObjectId].
    destruct (findOne (by_id id) st) as [listing|]; [|right; left; reflexivity].
    unfold listingController.save.
    destruct (Listing.validate _); [right; right; reflexivity|].
    destruct (negb false && bool_decide _); left; reflexivity.
  - destruct id as [id|raw]; [|right; right; reflexivity].
    unfold videoController.regenerate. cbn [castObjectId].
    destruct (videos st !! id) as [video|]; [|right; left; reflexivity].
    unfold videoController.save.
    destruct (Video.validate _); [right; right; reflexivity|].
    destruct (bool_decide _); left; reflexivity.
  - intros k listing -> Hfind Hv.
    unfold listingController.regenerateVideo. cbn [castObjectId]. rewrite Hfind.
    unfold listingController.save. rewrite Listing_validate_reset, Hv.
    destruct (negb false && bool_decide _); split; reflexivity.
  - intros k video -> Hid Hv.
    unfold videoController.regenerate. cbn [castObjectId]. rewrite Hid.
    unfold videoController.save.
    change (Video.validate (videoController.set_status _ video)) with (Video.validate video).
    rewrite Hv. destruct (bool_decide _); split; reflexivity.
Qed.

Lemma regenerate_ignores_jobs_witness :
  let st := Sample.store L_voiceover_generated S_approved V_ready [Sample.job J_processing] in
  active_jobs "HD100" st = 1%nat /\
  (code (listingController.regenerateVideo 20 (Id "L1") st).2 = 200 /\
   success (listingController.regenerateVideo 20 (Id "L1") st).2 = true) /\
  (code (videoController.regenerate 20 (Id "V1") st).2 = 200 /\
   success (videoController.regenerate 20 (Id "V1") st).2 = true).
Proof.
  intros st. split; [reflexivity|]. split.
  - destruct (regenerate_ignores_jobs 20 (Id "L1") st) as (_ & _ & _ & _ & _ & _ & _ & H & _).
    apply (H "L1" (Sample.listing L_voiceover_generated)); reflexivity.
  - destruct (regenerate_ignores_jobs 20 (Id "V1") st) as (_ & _ & _ & _ & _ & _ & _ & _ & H).
    apply (H "V1" (Sample.video V_ready)); reflexivity.
Defined.

(** ** More on streaming: open, reversed, suffix and overlong ranges *)

(** X1: a range without an end, [bytes=start-] with [0 <= start < fileSize],
    is answered 206 with the rest of the file from [start]:
    [Content-Range: bytes start-(fileSize-1)/fileSize] and
    [Content-Length: fileSize-start]. *)
Theorem stream_open_ended_range (id : string) (st : Store) (video : Video.t)
    (file : File.t) (start : Z) :
  videos st !! id = Some video ->
  files st !! Video.path video = Some file ->
  0 <= start < Z.of_nat (length (File.bytes file)) ->
  let fileSize := Z.of_nat (length (File.bytes file)) in
  videoController.stream (Id id) (Some ("bytes=" +:+ JS.to_string (JS.Num start) +:+ "-")) st
  = videoController.Stream 206
      [("Content-Range",
        "bytes " +:+ JS.to_string (JS.Num start) +:+ "-"
          +:+ JS.to_string (JS.Num (fileSize - 1)) +:+ "/" +:+ JS.to_string (JS.Num fileSize));
       ("Accept-Ranges", "bytes");
       ("Content-Length", JS.to_string (JS.Num (fileSize - start)));
       ("Content-Type", "video/mp4")]
      (drop (Z.to_nat start) (File.bytes file)).
Proof.
  intros Hid Hfile Hs fileSize.
  pose proof (file_size_safe file) as Hsafe. fold fileSize in Hsafe, Hs.
  rewrite (stream_open_range id st video file start Hid Hfile) by lia.
  fold fileSize. safe_arith.
  rewrite createReadStream_safe by lia.
  replace (fileSize - 1 - start + 1) with (fileSize - start) by lia.
  rewrite take_ge by (rewrite length_drop; lia).
  reflexivity.
Qed.

Lemma stream_open_ended_range_witness :
  videoController.stream (Id "V1") (Some ("bytes=" +:+ JS.to_string (JS.Num 900) +:+ "-"))
    (Sample.store L_video_generated S_approved V_ready [])
  = videoController.Stream 206
      [("Content-Range",
        "bytes " +:+ JS.to_string (JS.Num 900) +:+ "-"
          +:+ JS.to_string (JS.Num (Z.of_nat (length (File.bytes Sample.file)) - 1)) +:+ "/"
          +:+ JS.to_string (JS.Num (Z.of_nat (length (File.bytes Sample.file)))));
       ("Accept-Ranges", "bytes");
       ("Content-Length",
        JS.to_string (JS.Num (Z.of_nat (length (File.bytes Sample.file)) - 900)));
       ("Content-Type", "video/mp4")]
      (drop (Z.to_nat 900) (File.bytes Sample.file)).
Proof.
  apply (stream_open_ended_range "V1" _ (Sample.video V_ready) Sample.file 900);
    [reflexivity | reflexivity | vm_compute; split; [discriminate | reflexivity]].
Defined.

(** X2: a suffix range, [bytes=-n], is not served: whatever follows the
    dash, the start is read as [NaN], [createReadStream] throws and the
    answer is 500. *)
Theorem stream_suffix_range_fails (id : string) (st : Store) (video : Video.t)
    (file : File.t) (suffix : string) :
  videos st !! id = Some video ->
  files st !! Video.path video = Some file ->
  videoController.stream (Id id) (Some ("bytes=-" +:+ suffix)) st
  = videoController.Json (caught 500 RangeError).
Proof.
  intros Hid Hfile. unfold videoController.stream. cbn [castObjectId]. rewrite Hid, Hfile.
  replace (JS.truthy (Some _)) with true by reflexivity.
  cbv zeta. change (default "" (Some ?x)) with x.
  change ("bytes=-" +:+ suffix) with ("bytes=" +:+ String "-" suffix).
  rewrite !remove_first_bytes_prefix.
  change (JS.split_char "-" (String "-" suffix))
    with (EmptyString :: JS.split_char "-" suffix).
  reflexivity.
Qed.

Lemma stream_suffix_range_fails_witness :
  videoController.stream (Id "V1") (Some ("bytes=-" +:+ "500"))
    (Sample.store L_video_generated S_approved V_ready [])
  = videoController.Json (caught 500 RangeError).
Proof.
  apply (stream_suffix_range_fails "V1" _ (Sample.video V_ready) Sample.file "500");
    reflexivity.
Defined.

(** X3: a range whose start lies after its end is answered 500: a reversed
    range [bytes=start-end] with [end < start], and a range without end
    that starts at or after the end of the file. *)
Theorem stream_start_after_end_fails (id : string) (st : Store) (video : Video.t)
    (file : File.t) (start : Z) :
  videos st !! id = Some video ->
  files st !! Video.path video = Some file ->
  (forall end_, 0 <= end_ < start ->
     videoController.stream (Id id)
       (Some ("bytes=" +:+ JS.to_string (JS.Num start) +:+ "-" +:+ JS.to_string (JS.Num end_)))
       st
     = videoController.Json (caught 500 RangeError)) /\
  (Z.of_nat (length (File.bytes file)) <= start ->
     videoController.stream (Id id) (Some ("bytes=" +:+ JS.to_string (JS.Num start) +:+ "-")) st
     = videoController.Json (caught 500 RangeError)).
Proof.
  intros Hid Hfile. split.
  - intros end_ He.
    rewrite (stream_two_numbers id st video file start end_ Hid Hfile) by lia.
    destruct (Z_le_gt_dec start JS.MAX_SAFE_INTEGER) as [Hsafe|Hbig].
    + rewrite !to_double_safe by lia.
      rewrite createReadStream_reversed by lia. reflexivity.
    + rewrite createReadStream_unsafe_start by lia. reflexivity.
  - intros Hs. pose proof (file_size_safe file) as Hsize.
    rewrite (stream_open_range id st video file start Hid Hfile) by lia.
    destruct (Z_le_gt_dec start JS.MAX_SAFE_INTEGER) as [Hsafe|Hbig].
    + safe_arith. rewrite createReadStream_reversed by lia. reflexivity.
    + rewrite createReadStream_unsafe_start by lia. reflexivity.
Qed.

Lemma stream_start_after_end_fails_witness :
  let st := Sample.store L_video_generated S_approved V_ready [] in
  videoController.stream (Id "V1")
    (Some ("bytes=" +:+ JS.to_string (JS.Num 1000) +:+ "-" +:+ JS.to_string (JS.Num 99))) st
  = videoController.Json (caught 500 RangeError) /\
  videoController.stream (Id "V1") (Some ("bytes=" +:+ JS.to_string (JS.Num 1000) +:+ "-")) st
  = videoController.Json (caught 500 RangeError).
Proof.
  intros st.
  destruct (stream_start_after_end_fails "V1" st (Sample.video V_ready) Sample.file 1000
              eq_refl eq_refl) as [Hrev Hopen].
  split; [apply (Hrev 99); lia | apply Hopen; vm_compute; discriminate].
Defined.

(** X4: a range that starts inside the file and ends at or after its end.
    While the end is a safe integer the answer is 206 with
    [Content-Length: end-start+1], but the body holds only the
    [fileSize-start] bytes up to the end of the file, fewer than announced.
    An end above the safe integers (and below [2^1023]) is read as a double
    that [createReadStream] refuses: the answer is 500. *)
Theorem stream_range_past_end (id : string) (st : Store) (video : Video.t)
    (file : File.t) (start end_ : Z) :
  videos st !! id = Some video ->
  files st !! Video.path video = Some file ->
  0 <= start < Z.of_nat (length (File.bytes file)) ->
  Z.of_nat (length (File.bytes file)) <= end_ ->
  let request :=
    Some ("bytes=" +:+ JS.to_string (JS.Num start) +:+ "-" +:+ JS.to_string (JS.Num end_)) in
  (end_ <= JS.MAX_SAFE_INTEGER ->
     videoController.stream (Id id) request st
     = videoController.Stream 206
         [("Content-Range",
           "bytes " +:+ JS.to_string (JS.Num start) +:+ "-" +:+ JS.to_string (JS.Num end_)
             +:+ "/" +:+ JS.to_string (JS.Num (Z.of_nat (length (File.bytes file)))));
          ("Accept-Ranges", "bytes");
          ("Content-Length", JS.to_string (JS.Num (end_ - start + 1)));
          ("Content-Type", "video/mp4")]
         (drop (Z.to_nat start) (File.bytes file)) /\
     Z.of_nat (length (drop (Z.to_nat start) (File.bytes file)))
     = Z.of_nat (length (File.bytes file)) - start /\
     Z.of_nat (length (File.bytes file)) - start < end_ - start + 1) /\
  (JS.MAX_SAFE_INTEGER < end_ < 2 ^ 1023 ->
     videoController.stream (Id id) request st
     = videoController.Json (caught 500 RangeError)).
Proof.
  intros Hid Hfile Hs He request. subst request.
  pose proof (file_size_safe file) as Hsize.
  rewrite (stream_two_numbers id st video file start end_ Hid Hfile) by lia.
  rewrite (to_double_safe start) by lia.
  split.
  - intros Hsafe. safe_arith.
    rewrite createReadStream_safe by lia.
    rewrite take_ge by (rewrite length_drop; lia).
    split; [reflexivity|]. rewrite length_drop. lia.
  - intros Hbig. destruct (to_double_finite end_ Hbig) as (m & -> & Hm).
    unfold videoController.createReadStream.
    rewrite validateInteger_safe by lia.
    unfold videoController.validateInteger.
    replace (m <=? JS.MAX_SAFE_INTEGER) with false by (symmetry; apply Z.leb_gt; lia).
    now rewrite andb_false_r.
Qed.

Lemma stream_range_past_end_witness :
  let st := Sample.store L_video_generated S_approved V_ready [] in
  let bytes := File.bytes Sample.file in
  (videoController.stream (Id "V1")
     (Some ("bytes=" +:+ JS.to_string (JS.Num 990) +:+ "-" +:+ JS.to_string (JS.Num 1999))) st
   = videoController.Stream 206
       [("Content-Range",
         "bytes " +:+ JS.to_string (JS.Num 990) +:+ "-" +:+ JS.to_string (JS.Num 1999)
           +:+ "/" +:+ JS.to_string (JS.Num (Z.of_nat (length bytes))));
        ("Accept-Ranges", "bytes");
        ("Content-Length", JS.to_string (JS.Num (1999 - 990 + 1)));
        ("Content-Type", "video/mp4")]
       (drop (Z.to_nat 990) bytes) /\
   Z.of_nat (length (drop (Z.to_nat 990) bytes)) = Z.of_nat (length bytes) - 990 /\
   Z.of_nat (length bytes) - 990 < 1999 - 990 + 1) /\
  videoController.stream (Id "V1")
    (Some ("bytes=" +:+ JS.to_string (JS.Num 0) +:+ "-"
           +:+ JS.to_string (JS.Num 9007199254740993))) st
  = videoController.Json (caught 500 RangeError).
Proof.
  intros st bytes. split.
  - apply (proj1 (stream_range_past_end "V1" st (Sample.video V_ready) Sample.file 990 1999
                    eq_refl eq_refl
                    ltac:(vm_compute; split; [discriminate | reflexivity])
                    ltac:(vm_compute; discriminate))).
    vm_compute. discriminate.
  - apply (proj2 (stream_range_past_end "V1" st (Sample.video V_ready) Sample.file
                    0 9007199254740993
                    eq_refl eq_refl
                    ltac:(vm_compute; split; [discriminate | reflexivity])
                    ltac:(vm_compute; discriminate))).
    split; [vm_compute; reflexivity|]. apply Z.ltb_lt. vm_compute. reflexivity.
Defined.

(** The double that [9007199254740993] is read as is [2^53]. *)
Example parseInt_above_safe :
  JS.parseInt "9007199254740993" = JS.Num 9007199254740992 /\
  JS.parseInt "9007199254740995" = JS.Num 9007199254740996.
Proof. split; vm_compute; reflexivity. Qed.

(** ** More on the script handlers *)

(** X5: [revertVersion] with the index of one of the stored versions of a
    (valid) script answers 200, makes that version's content the live
    content, appends the content it replaces to [versions], recomputes the
    derived fields, sets the status to [pending_approval], and writes no
    listing. *)
Theorem revertVersion_restores (now : Date) (id : string) (i : nat)
    (st : Store) (script : Script.t) (v : ScriptVersion.t) :
  scripts st !! id = Some script ->
  Script.validate script = None ->
  Script.versions script !! i = Some v ->
  exists st' saved,
    scriptController.revertVersion now (Id id) (Some (Z.of_nat i)) st
    = (st', ok saved "Reverted to previous version") /\
    scripts st' !! id = Some saved /\
    Script.content saved = ScriptVersion.content v /\
    Script.versions saved
    = Script.versions script ++
        [ScriptVersion.mk (Script.content script) now "admin (revert)"] /\
    Script.wordCount saved = scriptController.wordCount_of (ScriptVersion.content v) /\
    Script.estimatedDuration saved = JS.ceil_div_2_5 (Script.wordCount saved) /\
    Script.status saved = S_pending_approval /\
    listings st' = listings st.
Proof.
  intros Hid Hv Hi.
  pose proof (revert_success now id i st script v Hid Hv Hi) as H. simpl in H.
  eexists _, _. split; [exact H|]. simpl.
  split; [apply lookup_insert_eq|]. repeat split.
Qed.

Lemma revertVersion_restores_witness :
  let st :=
    (scriptController.update 20 (Id "S1") (Some "Born to ride") None
       (Sample.store L_script_generated S_pending_approval V_ready [])).1 in
  exists st' saved,
    scriptController.revertVersion 30 (Id "S1") (Some (Z.of_nat 0)) st
    = (st', ok saved "Reverted to previous version") /\
    scripts st' !! "S1" = Some saved /\
    Script.content saved = "Ride the legend today" /\
    Script.versions saved
    = [ScriptVersion.mk "Ride the legend today" 20 "admin"] ++
        [ScriptVersion.mk "Born to ride" 30 "admin (revert)"] /\
    Script.wordCount saved = scriptController.wordCount_of "Ride the legend today" /\
    Script.estimatedDuration saved = JS.ceil_div_2_5 (Script.wordCount saved) /\
    Script.status saved = S_pending_approval /\
    listings st' = listings st.
Proof.
  intros st.
  apply (revertVersion_restores 30 "S1" 0 st
           (Script.mk "HD100" "Born to ride" 3 2 S_pending_approval None None None
              [ScriptVersion.mk "Ride the legend today" 20 "admin"] 20)
           (ScriptVersion.mk "Ride the legend today" 20 "admin"));
    reflexivity.
Defined.

(** X6: the script handlers are all or nothing: whenever one of
    [update], [approve], [reject], [revertVersion] answers anything but 200
    (an id that is no ObjectId or that is unknown, missing [content] or
    [versionIndex], index out of range, content refused by the schema), the
    store is exactly what it was. *)
Theorem script_request_failure_writes_nothing (req : routes.ScriptRequest)
    (now : Date) (id : Param) (st : Store) :
  code (routes.script req now id st).2 <> 200 ->
  (routes.script req now id st).1 = st.
Proof.
  destruct id as [id|raw]; [|destruct req; reflexivity].
  destruct req as [c e|a|r|i]; simpl.
  - unfold scriptController.update. cbn [castObjectId].
    destruct (scripts st !! id); [|reflexivity].
    destruct c; [|reflexivity].
    destruct (scriptController.save _ _ _ _) as [?|[? ?]]; [reflexivity|].
    simpl. congruence.
  - unfold scriptController.approve. cbn [castObjectId].
    destruct (scripts st !! id); [|reflexivity]. simpl. congruence.
  - unfold scriptController.reject. cbn [castObjectId].
    destruct (scripts st !! id); [|reflexivity]. simpl. congruence.
  - unfold scriptController.revertVersion. cbn [castObjectId].
    destruct (scripts st !! id); [|reflexivity].
    destruct (scriptController.invalid_index _ _); [reflexivity|].
    destruct (i ≫= _); [|reflexivity].
    destruct (scriptController.save _ _ _ _) as [?|[? ?]]; [reflexivity|].
    simpl. congruence.
Qed.

Lemma script_request_failure_writes_nothing_witness :
  let st := Sample.store L_script_generated S_pending_approval V_ready [] in
  (routes.script (routes.PostRevert None) 20 (Id "S1") st).1 = st /\
  (routes.script (routes.PutScript None (Some "kim")) 20 (Id "S1") st).1 = st /\
  (routes.script (routes.PostApprove None) 20 (Id "nobody") st).1 = st /\
  (routes.script (routes.PostApprove None) 20 (Malformed "undefined") st).1 = st.
Proof.
  intros st. split; [|split; [|split]].
  - apply (script_request_failure_writes_nothing (routes.PostRevert None) 20 (Id "S1") st).
    vm_compute. discriminate.
  - apply (script_request_failure_writes_nothing (routes.PutScript None (Some "kim"))
             20 (Id "S1") st).
    vm_compute. discriminate.
  - apply (script_request_failure_writes_nothing (routes.PostApprove None) 20
             (Id "nobody") st).
    vm_compute. discriminate.
  - apply (script_request_failure_writes_nothing (routes.PostApprove None) 20
             (Malformed "undefined") st).
    vm_compute. discriminate.
Defined.

Lemma scripts_insert_keeps_history (st st0 : Store) (id id' : string)
    (old new s : Script.t) :
  scripts st !! id' = Some s ->
  scripts st !! id = Some old ->
  Script.listingId new = Script.listingId old ->
  Script.versions old `prefix_of` Script.versions new ->
  scripts st0 = <[id := new]> (scripts st) ->
  exists s', scripts st0 !! id' = Some s' /\
    Script.listingId s' = Script.listingId s /\
    Script.versions s `prefix_of` Script.versions s'.
Proof.
  intros Hs Hold Hl Hp Heq. rewrite Heq.
  destruct (decide (id = id')) as [->|Hne].
  - rewrite lookup_insert_eq. exists new. rewrite Hs in Hold. inversion Hold; subst old.
    repeat split; assumption.
  - rewrite lookup_insert_ne by assumption. exists s. repeat split; [assumption | reflexivity].
Qed.

(** X7: the history of a script is append-only and no script is ever
    removed: after any request to [update], [approve], [reject] or
    [revertVersion], every script that was stored is still stored under its
    id, for the same listing, and its former [versions] are a prefix of its
    [versions]. *)
Theorem script_history_append_only (req : routes.ScriptRequest)
    (now : Date) (id : Param) (st : Store) (id' : string) (s : Script.t) :
  scripts st !! id' = Some s ->
  exists s',
    scripts (routes.script req now id st).1 !! id' = Some s' /\
    Script.listingId s' = Script.listingId s /\
    Script.versions s `prefix_of` Script.versions s'.
Proof.
  intros Hs.
  assert (Hkeep : exists s', scripts st !! id' = Some s' /\
            Script.listingId s' = Script.listingId s /\
            Script.versions s `prefix_of` Script.versions s')
    by (exists s; repeat split; [assumption | reflexivity]).
  destruct id as [id|raw]; [|destruct req; exact Hkeep].
  destruct req as [c e|a|r|i]; simpl.
  - unfold scriptController.update. cbn [castObjectId].
    destruct (scripts st !! id) as [script|] eqn:Hid; [|exact Hkeep].
    destruct c as [c|]; [|exact Hkeep].
    unfold scriptController.save. destruct (Script.validate _); [exact Hkeep|].
    eapply (scripts_insert_keeps_history st _ id id' script);
      [exact Hs | exact Hid | | | reflexivity]; simpl;
      [reflexivity | apply prefix_app_r; reflexivity].
  - unfold scriptController.approve. cbn [castObjectId].
    destruct (scripts st !! id) as [script|] eqn:Hid; [|exact Hkeep].
    eapply (scripts_insert_keeps_history st _ id id' script);
      [exact Hs | exact Hid | | | reflexivity]; simpl; reflexivity.
  - unfold scriptController.reject. cbn [castObjectId].
    destruct (scripts st !! id) as [script|] eqn:Hid; [|exact Hkeep].
    eapply (scripts_insert_keeps_history st _ id id' script);
      [exact Hs | exact Hid | | | reflexivity]; simpl; reflexivity.
  - unfold scriptController.revertVersion. cbn [castObjectId].
    destruct (scripts st !! id) as [script|] eqn:Hid; [|exact Hkeep].
    destruct (scriptController.invalid_index _ _); [exact Hkeep|].
    destruct (i ≫= _); [|exact Hkeep].
    unfold scriptController.save. destruct (Script.validate _); [exact Hkeep|].
    eapply (scripts_insert_keeps_history st _ id id' script);
      [exact Hs | exact Hid | | | reflexivity]; simpl;
      [reflexivity | apply prefix_app_r; reflexivity].
Qed.

Lemma script_history_append_only_witness :
  let st := Sample.store L_script_generated S_pending_approval V_ready [] in
  exists s',
    scripts (routes.script (routes.PutScript (Some "Born to ride") None) 20 (Id "S1") st).1
      !! "S1"
    = Some s' /\
    Script.listingId s' = Script.listingId (Sample.script S_pending_approval) /\
    Script.versions (Sample.script S_pending_approval) `prefix_of` Script.versions s'.
Proof.
  intros st.
  apply (script_history_append_only (routes.PutScript (Some "Born to ride") None)
           20 (Id "S1") st "S1" (Sample.script S_pending_approval)).
  reflexivity.
Defined.

Lemma sample_scripts_valid (ls : ListingStatus) (ss : ScriptStatus) (vs : VideoStatus)
    (js : list Job.t) :
  scripts_valid (Sample.store ls ss vs js).
Proof.
  intros id s H. simpl in H. apply lookup_singleton_Some in H as [_ <-]. reflexivity.
Qed.

Lemma sample_videos_valid (ls : ListingStatus) (ss : ScriptStatus) (vs : VideoStatus)
    (js : list Job.t) :
  videos_valid (Sample.store ls ss vs js).
Proof.
  intros id v H. simpl in H. apply lookup_singleton_Some in H as [_ <-]. reflexivity.
Qed.

Lemma script_handlers_keep_valid_witness :
  let st := Sample.store L_script_generated S_pending_approval V_ready [] in
  (forall c e, scripts_valid (scriptController.update 20 (Id "S1") c e st).1) /\
  (forall i, scripts_valid (scriptController.revertVersion 20 (Id "S1") i st).1) /\
  (forall a, scripts_valid (scriptController.approve 20 (Id "S1") a st).1) /\
  (forall r, scripts_valid (scriptController.reject 20 (Id "S1") r st).1).
Proof.
  intros st. apply (script_handlers_keep_valid 20 (Id "S1") st).
  apply sample_scripts_valid.
Defined.

Lemma video_handlers_keep_valid_witness :
  let st := Sample.store L_video_generated S_approved V_ready [] in
  (forall a, videos_valid (videoController.approve 20 (Id "V1") a st).1) /\
  videos_valid (videoController.reject 20 (Id "V1") st).1 /\
  (forall ch, videos_valid (videoController.publish 20 (Id "V1") ch st).1) /\
  videos_valid (videoController.regenerate 20 (Id "V1") st).1.
Proof.
  intros st. apply (video_handlers_keep_valid 20 (Id "V1") st).
  apply sample_videos_valid.
Defined.

(** X10: a request to a script handler concerns one script only: the
    videos, the files and the Job records are left as they were, and so is
    every script stored under another id. *)
Theorem script_request_frame (req : routes.ScriptRequest)
    (now : Date) (id : Param) (st : Store) :
  let st' := (routes.script req now id st).1 in
  videos st' = videos st /\ files st' = files st /\ jobs st' = jobs st /\
  forall id', id <> Id id' -> scripts st' !! id' = scripts st !! id'.
Proof.
  destruct id as [id|raw]; [|destruct req; repeat split].
  assert (Hins : forall (s : Script.t) id', Id id <> Id id' ->
            (<[id := s]> (scripts st)) !! id' = scripts st !! id')
    by (intros s id' Hne; apply lookup_insert_ne; congruence).
  destruct req as [c e|a|r|i]; simpl.
  - unfold scriptController.update. cbn [castObjectId].
    destruct (scripts st !! id); [|repeat split].
    destruct c; [|repeat split].
    unfold scriptController.save. destruct (Script.validate _); [repeat split|].
    repeat split. apply Hins.
  - unfold scriptController.approve. cbn [castObjectId].
    destruct (scripts st !! id); [|repeat split]. repeat split. apply Hins.
  - unfold scriptController.reject. cbn [castObjectId].
    destruct (scripts st !! id); [|repeat split]. repeat split. apply Hins.
  - unfold scriptController.revertVersion. cbn [castObjectId].
    destruct (scripts st !! id); [|repeat split].
    destruct (scriptController.invalid_index _ _); [repeat split|].
    destruct (i ≫= _); [|repeat split].
    unfold scriptController.save. destruct (Script.validate _); [repeat split|].
    repeat split. apply Hins.
Qed.

Lemma script_request_frame_witness :
  let st := Sample.store L_script_generated S_pending_approval V_ready [Sample.job J_queued] in
  let st' := (routes.script (routes.PostReject "too long") 20 (Id "S1") st).1 in
  videos st' = videos st /\ files st' = files st /\ jobs st' = jobs st /\
  scripts st' !! "S2" = scripts st !! "S2".
Proof.
  intros st st'.
  destruct (script_request_frame (routes.PostReject "too long") 20 (Id "S1") st)
    as (Hv & Hf & Hj & Hs).
  split; [exact Hv|]. split; [exact Hf|]. split; [exact Hj|].
  apply Hs. discriminate.
Defined.

(** X11: the stamps of the review outlive the status they belong to:
    [approve] after [reject] gives an approved script that still carries the
    rejection reason, and [reject] after [approve] gives a rejected script
    that still carries [approvedBy] and [approvedAt]. *)
Theorem review_stamps_are_kept (now1 now2 : Date) (id reason : string)
    (by_ : option string) (st : Store) (s : Script.t) :
  scripts st !! id = Some s ->
  (exists s2,
     scripts (scriptController.approve now2 (Id id) by_
                (scriptController.reject now1 (Id id) reason st).1).1 !! id = Some s2 /\
     Script.status s2 = S_approved /\
     Script.rejectionReason s2 = Some reason) /\
  (exists s2,
     scripts (scriptController.reject now2 (Id id) reason
                (scriptController.approve now1 (Id id) by_ st).1).1 !! id = Some s2 /\
     Script.status s2 = S_rejected /\
     Script.approvedBy s2 = Some (JS.or_else by_ "admin") /\
     Script.approvedAt s2 = Some now1).
Proof.
  intros Hid. split.
  - unfold scriptController.reject at 1. cbn [castObjectId]. rewrite Hid. simpl.
    unfold scriptController.approve. cbn [castObjectId]. simpl. rewrite lookup_insert_eq. simpl.
    eexists. split; [apply lookup_insert_eq|]. split; reflexivity.
  - unfold scriptController.approve at 1. cbn [castObjectId]. rewrite Hid. simpl.
    unfold scriptController.reject. cbn [castObjectId]. simpl. rewrite lookup_insert_eq. simpl.
    eexists. split; [apply lookup_insert_eq|]. repeat split.
Qed.

Lemma review_stamps_are_kept_witness :
  let st := Sample.store L_script_generated S_pending_approval V_ready [] in
  (exists s2,
     scripts (scriptController.approve 30 (Id "S1") None
                (scriptController.reject 20 (Id "S1") "too long" st).1).1 !! "S1" = Some s2 /\
     Script.status s2 = S_approved /\
     Script.rejectionReason s2 = Some "too long") /\
  (exists s2,
     scripts (scriptController.reject 30 (Id "S1") "too long"
                (scriptController.approve 20 (Id "S1") None st).1).1 !! "S1" = Some s2 /\
     Script.status s2 = S_rejected /\
     Script.approvedBy s2 = Some (JS.or_else None "admin") /\
     Script.approvedAt s2 = Some 20).
Proof.
  intros st.
  apply (review_stamps_are_kept 20 30 "S1" "too long" None st
           (Sample.script S_pending_approval)).
  reflexivity.
Defined.

(** ** Derived fields *)

Lemma split_ws_from_length (b : bool) (s : string) :
  (1 <= length (JS.split_ws_from b s) <= String.length s + 1)%nat.
Proof.
  revert b. induction s as [|c s IH]; intros b; simpl; [lia|].
  destruct (JS.is_space c).
  - destruct b; simpl; specialize (IH true); lia.
  - rewrite length_cons_head by apply split_ws_from_nonempty.
    specialize (IH false). lia.
Qed.

(** [Math.ceil(w / 2.5)] is the least integer [d] with [2.5 * d >= w]. *)
Lemma ceil_div_2_5_spec (w : Z) :
  2 * w <= 5 * JS.ceil_div_2_5 w < 2 * w + 5.
Proof.
  unfold JS.ceil_div_2_5, Qceiling, Qfloor, Qdiv, Qmult, Qinv, Qopp, inject_Z. simpl.
  pose proof (Z.div_mod (- (w * 2)) 5 ltac:(lia)) as Hdm.
  pose proof (Z.mod_pos_bound (- (w * 2)) 5 ltac:(lia)) as Hb.
  change (Z.pos (1 * 5)) with 5.
  lia.
Qed.

(** X12: every script written by [update] or [revertVersion] has a
    [wordCount] of at least 1 and at most one more than the length of its
    content, and an [estimatedDuration] that is the least whole number of
    seconds [d] with [2.5 * d >= wordCount], hence at least 1. *)
Theorem saved_script_bounds (now : Date) (id : Param) (st : Store) :
  forall (r : Response Script.t) (saved : Script.t),
    ((exists c e, r = (scriptController.update now id c e st).2) \/
     (exists i, r = (scriptController.revertVersion now id i st).2)) ->
    data r = Some saved ->
    1 <= Script.wordCount saved <= Z.of_nat (String.length (Script.content saved)) + 1 /\
    2 * Script.wordCount saved <= 5 * Script.estimatedDuration saved
      < 2 * Script.wordCount saved + 5 /\
    1 <= Script.estimatedDuration saved.
Proof.
  assert (Hb : forall c,
            1 <= scriptController.wordCount_of c <= Z.of_nat (String.length c) + 1).
  { intros c. unfold scriptController.wordCount_of, JS.split_ws.
    pose proof (split_ws_from_length false c). lia. }
  assert (Hall : forall c,
            1 <= scriptController.wordCount_of c <= Z.of_nat (String.length c) + 1 /\
            2 * scriptController.wordCount_of c
              <= 5 * JS.ceil_div_2_5 (scriptController.wordCount_of c)
              < 2 * scriptController.wordCount_of c + 5 /\
            1 <= JS.ceil_div_2_5 (scriptController.wordCount_of c)).
  { intros c. pose proof (Hb c). pose proof (ceil_div_2_5_spec (scriptController.wordCount_of c)).
    repeat split; lia. }
  intros r saved Hr Hdata.
  destruct id as [id|raw]; [|destruct Hr as [(c & e & ->)|(i & ->)]; discriminate Hdata].
  destruct Hr as [(c & e & ->)|(i & ->)].
  - unfold scriptController.update, scriptController.save in Hdata. cbn [castObjectId] in Hdata.
    destruct (scripts st !! id); [|discriminate Hdata].
    destruct c as [c|]; [|discriminate Hdata].
    destruct (Script.validate _); [discriminate Hdata|].
    simpl in Hdata. inversion Hdata; subst saved. simpl. apply Hall.
  - unfold scriptController.revertVersion, scriptController.save in Hdata. cbn [castObjectId] in Hdata.
    destruct (scripts st !! id); [|discriminate Hdata].
    destruct (scriptController.invalid_index _ _); [discriminate Hdata|].
    destruct (i ≫= _) as [v|]; [|discriminate Hdata].
    destruct (Script.validate _); [discriminate Hdata|].
    simpl in Hdata. inversion Hdata; subst saved. simpl. apply Hall.
Qed.

Lemma saved_script_bounds_witness :
  let st := Sample.store L_script_generated S_pending_approval V_ready [] in
  let r := (scriptController.update 20 (Id "S1") (Some "   ") None st).2 in
  exists saved,
    data r = Some saved /\
    1 <= Script.wordCount saved <= Z.of_nat (String.length (Script.content saved)) + 1 /\
    2 * Script.wordCount saved <= 5 * Script.estimatedDuration saved
      < 2 * Script.wordCount saved + 5 /\
    1 <= Script.estimatedDuration saved.
Proof.
  intros st r. eexists. split; [reflexivity|].
  apply (saved_script_bounds 20 (Id "S1") st r);
    [left; exists (Some "   "), None; reflexivity | reflexivity].
Defined.

(** X13: what [getVersions] shows after a successful [update]: the new
    content as [current], and as last entry of [versions] the content that
    was live before, after all the versions there were. *)
Theorem getVersions_after_update (now : Date) (id c : string) (editedBy : option string)
    (st : Store) (script : Script.t) :
  scripts st !! id = Some script ->
  Script.validate script = None ->
  c <> EmptyString ->
  data (scriptController.getVersions (Id id)
          (scriptController.update now (Id id) (Some c) editedBy st).1)
  = Some (scriptController.mkHistory c
            (Script.versions script ++
               [ScriptVersion.mk (Script.content script) now (JS.or_else editedBy "admin")])).
Proof.
  intros Hid Hv Hc.
  rewrite (update_success now id c editedBy st script Hid Hv Hc).
  unfold scriptController.getVersions. cbn [castObjectId]. simpl.
  rewrite lookup_insert_eq. reflexivity.
Qed.

Lemma getVersions_after_update_witness :
  let st := Sample.store L_script_generated S_pending_approval V_ready [] in
  data (scriptController.getVersions (Id "S1")
          (scriptController.update 20 (Id "S1") (Some "Born to ride") None st).1)
  = Some (scriptController.mkHistory "Born to ride"
            (Script.versions (Sample.script S_pending_approval) ++
               [ScriptVersion.mk (Script.content (Sample.script S_pending_approval)) 20
                  (JS.or_else None "admin")])).
Proof.
  intros st.
  apply (getVersions_after_update 20 "S1" "Born to ride" None st
           (Sample.script S_pending_approval)); [reflexivity | reflexivity | discriminate].
Defined.

(** ** The dashboard pages against the handlers *)

(** X14: the rejection the scripts page sends always carries a non-empty
    reason, for the script it was asked for; sent to [reject], that reason
    is what the script stores. A cancelled or empty prompt sends nothing. *)
Theorem handleReject_sends_a_reason (now : Date) (id : string) (answer : option string)
    (st : Store) (s : Script.t) :
  scripts st !! id = Some s ->
  match ScriptsPage.handleReject id answer with
  | Some (id', reason) =>
      id' = id /\ reason <> EmptyString /\ answer = Some reason /\
      Script.rejectionReason <$> scripts (scriptController.reject now (Id id') reason st).1 !! id
      = Some (Some reason)
  | None => answer = None \/ answer = Some EmptyString
  end.
Proof.
  intros Hid. unfold ScriptsPage.handleReject.
  destruct answer as [reason|]; simpl; [|left; reflexivity].
  destruct (String.eqb_spec reason EmptyString) as [->|Hne]; simpl.
  - right. reflexivity.
  - repeat split; try assumption.
    unfold scriptController.reject. cbn [castObjectId]. rewrite Hid. simpl.
    rewrite lookup_insert_eq. reflexivity.
Qed.

Lemma handleReject_sends_a_reason_witness :
  let st := Sample.store L_script_generated S_pending_approval V_ready [] in
  match ScriptsPage.handleReject "S1" (Some "too long") with
  | Some (id', reason) =>
      id' = "S1" /\ reason <> EmptyString /\ Some "too long" = Some reason /\
      Script.rejectionReason <$> scripts (scriptController.reject 20 (Id id') reason st).1 !! "S1"
      = Some (Some reason)
  | None => Some "too long" = None \/ Some "too long" = Some EmptyString
  end.
Proof.
  intros st.
  apply (handleReject_sends_a_reason 20 "S1" (Some "too long") st
           (Sample.script S_pending_approval)).
  reflexivity.
Defined.

(** X15: the video card offers Publish exactly when the handler will accept
    it: for a stored (valid) video, [Publish] is among the card's buttons
    if and only if [publish] answers 200. *)
Theorem publish_button_matches_handler (now : Date) (id : string)
    (channelId : option string) (st : Store) (v : Video.t) :
  videos st !! id = Some v ->
  Video.validate v = None ->
  VideosPage.Publish ∈ VideosPage.VideoCard_actions (Video.status v) <->
  code (videoController.publish now (Id id) channelId st).2 = 200.
Proof.
  intros Hid Hv.
  destruct (Video.status v) eqn:Hs;
    try (unfold videoController.publish; cbn [castObjectId]; rewrite Hid, Hs; simpl;
         split; [intros H; repeat (apply elem_of_cons in H as [H|H]; [discriminate H|]);
                 apply elem_of_nil in H; destruct H
                | discriminate]).
  rewrite (publish_success now id channelId st v Hid Hs Hv). simpl.
  split; [reflexivity | intros _; apply list_elem_of_here].
Qed.

Lemma publish_button_matches_handler_witness :
  let st := Sample.store L_video_approved S_approved V_approved [] in
  VideosPage.Publish ∈ VideosPage.VideoCard_actions (Video.status (Sample.video V_approved)) <->
  code (videoController.publish 20 (Id "V1") None st).2 = 200.
Proof.
  intros st.
  apply (publish_button_matches_handler 20 "V1" None st (Sample.video V_approved));
    reflexivity.
Defined.

(** ** More on the video handlers *)

(** X16: [approve], [reject] and [publish] of a video are all or nothing:
    an answer other than 200 (an id that is no ObjectId or that is unknown,
    video not approved, document refused by the schema) leaves the store
    exactly as it was. *)
Theorem video_request_failure_writes_nothing (req : routes.VideoRequest)
    (now : Date) (id : Param) (st : Store) :
  code (routes.video req now id st).2 <> 200 ->
  (routes.video req now id st).1 = st.
Proof.
  destruct id as [id|raw]; [|destruct req; reflexivity].
  destruct req as [a| |ch]; simpl.
  - unfold videoController.approve. cbn [castObjectId].
    destruct (videos st !! id); [|reflexivity]. simpl. congruence.
  - unfold videoController.reject. cbn [castObjectId].
    destruct (videos st !! id); [|reflexivity]. simpl. congruence.
  - unfold videoController.publish. cbn [castObjectId].
    destruct (videos st !! id); [|reflexivity].
    destruct (negb _); [reflexivity|].
    destruct (videoController.save _ _ _ _ _) as [?|[? ?]]; [reflexivity|].
    simpl. congruence.
Qed.

Lemma video_request_failure_writes_nothing_witness :
  let st := Sample.store L_video_generated S_approved V_ready [] in
  (routes.video (routes.PostVideoPublish (Some "fast-1")) 20 (Id "V1") st).1 = st /\
  (routes.video routes.PostVideoReject 20 (Id "nobody") st).1 = st /\
  (routes.video routes.PostVideoReject 20 (Malformed "undefined") st).1 = st.
Proof.
  intros st. split; [|split].
  - apply (video_request_failure_writes_nothing (routes.PostVideoPublish (Some "fast-1"))
             20 (Id "V1") st).
    vm_compute. discriminate.
  - apply (video_request_failure_writes_nothing routes.PostVideoReject 20 (Id "nobody") st).
    vm_compute. discriminate.
  - apply (video_request_failure_writes_nothing routes.PostVideoReject 20
             (Malformed "undefined") st).
    vm_compute. discriminate.
Defined.

(** X17: publishing is not repeatable: after [publish] has succeeded on an
    approved (valid) video, a second [publish] answers 400 and changes
    nothing; [publishedAt] and [fastChannelId] stay those of the first. *)
Theorem publish_twice (now1 now2 : Date) (id : string) (ch1 ch2 : option string)
    (st : Store) (v : Video.t) :
  videos st !! id = Some v ->
  Video.status v = V_approved ->
  Video.validate v = None ->
  let st1 := (videoController.publish now1 (Id id) ch1 st).1 in
  videoController.publish now2 (Id id) ch2 st1
  = (st1, fail 400 "Video must be approved before publishing") /\
  exists v1, videos st1 !! id = Some v1 /\
    Video.publishedAt v1 = Some now1 /\ Video.fastChannelId v1 = ch1.
Proof.
  intros Hid Hs Hv st1. subst st1.
  rewrite (publish_success now1 id ch1 st v Hid Hs Hv). cbn [fst].
  unfold videoController.publish. cbn [castObjectId]. simpl.
  rewrite lookup_insert_eq. simpl.
  split; [reflexivity|].
  eexists. split; [reflexivity|]. split; reflexivity.
Qed.

Lemma publish_twice_witness :
  let st := Sample.store L_video_approved S_approved V_approved [] in
  let st1 := (videoController.publish 20 (Id "V1") (Some "fast-1") st).1 in
  videoController.publish 30 (Id "V1") (Some "fast-2") st1
  = (st1, fail 400 "Video must be approved before publishing") /\
  exists v1, videos st1 !! "V1" = Some v1 /\
    Video.publishedAt v1 = Some 20 /\ Video.fastChannelId v1 = Some "fast-1".
Proof.
  apply (publish_twice 20 30 "V1" (Some "fast-1") (Some "fast-2")
           (Sample.store L_video_approved S_approved V_approved [])
           (Sample.video V_approved)); reflexivity.
Defined.

(** X18: [approve] followed by [publish] publishes a (valid) video from any
    status whatsoever, [processing], [rejected] and [published] included:
    both answer 200, the video ends [published], and the listing found by
    its [listingId], if there is one, ends with the status [published]. *)
Theorem approve_then_publish (now1 now2 : Date) (id : string)
    (by_ channelId : option string) (st : Store) (v : Video.t) :
  videos st !! id = Some v ->
  Video.validate v = None ->
  let '(st1, r1) := videoController.approve now1 (Id id) by_ st in
  let '(st2, r2) := videoController.publish now2 (Id id) channelId st1 in
  code r1 = 200 /\ code r2 = 200 /\
  (exists v2, videos st2 !! id = Some v2 /\ Video.status v2 = V_published) /\
  findOne (by_stockNumber (Video.listingId v)) st2
  = Listing.set_status L_published now2
      <$> (Listing.set_status L_video_approved now1
             <$> findOne (by_stockNumber (Video.listingId v)) st) /\
  (forall l, findOne (by_stockNumber (Video.listingId v)) st = Some l ->
     exists l2, findOne (by_stockNumber (Video.listingId v)) st2 = Some l2 /\
       Listing.status l2 = L_published /\ Listing._id l2 = Listing._id l).
Proof.
  intros Hid Hv. unfold videoController.approve. cbn [castObjectId]. rewrite Hid.
  cbv zeta.
  match goal with
  | |- context [videoController.publish _ _ _ ?s1] => set (st1 := s1)
  end.
  match goal with
  | st1 := Listing_findOneAndUpdate_status _ _ _ (set_videos (<[id := ?a]> _) _) |- _ =>
      set (v1 := a) in *
  end.
  assert (Hid1 : videos st1 !! id = Some v1) by apply lookup_insert_eq.
  rewrite (publish_success now2 id channelId st1 v1 Hid1 eq_refl Hv).
  assert (Hfind : findOne (by_stockNumber (Video.listingId v))
                    (Listing_findOneAndUpdate_status (Video.listingId v1) L_published now2
                       (emit (EvSave "Video" id)
                          (set_videos
                             (<[id := Video.mk (Video.listingId v1) (Video.dealerId v1)
                                        (Video.path v1) (Video.duration v1)
                                        (Video.resolution v1) (Video.fileSize v1) V_published
                                        (Video.approvedBy v1) (Video.approvedAt v1)
                                        (Some now2) channelId (Video.thumbnailPath v1) now2]>
                                (videos st1)) st1)))
                  = Listing.set_status L_published now2
                      <$> (Listing.set_status L_video_approved now1
                             <$> findOne (by_stockNumber (Video.listingId v)) st)).
  { change (Video.listingId v1) with (Video.listingId v).
    rewrite findOne_after_status.
    change (findOne ?q (emit _ (set_videos _ ?s))) with (findOne q s).
    subst st1. change (Video.listingId v1) with (Video.listingId v).
    change (findOne ?q (Listing_findOneAndUpdate_status ?k ?x ?n (set_videos _ ?s)))
      with (findOne q (Listing_findOneAndUpdate_status k x n s)).
    rewrite findOne_after_status. reflexivity. }
  split; [reflexivity|]. split; [reflexivity|]. split.
  - eexists. split; [apply lookup_insert_eq | reflexivity].
  - split; [exact Hfind|].
    intros l Hl. rewrite Hfind, Hl. eexists. split; [reflexivity|]. split; reflexivity.
Qed.

Lemma approve_then_publish_witness :
  let st := Sample.store L_error S_rejected V_rejected [] in
  let '(st1, r1) := videoController.approve 20 (Id "V1") None st in
  let '(st2, r2) := videoController.publish 30 (Id "V1") None st1 in
  code r1 = 200 /\ code r2 = 200 /\
  (exists v2, videos st2 !! "V1" = Some v2 /\ Video.status v2 = V_published) /\
  findOne (by_stockNumber (Video.listingId (Sample.video V_rejected))) st2
  = Listing.set_status L_published 30
      <$> (Listing.set_status L_video_approved 20
             <$> findOne (by_stockNumber (Video.listingId (Sample.video V_rejected))) st) /\
  (forall l, findOne (by_stockNumber (Video.listingId (Sample.video V_rejected))) st = Some l ->
     exists l2,
       findOne (by_stockNumber (Video.listingId (Sample.video V_rejected))) st2 = Some l2 /\
       Listing.status l2 = L_published /\ Listing._id l2 = Listing._id l).
Proof.
  apply (approve_then_publish 20 30 "V1" None None
           (Sample.store L_error S_rejected V_rejected []) (Sample.video V_rejected));
    reflexivity.
Defined.

(** X19: [delete] of a stored video answers 200, removes the document and
    its file, and resets the listing found by the video's [listingId], if
    there is one: that listing then has the status [voiceover_generated] and
    no video path. Scripts and Job records are untouched, and the deleted
    video can no longer be streamed (404). *)
Theorem delete_video (now : Date) (id : string) (st : Store) (v : Video.t) :
  videos st !! id = Some v ->
  let '(st', r) := videoController.delete now (Id id) st in
  code r = 200 /\
  videos st' !! id = None /\
  files st' !! Video.path v = None /\
  findOne (by_stockNumber (Video.listingId v)) st'
  = videoController.clear_video now <$> findOne (by_stockNumber (Video.listingId v)) st /\
  (forall l, findOne (by_stockNumber (Video.listingId v)) st = Some l ->
     exists l', findOne (by_stockNumber (Video.listingId v)) st' = Some l' /\
       Listing.status l' = L_voiceover_generated /\
       ListingAssets.videoPath (Listing.assets l') = None /\
       Listing._id l' = Listing._id l) /\
  scripts st' = scripts st /\ jobs st' = jobs st /\
  forall range,
    videoController.stream (Id id) range st'
    = videoController.Json (fail 404 "Video not found").
Proof.
  intros Hid. unfold videoController.delete. cbn [castObjectId]. rewrite Hid.
  split; [reflexivity|]. simpl.
  assert (Hgone : files (if existsSync (Video.path v)
                              (set_videos (base.delete id (videos st)) st)
                         then unlinkSync (Video.path v)
                                (set_videos (base.delete id (videos st)) st)
                         else set_videos (base.delete id (videos st)) st)
                  !! Video.path v = None).
  { unfold existsSync. simpl. case_bool_decide as Hex.
    - simpl. apply lookup_delete_eq.
    - simpl. destruct (files st !! Video.path v) eqn:E; [|reflexivity].
      exfalso. apply Hex. eauto. }
  assert (Hvid : forall b : bool,
            videos (if b then unlinkSync (Video.path v)
                               (set_videos (base.delete id (videos st)) st)
                    else set_videos (base.delete id (videos st)) st)
            = base.delete id (videos st)) by (intros []; reflexivity).
  assert (Hfind : findOne (by_stockNumber (Video.listingId v))
            (set_listings
               (update_first (by_stockNumber (Video.listingId v))
                  (videoController.clear_video now)
                  (listings
                     (if existsSync (Video.path v)
                           (set_videos (base.delete id (videos st)) st)
                      then unlinkSync (Video.path v)
                             (set_videos (base.delete id (videos st)) st)
                      else set_videos (base.delete id (videos st)) st)))
               (if existsSync (Video.path v)
                     (set_videos (base.delete id (videos st)) st)
                then unlinkSync (Video.path v)
                       (set_videos (base.delete id (videos st)) st)
                else set_videos (base.delete id (videos st)) st))
          = videoController.clear_video now
              <$> findOne (by_stockNumber (Video.listingId v)) st).
  { unfold findOne. simpl. rewrite find_update_first by reflexivity.
    destruct (existsSync _ _); reflexivity. }
  split; [rewrite Hvid; apply lookup_delete_eq|].
  split; [exact Hgone|].
  split; [exact Hfind|].
  split.
  { intros l Hl. rewrite Hfind, Hl. eexists. split; [reflexivity|].
    repeat split. }
  split; [destruct (existsSync _ _); reflexivity|].
  split; [destruct (existsSync _ _); reflexivity|].
  intros range. unfold videoController.stream. cbn [castObjectId]. simpl.
  rewrite Hvid, lookup_delete_eq. reflexivity.
Qed.

Lemma delete_video_witness :
  let st := Sample.store L_video_generated S_approved V_ready [] in
  let '(st', r) := videoController.delete 20 (Id "V1") st in
  code r = 200 /\
  videos st' !! "V1" = None /\
  files st' !! Video.path (Sample.video V_ready) = None /\
  findOne (by_stockNumber (Video.listingId (Sample.video V_ready))) st'
  = videoController.clear_video 20
      <$> findOne (by_stockNumber (Video.listingId (Sample.video V_ready))) st /\
  (forall l, findOne (by_stockNumber (Video.listingId (Sample.video V_ready))) st = Some l ->
     exists l', findOne (by_stockNumber (Video.listingId (Sample.video V_ready))) st' = Some l' /\
       Listing.status l' = L_voiceover_generated /\
       ListingAssets.videoPath (Listing.assets l') = None /\
       Listing._id l' = Listing._id l) /\
  scripts st' = scripts st /\ jobs st' = jobs st /\
  forall range,
    videoController.stream (Id "V1") range st'
    = videoController.Json (fail 404 "Video not found").
Proof.
  apply (delete_video 20 "V1" (Sample.store L_video_generated S_approved V_ready [])
           (Sample.video V_ready)).
  reflexivity.
Defined.

(** X20: in the store [regenerate] returns, the (valid) video is still
    stored, with status [processing], but has no file: no process has been
    started to make one, and a [stream] request is answered 404 ['Video
    file not found'], with or without a range. *)
Theorem stream_after_regenerate (now : Date) (id : string)
    (st : Store) (v : Video.t) :
  videos st !! id = Some v ->
  Video.validate v = None ->
  let st' := (videoController.regenerate now (Id id) st).1 in
  Video.status <$> videos st' !! id = Some V_processing /\
  forall range,
    videoController.stream (Id id) range st'
    = videoController.Json (fail 404 "Video file not found").
Proof.
  intros Hid Hv st'. subst st'.
  unfold videoController.regenerate. cbn [castObjectId]. rewrite Hid.
  set (st1 := if existsSync (Video.path v) st then unlinkSync (Video.path v) st else st).
  assert (Hgone : files st1 !! Video.path v = None).
  { subst st1. unfold existsSync. case_bool_decide as Hex.
    - simpl. apply lookup_delete_eq.
    - destruct (files st !! Video.path v) eqn:E; [|reflexivity].
      exfalso. apply Hex. eauto. }
  assert (Hvid : videos st1 = videos st)
    by (subst st1; destruct (existsSync _ _); reflexivity).
  destruct (video_save_cases id v (videoController.set_status V_processing v) now st1 Hv)
    as (st2 & saved & -> & _ & Hstatus & _ & _ & Hpath & _ & _ & Hfiles & _ & Hcase).
  cbn [fst unawaited PipelineService.generateVideo PipelineService.runPythonScript].
  assert (Hlook : videos st2 !! id = Some saved).
  { destruct Hcase as [(Heq & -> & ->)|(_ & ->)].
    - rewrite Hvid, Hid. now rewrite Heq.
    - simpl. apply lookup_insert_eq. }
  split.
  - change (videos (emit ?e st2)) with (videos st2). rewrite Hlook. simpl.
    now rewrite Hstatus.
  - intros range. unfold videoController.stream. cbn [castObjectId].
    change (videos (emit ?e st2)) with (videos st2).
    change (files (emit ?e st2)) with (files st2).
    rewrite Hlook. cbv beta iota. rewrite Hpath, Hfiles.
    change (Video.path (videoController.set_status V_processing v)) with (Video.path v).
    rewrite Hgone. reflexivity.
Qed.

Lemma stream_after_regenerate_witness :
  let st := Sample.store L_video_generated S_approved V_ready [] in
  let st' := (videoController.regenerate 20 (Id "V1") st).1 in
  Video.status <$> videos st' !! "V1" = Some V_processing /\
  forall range,
    videoController.stream (Id "V1") range st'
    = videoController.Json (fail 404 "Video file not found").
Proof.
  intros st.
  apply (stream_after_regenerate 20 "V1" st (Sample.video V_ready));
    reflexivity.
Defined.

(** ** More on the listing handlers *)

Lemma find_update_first_hit {A} (q : A -> bool) (f : A -> A) (l : list A) :
  (forall x, q x = true -> q (f x) = true) ->
  List.find q (update_first q f l) = f <$> List.find q l.
Proof.
  intros Hq. induction l as [|x l IH]; simpl; [reflexivity|].
  destruct (q x) eqn:Hx; simpl.
  - now rewrite (Hq x Hx).
  - now rewrite Hx.
Qed.

Lemma touch_updatedAt (l : Listing.t) :
  listingController.touch (Listing.updatedAt l) l = l.
Proof. destruct l. reflexivity. Qed.

(** [save] of a listing found by its id: the listing read back is the one
    saved, which is the document in memory up to its [updatedAt]. *)
Lemma listing_save_found (id : string) (l l' : Listing.t) (pushed : bool) (now : Date)
    (st : Store) :
  findOne (by_id id) st = Some l ->
  Listing._id l' = Listing._id l ->
  Listing.validate l' = None ->
  exists st1 saved,
    listingController.save l l' pushed now st = inr (st1, saved) /\
    findOne (by_id id) st1 = Some saved /\
    (exists u, saved = listingController.touch u l') /\
    scripts st1 = scripts st /\ videos st1 = videos st /\
    files st1 = files st /\ jobs st1 = jobs st.
Proof.
  intros Hfind Hid Hv. unfold listingController.save. rewrite Hv.
  destruct (negb pushed && bool_decide (l' = l)) eqn:E.
  - apply andb_true_iff in E as [_ E]. apply bool_decide_eq_true in E. subst l'.
    eexists _, _. split; [reflexivity|]. split; [exact Hfind|].
    split; [|repeat split].
    exists (Listing.updatedAt l). symmetry. apply touch_updatedAt.
  - eexists _, _. split; [reflexivity|]. split; [|split; [|repeat split]].
    + pose proof (by_id_eq id l st Hfind) as Hl.
      unfold findOne in *. simpl. rewrite Hid, Hl.
      rewrite find_update_first_hit.
      * rewrite Hfind. reflexivity.
      * intros x _. unfold by_id. simpl. rewrite Hid, Hl. apply String.eqb_refl.
    + exists now. reflexivity.
Qed.

(** X21: [updatePhotos] with one of the actions [add], [remove], [replace]
    on a stored (valid) listing answers 200 and stores the new photo URLs
    ([add] appends, [remove] filters, [replace] substitutes); it resets the
    status to [pending] whatever it was, and keeps every asset pointer,
    the video path included. Any other action is answered 400 and nothing
    is written. *)
Theorem updatePhotos_resets_status (now : Date) (id : string) (photoUrls : list string)
    (action : string) (st : Store) (l : Listing.t) :
  findOne (by_id id) st = Some l ->
  Listing.validate l = None ->
  (action = "add" \/ action = "remove" \/ action = "replace" ->
   exists st' saved,
     listingController.updatePhotos now (Id id) photoUrls action st
     = (st', ok saved "Photos updated") /\
     findOne (by_id id) st' = Some saved /\
     Listing.status saved = L_pending /\
     Listing.assets saved = Listing.assets l /\
     Listing.photoUrls saved
     = (if String.eqb action "add" then Listing.photoUrls l ++ photoUrls
        else if String.eqb action "remove"
        then List.filter (fun url => negb (listingController.includes url photoUrls))
               (Listing.photoUrls l)
        else photoUrls)) /\
  (action <> "add" -> action <> "remove" -> action <> "replace" ->
   listingController.updatePhotos now (Id id) photoUrls action st
   = (st, fail 400 "Invalid action")).
Proof.
  intros Hfind Hv. unfold listingController.updatePhotos. cbn [castObjectId].
  rewrite Hfind. split.
  - intros Hact.
    assert (Hsome : exists urls,
              listingController.apply_action action photoUrls (Listing.photoUrls l)
              = Some urls /\
              urls = (if String.eqb action "add" then Listing.photoUrls l ++ photoUrls
                      else if String.eqb action "remove"
                      then List.filter
                             (fun url => negb (listingController.includes url photoUrls))
                             (Listing.photoUrls l)
                      else photoUrls)).
    { destruct Hact as [->|[->| ->]]; eexists; split; reflexivity. }
    destruct Hsome as (urls & -> & Hurls).
    destruct (listing_save_found id l (listingController.set_photos urls l)
                (String.eqb action "add") now st Hfind eq_refl Hv)
      as (st1 & saved & Hsave & Hread & (u & ->) & _).
    rewrite Hsave. eexists _, _. split; [reflexivity|].
    split; [exact Hread|]. simpl. repeat split. exact Hurls.
  - intros Ha Hr Hp. unfold listingController.apply_action.
    destruct (String.eqb_spec action "add"); [contradiction|].
    destruct (String.eqb_spec action "remove"); [contradiction|].
    destruct (String.eqb_spec action "replace"); [contradiction|].
    reflexivity.
Qed.

Lemma updatePhotos_resets_status_witness :
  let st := Sample.store L_published S_approved V_published [] in
  (exists st' saved,
     listingController.updatePhotos 20 (Id "L1") ["https://dealer.example/new.jpg"] "add" st
     = (st', ok saved "Photos updated") /\
     findOne (by_id "L1") st' = Some saved /\
     Listing.status saved = L_pending /\
     Listing.assets saved = Listing.assets (Sample.listing L_published) /\
     Listing.photoUrls saved
     = (if String.eqb "add" "add"
        then Listing.photoUrls (Sample.listing L_published)
             ++ ["https://dealer.example/new.jpg"]
        else if String.eqb "add" "remove"
        then List.filter
               (fun url => negb (listingController.includes url
                                   ["https://dealer.example/new.jpg"]))
               (Listing.photoUrls (Sample.listing L_published))
        else ["https://dealer.example/new.jpg"])) /\
  listingController.updatePhotos 20 (Id "L1") ["https://dealer.example/new.jpg"] "append" st
  = (st, fail 400 "Invalid action").
Proof.
  intros st. split.
  - apply (proj1 (updatePhotos_resets_status 20 "L1" ["https://dealer.example/new.jpg"]
                    "add" st (Sample.listing L_published) eq_refl eq_refl)).
    left. reflexivity.
  - apply (proj2 (updatePhotos_resets_status 20 "L1" ["https://dealer.example/new.jpg"]
                    "append" st (Sample.listing L_published) eq_refl eq_refl));
      discriminate.
Defined.

Lemma filter_none {A} (p : A -> bool) (l : list A) :
  (forall x, In x l -> p x = false) -> List.filter p l = [].
Proof.
  induction l as [|x l IH]; intros H; [reflexivity|]. simpl.
  rewrite (H x (or_introl eq_refl)). apply IH. intros y Hy. apply H. now right.
Qed.

Lemma includes_In (u : string) (us : list string) :
  listingController.includes u us = true <-> In u us.
Proof.
  unfold listingController.includes. rewrite existsb_exists. split.
  - intros (x & Hx & Heq). apply String.eqb_eq in Heq. now subst.
  - intros H. exists u. split; [assumption | apply String.eqb_refl].
Qed.

Lemma filter_not_included_app (old us : list string) :
  (forall u, In u us -> ~ In u old) ->
  List.filter (fun url => negb (listingController.includes url us)) (old ++ us) = old.
Proof.
  intros Hdisj. rewrite List.filter_app.
  rewrite (filter_none _ us).
  - rewrite app_nil_r. apply forallb_filter_id. apply forallb_forall.
    intros x Hx. apply negb_true_iff.
    destruct (listingController.includes x us) eqn:E; [|reflexivity].
    apply includes_In in E. exfalso. exact (Hdisj x E Hx).
  - intros x Hx. apply negb_false_iff. now apply includes_In.
Qed.

(** X22: adding photo URLs and then removing the same URLs gives back the
    list of photos the (valid) listing had, provided none of them was in it
    before; the listing ends in status [pending]. *)
Theorem add_then_remove_photos (now1 now2 : Date) (id : string) (us : list string)
    (st : Store) (l : Listing.t) :
  findOne (by_id id) st = Some l ->
  Listing.validate l = None ->
  (forall u, In u us -> ~ In u (Listing.photoUrls l)) ->
  let st1 := (listingController.updatePhotos now1 (Id id) us "add" st).1 in
  let '(st2, r2) := listingController.updatePhotos now2 (Id id) us "remove" st1 in
  code r2 = 200 /\
  exists l2, findOne (by_id id) st2 = Some l2 /\
    Listing.photoUrls l2 = Listing.photoUrls l /\
    Listing.status l2 = L_pending.
Proof.
  intros Hfind Hv Hdisj st1. subst st1.
  unfold listingController.updatePhotos at 2. cbn [castObjectId]. rewrite Hfind.
  change (listingController.apply_action "add" us (Listing.photoUrls l))
    with (Some (Listing.photoUrls l ++ us)).
  destruct (listing_save_found id l
              (listingController.set_photos (Listing.photoUrls l ++ us) l)
              (String.eqb "add" "add") now1 st
              Hfind eq_refl Hv) as (st1 & saved & Hsave & Hread & (u & ->) & _).
  rewrite Hsave. cbn [fst].
  unfold listingController.updatePhotos. cbn [castObjectId]. rewrite Hread.
  change (listingController.apply_action "remove" us _)
    with (Some (List.filter (fun url => negb (listingController.includes url us))
                  (Listing.photoUrls l ++ us))).
  rewrite (filter_not_included_app _ us Hdisj).
  destruct (listing_save_found id _
              (listingController.set_photos (Listing.photoUrls l)
                 (listingController.touch u
                    (listingController.set_photos (Listing.photoUrls l ++ us) l)))
              (String.eqb "remove" "add") now2 st1 Hread eq_refl Hv)
    as (st2 & saved2 & Hsave2 & Hread2 & (u2 & ->) & _).
  rewrite Hsave2. split; [reflexivity|].
  eexists. split; [exact Hread2|]. split; reflexivity.
Qed.

Lemma add_then_remove_photos_witness :
  let st := Sample.store L_video_generated S_approved V_ready [] in
  let us := ["https://dealer.example/a.jpg"; "https://dealer.example/b.jpg"] in
  let st1 := (listingController.updatePhotos 20 (Id "L1") us "add" st).1 in
  let '(st2, r2) := listingController.updatePhotos 30 (Id "L1") us "remove" st1 in
  code r2 = 200 /\
  exists l2, findOne (by_id "L1") st2 = Some l2 /\
    Listing.photoUrls l2 = Listing.photoUrls (Sample.listing L_video_generated) /\
    Listing.status l2 = L_pending.
Proof.
  apply (add_then_remove_photos 20 30 "L1"
           ["https://dealer.example/a.jpg"; "https://dealer.example/b.jpg"]
           (Sample.store L_video_generated S_approved V_ready [])
           (Sample.listing L_video_generated)); [reflexivity | reflexivity |].
  intros u [<-|[<-|[]]] [H|[]]; discriminate H.
Defined.

(** ** Deleting a listing *)

Section DeleteOne.

Context {A : Type} (listingId_of : A -> string) (lid : string).

Lemma deleteOne_keeps_others (m : gmap string A) (k : string) (a : A) :
  m !! k = Some a -> listingId_of a <> lid ->
  listingController.deleteOne_by_listingId listingId_of lid m !! k = Some a.
Proof.
  intros Hk Hne. unfold listingController.deleteOne_by_listingId.
  destruct (List.find _ _) as [[k' a']|] eqn:Hfind; [|exact Hk].
  apply find_some in Hfind as [Hin Hq]. simpl in *.
  apply list_elem_of_In, elem_of_map_to_list in Hin.
  apply String.eqb_eq in Hq.
  rewrite lookup_delete_ne; [exact Hk|].
  intros ->. rewrite Hk in Hin. inversion Hin; subst. contradiction.
Qed.

Lemma deleteOne_subset (m : gmap string A) (k : string) (a : A) :
  listingController.deleteOne_by_listingId listingId_of lid m !! k = Some a ->
  m !! k = Some a.
Proof.
  unfold listingController.deleteOne_by_listingId.
  destruct (List.find _ _) as [[k' a']|]; [|auto]. simpl.
  intros H. apply lookup_delete_Some in H as [_ H]. exact H.
Qed.

(** With at most one document per [listingId], as the unique index
    requires, none for [lid] is left. *)
Lemma deleteOne_unique (m : gmap string A) :
  (forall k1 k2 a1 a2, m !! k1 = Some a1 -> m !! k2 = Some a2 ->
     listingId_of a1 = lid -> listingId_of a2 = lid -> k1 = k2) ->
  forall k a,
    listingController.deleteOne_by_listingId listingId_of lid m !! k = Some a ->
    listingId_of a <> lid.
Proof.
  intros Huniq k a. unfold listingController.deleteOne_by_listingId.
  destruct (List.find _ _) as [[k' a']|] eqn:Hfind.
  - apply find_some in Hfind as [Hin Hq]. simpl in *.
    apply list_elem_of_In, elem_of_map_to_list in Hin.
    apply String.eqb_eq in Hq.
    intros H Heq. apply lookup_delete_Some in H as [Hne H].
    apply Hne. exact (Huniq k' k a' a Hin H Hq Heq).
  - intros H Heq.
    pose proof (find_none _ _ Hfind (k, a)) as Hnone. simpl in Hnone.
    rewrite Heq, String.eqb_refl in Hnone.
    discriminate Hnone. apply list_elem_of_In, elem_of_map_to_list. exact H.
Qed.

End DeleteOne.

Lemma drop_first_length {A} (q : A -> bool) (l : list A) (x : A) :
  List.find q l = Some x ->
  S (length (listingController.drop_first q l)) = length l.
Proof.
  induction l as [|y l IH]; simpl; [discriminate|].
  destruct (q y); [reflexivity|]. intros H. simpl. now rewrite IH.
Qed.

Lemma drop_first_keeps {A} (q : A -> bool) (l : list A) (y : A) :
  In y l -> q y = false -> In y (listingController.drop_first q l).
Proof.
  induction l as [|x l IH]; simpl; [auto|].
  intros [->|Hy] Hq.
  - rewrite Hq. now left.
  - destruct (q x); [assumption | right; auto].
Qed.

(** X23: [delete] of a stored listing answers 200 and removes that one
    listing (every listing with another id stays); it removes no file, so
    the listing's photos, QR code and video stay on disk, and touches no Job.
    Scripts and videos of other stock numbers are kept; those that remain
    were stored before; and when [listingId] is unique among the scripts
    (videos), as the schema's index requires, none for the listing's stock
    number is left. The clean-up goes by stock number alone, whichever
    dealer the listing belongs to. *)
Theorem delete_listing (id : string) (st : Store) (l : Listing.t) :
  findOne (by_id id) st = Some l ->
  let '(st', r) := listingController.delete (Id id) st in
  let sn := Listing.stockNumber l in
  code r = 200 /\
  S (length (listings st')) = length (listings st) /\
  (forall l', In l' (listings st) -> Listing._id l' <> id -> In l' (listings st')) /\
  files st' = files st /\ jobs st' = jobs st /\
  (forall k s, scripts st !! k = Some s -> Script.listingId s <> sn ->
     scripts st' !! k = Some s) /\
  (forall k v, videos st !! k = Some v -> Video.listingId v <> sn ->
     videos st' !! k = Some v) /\
  (forall k s, scripts st' !! k = Some s -> scripts st !! k = Some s) /\
  (forall k v, videos st' !! k = Some v -> videos st !! k = Some v) /\
  ((forall k1 k2 s1 s2, scripts st !! k1 = Some s1 -> scripts st !! k2 = Some s2 ->
      Script.listingId s1 = sn -> Script.listingId s2 = sn -> k1 = k2) ->
   forall k s, scripts st' !! k = Some s -> Script.listingId s <> sn) /\
  ((forall k1 k2 v1 v2, videos st !! k1 = Some v1 -> videos st !! k2 = Some v2 ->
      Video.listingId v1 = sn -> Video.listingId v2 = sn -> k1 = k2) ->
   forall k v, videos st' !! k = Some v -> Video.listingId v <> sn).
Proof.
  intros Hfind. unfold listingController.delete. cbn [castObjectId]. rewrite Hfind. simpl.
  split; [reflexivity|].
  split; [exact (drop_first_length _ _ _ Hfind)|].
  split.
  { intros l' Hin Hne. apply drop_first_keeps; [assumption|].
    unfold by_id. apply String.eqb_neq. exact Hne. }
  split; [reflexivity|]. split; [reflexivity|].
  split; [intros k s; apply deleteOne_keeps_others|].
  split; [intros k v; apply deleteOne_keeps_others|].
  split; [intros k s; apply deleteOne_subset|].
  split; [intros k v; apply deleteOne_subset|].
  split; intros Huniq; apply deleteOne_unique; exact Huniq.
Qed.

Lemma delete_listing_witness :
  let st := Sample.store L_video_generated S_approved V_ready [] in
  let '(st', r) := listingController.delete (Id "L1") st in
  code r = 200 /\
  S (length (listings st')) = length (listings st) /\
  files st' = files st /\ jobs st' = jobs st /\
  (forall k s, scripts st' !! k = Some s -> Script.listingId s <> "HD100") /\
  (forall k v, videos st' !! k = Some v -> Video.listingId v <> "HD100").
Proof.
  intros st.
  pose proof (delete_listing "L1" st (Sample.listing L_video_generated) eq_refl) as H.
  destruct (listingController.delete (Id "L1") st) as [st' r].
  destruct H as (Hc & Hlen & _ & Hf & Hj & _ & _ & _ & _ & Hs & Hv).
  split; [exact Hc|]. split; [exact Hlen|]. split; [exact Hf|]. split; [exact Hj|].
  split.
  - apply Hs. intros k1 k2 s1 s2 H1 H2 _ _. simpl in H1, H2.
    apply lookup_singleton_Some in H1 as [<- _].
    apply lookup_singleton_Some in H2 as [<- _]. reflexivity.
  - apply Hv. intros k1 k2 v1 v2 H1 H2 _ _. simpl in H1, H2.
    apply lookup_singleton_Some in H1 as [<- _].
    apply lookup_singleton_Some in H2 as [<- _]. reflexivity.
Defined.

(** ** Which listing a status is written to *)

Lemma update_first_split {A} (q : A -> bool) (f : A -> A) (l1 l2 : list A) (x : A) :
  (forall y, In y l1 -> q y = false) -> q x = true ->
  update_first q f (l1 ++ x :: l2) = l1 ++ f x :: l2.
Proof.
  intros H1 Hx. induction l1 as [|y l1 IH]; simpl.
  - now rewrite Hx.
  - rewrite (H1 y (or_introl eq_refl)). f_equal. apply IH.
    intros z Hz. apply H1. now right.
Qed.

(** X24: the status a script approval writes goes to the first listing
    with the script's stock number and to no other: listings before it and
    after it are left exactly as they are, also a later listing (of another
    dealer) that has the same stock number. *)
Theorem approve_writes_first_listing_only (now : Date) (id : string)
    (by_ : option string) (st : Store) (s : Script.t)
    (before after : list Listing.t) (x : Listing.t) :
  scripts st !! id = Some s ->
  listings st = before ++ x :: after ->
  (forall y, In y before -> Listing.stockNumber y <> Script.listingId s) ->
  Listing.stockNumber x = Script.listingId s ->
  listings (scriptController.approve now (Id id) by_ st).1
  = before ++ Listing.set_status L_script_approved now x :: after.
Proof.
  intros Hid Hl Hbefore Hx. unfold scriptController.approve. cbn [castObjectId]. rewrite Hid. simpl.
  rewrite Hl. apply update_first_split.
  - intros y Hy. unfold by_stockNumber. apply String.eqb_neq. now apply Hbefore.
  - unfold by_stockNumber. now apply String.eqb_eq.
Qed.

Lemma approve_writes_first_listing_only_witness :
  let other :=
    Listing.mk "L2" "D2" "HD100" "1HD1KB4197Y000002" 2019 "Harley-Davidson" "Street Bob"
      None Used 10999 None None [] "https://other.example/HD100" L_video_approved
      Sample.assets 10 in
  let st :=
    set_listings [Sample.listing L_script_generated; other]
      (Sample.store L_script_generated S_pending_approval V_ready []) in
  listings (scriptController.approve 20 (Id "S1") None st).1
  = [] ++ Listing.set_status L_script_approved 20 (Sample.listing L_script_generated)
       :: [other].
Proof.
  intros other st.
  apply (approve_writes_first_listing_only 20 "S1" None st
           (Sample.script S_pending_approval) [] [other]
           (Sample.listing L_script_generated));
    [reflexivity | reflexivity | intros y [] | reflexivity].
Defined.

(** ** Regenerating a QR code *)

(** X25: [qrController.regenerate] never regenerates a QR code.
    [generateQRCode] starts no process: its promise is rejected, whatever
    the URL and the path. The handler awaits it, so for every stored listing
    it answers 500; it never answers 200 and it leaves the store as it was,
    so that [getByDealer] lists after the request what it listed before. *)
Theorem regenerate_qr (path_join : list string -> string) (now : Date) (id : Param)
    (st : Store) :
  (forall url outputPath,
     PipelineService.generateQRCode url outputPath = Rejected ReferenceError) /\
  (forall k l, id = Id k -> findOne (by_id k) st = Some l ->
     qrController.regenerate path_join now id st = (st, caught 500 ReferenceError)) /\
  (qrController.regenerate path_join now id st).1 = st /\
  code (qrController.regenerate path_join now id st).2 <> 200 /\
  (forall dealerId,
     qrController.getByDealer dealerId (qrController.regenerate path_join now id st).1
     = qrController.getByDealer dealerId st).
Proof.
  assert (Hst : (qrController.regenerate path_join now id st).1 = st).
  { destruct id as [k|raw]; [|reflexivity].
    unfold qrController.regenerate. cbn [castObjectId].
    destruct (findOne (by_id k) st); reflexivity. }
  split; [reflexivity|]. split; [|split; [exact Hst|split]].
  - intros k l -> Hfind. unfold qrController.regenerate. cbn [castObjectId].
    rewrite Hfind. reflexivity.
  - destruct id as [k|raw]; [|discriminate].
    unfold qrController.regenerate. cbn [castObjectId].
    destruct (findOne (by_id k) st); discriminate.
  - intros dealerId. now rewrite Hst.
Qed.

Lemma regenerate_qr_witness :
  let path_join := String.concat "/" in
  let st := Sample.store L_video_generated S_approved V_ready [] in
  qrController.regenerate path_join 20 (Id "L1") st = (st, caught 500 ReferenceError).
Proof.
  intros path_join st.
  destruct (regenerate_qr path_join 20 (Id "L1") st) as (_ & H & _).
  apply (H "L1" (Sample.listing L_video_generated)); reflexivity.
Defined.

(** ** Dealer statistics *)

Section Stats.

Import dealerController.

Lemma status_eqb_spec (a b : ListingStatus) : reflect (a = b) (status_eqb a b).
Proof. destruct a, b; simpl; constructor; congruence. Qed.

Lemma count_in_get (s s' : ListingStatus) (groups : list (ListingStatus * nat)) :
  count_of s (count_in s' groups)
  = (count_of s groups + (if status_eqb s' s then 1 else 0))%nat.
Proof.
  unfold count_of. induction groups as [|[s0 n] rest IH]; simpl.
  - destruct (status_eqb_spec s s'), (status_eqb_spec s' s); simpl; congruence.
  - destruct (status_eqb_spec s' s0) as [->|Hne0]; simpl.
    + destruct (status_eqb_spec s s0) as [->|Hne]; simpl.
      * destruct (status_eqb_spec s0 s0); [lia | congruence].
      * destruct (status_eqb_spec s0 s); [congruence | lia].
    + destruct (status_eqb_spec s s0) as [->|Hne]; simpl.
      * destruct (status_eqb_spec s' s0); [congruence | lia].
      * exact IH.
Qed.

Lemma count_in_total (s : ListingStatus) (groups : list (ListingStatus * nat)) :
  total (count_in s groups) = S (total groups).
Proof.
  unfold total. induction groups as [|[s0 n] rest IH]; simpl; [reflexivity|].
  destruct (status_eqb s s0); simpl; [reflexivity|]. rewrite IH. lia.
Qed.

Lemma count_in_positive (s : ListingStatus) (groups : list (ListingStatus * nat)) :
  Forall (fun g => (1 <= g.2)%nat) groups ->
  Forall (fun g => (1 <= g.2)%nat) (count_in s groups).
Proof.
  induction 1 as [|[s0 n] rest Hn Hrest IH]; simpl.
  - repeat constructor.
  - destruct (status_eqb s s0); constructor; simpl in *; try lia; assumption.
Qed.

Lemma count_in_keys (s : ListingStatus) (groups : list (ListingStatus * nat)) :
  NoDup (map fst groups) ->
  NoDup (map fst (count_in s groups)) /\
  forall k, k ∈ map fst (count_in s groups) <-> k = s \/ k ∈ map fst groups.
Proof.
  induction groups as [|[s0 n] rest IH]; simpl; intros Hnd.
  - split; [apply NoDup_singleton|]. intros k.
    rewrite list_elem_of_singleton, elem_of_nil. tauto.
  - apply NoDup_cons in Hnd as [Hs0 Hrest].
    destruct (status_eqb_spec s s0) as [->|Hne]; simpl.
    + split; [apply NoDup_cons; split; assumption|]. intros k.
      rewrite elem_of_cons. tauto.
    + destruct (IH Hrest) as [IHnd IHin]. split.
      * apply NoDup_cons. split; [|assumption].
        rewrite IHin. intros [Heq|Hin]; [congruence | contradiction].
      * intros k. rewrite !elem_of_cons, IHin. tauto.
Qed.

Lemma group_fold (ls : list Listing.t) (groups : list (ListingStatus * nat)) :
  let result := fold_left (fun g l => count_in (Listing.status l) g) ls groups in
  (forall s, count_of s result = (count_of s groups + with_status s ls)%nat) /\
  total result = (total groups + length ls)%nat /\
  (Forall (fun g => (1 <= g.2)%nat) groups -> Forall (fun g => (1 <= g.2)%nat) result) /\
  (NoDup (map fst groups) -> NoDup (map fst result)).
Proof.
  revert groups. induction ls as [|l ls IH]; intros groups; simpl.
  - repeat split; try (intros; unfold with_status; simpl; lia); auto.
  - destruct (IH (count_in (Listing.status l) groups)) as (Hc & Ht & Hp & Hk).
    repeat split.
    + intros s. rewrite Hc, count_in_get. unfold with_status. simpl.
      destruct (status_eqb (Listing.status l) s); simpl; lia.
    + rewrite Ht, count_in_total. lia.
    + intros H. apply Hp, count_in_positive, H.
    + intros H. apply Hk. apply (count_in_keys _ _ H).
Qed.

(** X27: the statistics of a dealer are consistent: the counts of
    [statusBreakdown] add up to [totalListings]; each status occurs at most
    once as a key, with a count of at least 1 that is the number of the
    dealer's listings in that status (a status without listing has no key);
    and [publishedVideos] is the count under [published], or 0 without
    such a key. *)
Theorem getStats_consistent (dealerId : string) (st : Store) :
  exists stats,
    getStats dealerId st = mkResponse 200 true (Some stats) None None /\
    fold_right Nat.add 0%nat (map snd (statusBreakdown stats)) = totalListings stats /\
    NoDup (map fst (statusBreakdown stats)) /\
    Forall (fun g => (1 <= g.2)%nat) (statusBreakdown stats) /\
    (forall s,
       default 0%nat (breakdown_get s (statusBreakdown stats))
       = length (List.filter (fun l => status_eqb (Listing.status l) s)
                   (List.filter (of_dealer dealerId) (listings st)))) /\
    publishedVideos stats
    = default 0%nat (breakdown_get L_published (statusBreakdown stats)).
Proof.
  eexists. split; [reflexivity|]. simpl.
  destruct (group_fold (List.filter (of_dealer dealerId) (listings st)) [])
    as (Hc & Ht & Hp & Hk).
  unfold group_by_status.
  split; [exact Ht|].
  split; [apply Hk; apply NoDup_nil_2|].
  split; [apply Hp; constructor|].
  split; [intros s; exact (Hc s)|].
  symmetry. exact (Hc L_published).
Qed.

End Stats.

Example getStats_sample :
  data (dealerController.getStats "D1"
          (set_listings
             [Sample.listing L_published; Sample.listing L_pending;
              Sample.listing L_published]
             (Sample.store L_pending S_draft V_ready [])))
  = Some (dealerController.mkStats 3 2 [(L_published, 2%nat); (L_pending, 1%nat)]).
Proof. reflexivity. Qed.

(** ** The two regeneration endpoints and the documents they write *)

(** X28: the two ways to regenerate a video write different documents.
    [listingController.regenerateVideo] never writes a video document, so a
    video keeps its status (even [published]) while its file is deleted and
    its listing is reset; [videoController.regenerate] never writes a
    listing, so the listing keeps its status and its video path. Neither
    writes a script. *)
Theorem regenerate_endpoints_write_apart (now : Date) (id : Param) (st : Store) :
  videos (listingController.regenerateVideo now id st).1 = videos st /\
  scripts (listingController.regenerateVideo now id st).1 = scripts st /\
  listings (videoController.regenerate now id st).1 = listings st /\
  scripts (videoController.regenerate now id st).1 = scripts st.
Proof.
  destruct id as [id|raw]; [|repeat split].
  repeat split.
  - unfold listingController.regenerateVideo. cbn [castObjectId].
    destruct (findOne (by_id id) st); [|reflexivity].
    unfold listingController.save.
    destruct (Listing.validate _); [|destruct (negb false && bool_decide _)];
      destruct (JS.truthy _ && existsSync _ st); reflexivity.
  - unfold listingController.regenerateVideo. cbn [castObjectId].
    destruct (findOne (by_id id) st); [|reflexivity].
    unfold listingController.save.
    destruct (Listing.validate _); [|destruct (negb false && bool_decide _)];
      destruct (JS.truthy _ && existsSync _ st); reflexivity.
  - unfold videoController.regenerate. cbn [castObjectId].
    destruct (videos st !! id); [|reflexivity].
    unfold videoController.save.
    destruct (Video.validate _); [|destruct (bool_decide _)];
      destruct (existsSync _ st); reflexivity.
  - unfold videoController.regenerate. cbn [castObjectId].
    destruct (videos st !! id); [|reflexivity].
    unfold videoController.save.
    destruct (Video.validate _); [|destruct (bool_decide _)];
      destruct (existsSync _ st); reflexivity.
Qed.

(** X29: the counter under the editor of the scripts page shows, for the
    text being edited, the very [wordCount] and [estimatedDuration] that
    [update] stores when that text is saved. *)
Theorem editCounter_matches_saved (now : Date) (id : Param) (c : string)
    (editedBy : option string) (st : Store) (saved : Script.t) :
  data (scriptController.update now id (Some c) editedBy st).2 = Some saved ->
  ScriptsPage.editCounter c = (Script.wordCount saved, Script.estimatedDuration saved).
Proof.
  destruct id as [id|raw]; [|discriminate].
  unfold scriptController.update, scriptController.save. cbn [castObjectId].
  destruct (scripts st !! id); [|discriminate].
  destruct (Script.validate _); [discriminate|].
  simpl. intros H. inversion H; subst saved. reflexivity.
Qed.

Lemma editCounter_matches_saved_witness :
  let st := Sample.store L_script_generated S_pending_approval V_ready [] in
  ScriptsPage.editCounter "Born to ride "
  = (Script.wordCount
       (Script.mk "HD100" "Born to ride " 4 2 S_pending_approval None None None
          [ScriptVersion.mk "Ride the legend today" 20 "admin"] 20),
     Script.estimatedDuration
       (Script.mk "HD100" "Born to ride " 4 2 S_pending_approval None None None
          [ScriptVersion.mk "Ride the legend today" 20 "admin"] 20)).
Proof.
  intros st.
  apply (editCounter_matches_saved 20 (Id "S1") "Born to ride " None st).
  reflexivity.
Defined.
